(** * x402 payment gate, validators and clients: a shallow embedding

    The development follows four source units of the repository:
    - [Validator]: the payment validator (validatePayment,
      validatePaymentFallback, validatePaymentOnChain);
    - [Gate]: the Express handler of POST /sentiment with its
      module-level [processedPayments] set;
    - [Client]: the two paying HTTP clients, X402Client and
      X402ServerClient, with their EIP-712 authorization signers;
    - [JS]: the fragment of JavaScript values, JSON and string
      primitives these programs rely on.

    Conventions of the embedding:
    - an [await]ed call to the outside (the facilitator, the chain RPC, the
      sentiment service, the wallet, the clock, the random source) is an
      input of the embedded function, and the calls a handler makes are
      recorded in its outcome;
    - an exception is a value [Throw message]; a [try]/[catch] is a match
      on it;
    - the library functions the programs call but do not define
      (JSON.parse, BigInt, ethers.getAddress) come in a [Runtime] record;
      the statements hold for every runtime, and the module [Node] gives one
      to evaluate them with;
    - text is 8-bit text (the payloads are ASCII), numbers are exact
      rationals, and [processedPayments] is the list of the values added to
      the set, in insertion order. *)

From Stdlib Require Import ZArith QArith Qround List String Ascii Bool Lia.
From Stdlib Require Import DecimalString.
From Stdlib.Strings Require Import Byte.
Import ListNotations.
Set Warnings "-register-all".
Open Scope string_scope.
Open Scope Z_scope.

(* ===================================================================== *)
(** * JavaScript values                                                    *)
(* ===================================================================== *)

Module JS.

(** A JavaScript exception carrying its [message]. *)
Inductive except (A : Type) : Type :=
| Ok (a : A)
| Throw (message : string).
Arguments Ok {A} a.
Arguments Throw {A} message.

Definition bind {A B} (m : except A) (k : A -> except B) : except B :=
  match m with
  | Ok a => k a
  | Throw e => Throw e
  end.

Declare Scope js_scope.
Delimit Scope js_scope with js.
Notation "x <- m ;; k" := (bind m (fun x => k))
  (at level 100, m at next level, right associativity) : js_scope.
Notation "' p <- m ;; k" := (bind m (fun x => match x with p => k end))
  (at level 100, p pattern, m at next level, right associativity) : js_scope.

(** Values produced by JSON.parse.  Numbers are exact rationals. *)
Inductive json : Type :=
| JNull
| JBool (b : bool)
| JNum (q : Q)
| JStr (s : string)
| JArr (items : list json)
| JObj (fields : list (string * json)).

(** A JavaScript value here is a JSON value or [undefined] ([None]). *)
Definition value : Type := option json.
Definition undefined : value := None.

(** ToBoolean. *)
Definition truthy (v : value) : bool :=
  match v with
  | None => false
  | Some JNull => false
  | Some (JBool b) => b
  | Some (JNum q) => negb (Qeq_bool q 0)
  | Some (JStr s) => negb (String.eqb s EmptyString)
  | Some (JArr _) => true
  | Some (JObj _) => true
  end.

Fixpoint lookup (k : string) (fields : list (string * json)) : value :=
  match fields with
  | [] => None
  | (k', v) :: rest => if String.eqb k k' then Some v else lookup k rest
  end.

(** The libraries of the host that the programs call but do not define. *)
Record Runtime : Type := {
  (** JSON.parse: the parsed value, or a SyntaxError. *)
  JSON_parse : string -> except json;
  (** Message of the TypeError raised when property [p] cannot be used. *)
  TypeError_message : string -> string;
  (** BigInt(string): the integer, or a SyntaxError. *)
  BigInt : string -> except Z;
  (** ethers.getAddress: the checksummed address, or an error. *)
  getAddress : string -> except string
}.

(** Property read [v.k].  Reading a property of [null] or [undefined] is a
    TypeError; objects give their own field; the other values have none of
    the property names used in these programs. *)
Definition get (rt : Runtime) (v : value) (k : string) : except value :=
  match v with
  | None | Some JNull => Throw (TypeError_message rt k)
  | Some (JObj fields) => Ok (lookup k fields)
  | Some _ => Ok undefined
  end.

(** Optional chaining [v?.k]. *)
Definition get_opt (v : value) (k : string) : value :=
  match v with
  | Some (JObj fields) => lookup k fields
  | _ => undefined
  end.

(** SameValueZero on the values a Set can hold.  Primitives compare by
    content; an array or an object is equal only to itself, and every array
    or object met here was freshly allocated by JSON.parse, so it differs
    from every stored one. *)
Definition same_value_zero (v w : value) : bool :=
  match v, w with
  | None, None => true
  | Some JNull, Some JNull => true
  | Some (JBool a), Some (JBool b) => Bool.eqb a b
  | Some (JNum a), Some (JNum b) => Qeq_bool a b
  | Some (JStr a), Some (JStr b) => String.eqb a b
  | _, _ => false
  end.

Definition is_primitive (v : value) : bool :=
  match v with
  | Some (JArr _) | Some (JObj _) => false
  | _ => true
  end.

(** [v === true]. *)
Definition is_true (v : value) : bool :=
  match v with
  | Some (JBool true) => true
  | _ => false
  end.

(** ** Strings *)

Definition chars (s : string) : list ascii := list_ascii_of_string s.
Definition of_chars (l : list ascii) : string := string_of_list_ascii l.

Definition code (c : ascii) : N := N_of_ascii c.

Definition between (lo hi : N) (c : ascii) : bool :=
  (N.leb lo (code c) && N.leb (code c) hi)%bool.

Definition is_digit (c : ascii) : bool := between 48 57 c.
Definition is_hex (c : ascii) : bool :=
  (is_digit c || between 97 102 c || between 65 70 c)%bool.

Definition lower_char (c : ascii) : ascii :=
  if between 65 90 c then ascii_of_N (code c + 32) else c.

(** String.prototype.toLowerCase on ASCII text. *)
Definition toLowerCase (s : string) : string :=
  of_chars (map lower_char (chars s)).

(** [s.startsWith(p)]. *)
Definition startsWith (p s : string) : bool := String.prefix p s.

(** [s.slice(n)] for a non-negative [n]. *)
Definition slice (n : nat) (s : string) : string :=
  of_chars (skipn n (chars s)).

(** [s.length]. *)
Definition length (s : string) : Z := Z.of_nat (String.length s).

Fixpoint join (sep : string) (l : list string) : string :=
  match l with
  | [] => EmptyString
  | [x] => x
  | x :: rest => x ++ sep ++ join sep rest
  end.

(** ** Numbers as text *)

Definition Z_toString (z : Z) : string := NilZero.string_of_int (Z.to_int z).

Definition digit_char (d : Z) : ascii := ascii_of_N (48 + Z.to_N d).

(** Decimal digits of the fraction [r / d] (with [0 <= r < d]), at most
    [n] of them, stopping when the expansion ends. *)
Fixpoint fraction_digits (n : nat) (r d : Z) : list ascii :=
  match n with
  | O => []
  | S n' =>
      if r =? 0 then []
      else digit_char (r * 10 / d) :: fraction_digits n' (r * 10 mod d) d
  end.

(** Number.prototype.toString: integers print in decimal; the other
    numbers met here are sums of an integer and a whole number of
    thousandths, whose shortest decimal form has at most three digits after
    the point. *)
Definition Number_toString (q : Q) : string :=
  let n := Qnum q in
  let d := Z.pos (Qden q) in
  let a := Z.abs n in
  let sign := if n <? 0 then "-" else EmptyString in
  let whole := Z_toString (a / d) in
  match fraction_digits 20 (a mod d) d with
  | [] => sign ++ whole
  | frac => sign ++ whole ++ "." ++ of_chars frac
  end.

(** ** JSON.stringify *)

Definition hex_char (d : N) : ascii :=
  if N.ltb d 10 then ascii_of_N (48 + d) else ascii_of_N (87 + d).

Definition dquote : ascii := ascii_of_N 34.
Definition backslash : ascii := ascii_of_N 92.

Definition escape_char (c : ascii) : list ascii :=
  let n := code c in
  if N.eqb n 34 then [backslash; dquote]
  else if N.eqb n 92 then [backslash; backslash]
  else if N.eqb n 8 then [backslash; "b"%char]
  else if N.eqb n 12 then [backslash; "f"%char]
  else if N.eqb n 10 then [backslash; "n"%char]
  else if N.eqb n 13 then [backslash; "r"%char]
  else if N.eqb n 9 then [backslash; "t"%char]
  else if N.ltb n 32 then
    [backslash; "u"%char; "0"%char; "0"%char;
     hex_char (n / 16); hex_char (n mod 16)]
  else [c].

Definition quote (s : string) : string :=
  String dquote (of_chars (flat_map escape_char (chars s))
                 ++ String dquote EmptyString).

Fixpoint JSON_stringify (j : json) : string :=
  match j with
  | JNull => "null"
  | JBool true => "true"
  | JBool false => "false"
  | JNum q => Number_toString q
  | JStr s => quote s
  | JArr items =>
      "[" ++ join "," ((fix each (l : list json) : list string :=
                          match l with
                          | [] => []
                          | x :: r => JSON_stringify x :: each r
                          end) items) ++ "]"
  | JObj fields =>
      "{" ++ join "," ((fix each (l : list (string * json)) : list string :=
                          match l with
                          | [] => []
                          | (k, v) :: r =>
                              (quote k ++ ":" ++ JSON_stringify v) :: each r
                          end) fields) ++ "}"
  end.

(** An object literal: a property whose value is [undefined] is left out
    by JSON.stringify and by res.json. *)
Definition object (props : list (string * value)) : json :=
  JObj ((fix keep (l : list (string * value)) : list (string * json) :=
           match l with
           | [] => []
           | (k, Some v) :: r => (k, v) :: keep r
           | (_, None) :: r => keep r
           end) props).

(** ** Bytes: hexlify and base64 *)

(** ethers.hexlify: [0x] and two lower-case hex digits per byte. *)
Definition hexlify (bytes : list byte) : string :=
  "0x" ++ of_chars (flat_map (fun b => [hex_char (Byte.to_N b / 16);
                                         hex_char (Byte.to_N b mod 16)]) bytes).

Definition base64_char (n : N) : ascii :=
  if N.ltb n 26 then ascii_of_N (65 + n)
  else if N.ltb n 52 then ascii_of_N (71 + n)
  else if N.ltb n 62 then ascii_of_N (n - 4)
  else if N.eqb n 62 then "+"%char
  else "/"%char.

Fixpoint base64_bytes (l : list byte) : list ascii :=
  match l with
  | [] => []
  | [a] =>
      let x := Byte.to_N a in
      [base64_char (x / 4); base64_char ((x mod 4) * 16); "="%char; "="%char]
  | [a; b] =>
      let x := Byte.to_N a in
      let y := Byte.to_N b in
      [base64_char (x / 4); base64_char ((x mod 4) * 16 + y / 16);
       base64_char ((y mod 16) * 4); "="%char]
  | a :: b :: c :: rest =>
      let x := Byte.to_N a in
      let y := Byte.to_N b in
      let z := Byte.to_N c in
      base64_char (x / 4) :: base64_char ((x mod 4) * 16 + y / 16)
      :: base64_char ((y mod 16) * 4 + z / 64) :: base64_char (z mod 64)
      :: base64_bytes rest
  end.

(** Buffer.from(s).toString('base64'), on the bytes of the text. *)
Definition base64 (s : string) : string :=
  of_chars (base64_bytes (list_byte_of_string s)).

(** ** A reference JSON.parse

    A recursive-descent reader of the JSON grammar of ECMA-404 over 8-bit
    text, used as the [JSON_parse] of the concrete runtime [node] below.
    The statements that quantify over a [Runtime] do not depend on it. *)

Definition is_ws (c : ascii) : bool :=
  let n := code c in
  (N.eqb n 32 || N.eqb n 9 || N.eqb n 10 || N.eqb n 13)%bool.

Fixpoint skip_ws (cs : list ascii) : list ascii :=
  match cs with
  | c :: r => if is_ws c then skip_ws r else cs
  | [] => []
  end.

Definition is_char (n : N) (c : ascii) : bool := N.eqb (code c) n.

(** Leading decimal digits: their value, their number, and the rest. *)
Fixpoint take_digits (cs : list ascii) (acc : Z) (count : nat)
  : Z * nat * list ascii :=
  match cs with
  | c :: r =>
      if is_digit c
      then take_digits r (acc * 10 + Z.of_N (code c - 48)) (S count)
      else (acc, count, cs)
  | [] => (acc, count, [])
  end.

Definition parse_fraction (cs : list ascii) : option (Q * list ascii) :=
  match cs with
  | c :: r =>
      if is_char 46 c then
        match take_digits r 0 O with
        | (_, O, _) => None
        | (f, k, rest) => Some ((f # 1) / ((10 ^ Z.of_nat k) # 1), rest)%Q
        end
      else Some (0%Q, cs)
  | [] => Some (0%Q, [])
  end.

Definition parse_exponent (cs : list ascii) : option (Z * list ascii) :=
  match cs with
  | c :: r =>
      if (is_char 101 c || is_char 69 c)%bool then
        let '(neg, r1) :=
          match r with
          | s :: r' =>
              if is_char 45 s then (true, r')
              else if is_char 43 s then (false, r') else (false, r)
          | [] => (false, r)
          end in
        match take_digits r1 0 O with
        | (_, O, _) => None
        | (e, _, rest) => Some (if neg then - e else e, rest)
        end
      else Some (0, cs)
  | [] => Some (0, [])
  end.

Definition parse_number (cs : list ascii) : option (Q * list ascii) :=
  let '(neg, cs1) :=
    match cs with
    | c :: r => if is_char 45 c then (true, r) else (false, cs)
    | [] => (false, cs)
    end in
  match cs1 with
  | c :: r =>
      if is_digit c then
        let '(ip, _, cs2) :=
          if is_char 48 c then (0, 1%nat, r) else take_digits cs1 0 O in
        match parse_fraction cs2 with
        | None => None
        | Some (fr, cs3) =>
            match parse_exponent cs3 with
            | None => None
            | Some (e, cs4) =>
                let m := (((ip # 1) + fr) * Qpower (10 # 1) e)%Q in
                Some (Qred (if neg then - m else m)%Q, cs4)
            end
        end
      else None
  | [] => None
  end.

Definition hex_value (c : ascii) : option N :=
  let n := code c in
  if is_digit c then Some (n - 48)%N
  else if between 97 102 c then Some (n - 87)%N
  else if between 65 70 c then Some (n - 55)%N
  else None.

(** The characters of a string literal after its opening quote.  An escape
    [\uXXXX] above 00FF has no 8-bit character and is refused. *)
Fixpoint parse_string (cs acc : list ascii) : option (string * list ascii) :=
  match cs with
  | [] => None
  | c :: r =>
      if is_char 34 c then Some (of_chars (rev acc), r)
      else if is_char 92 c then
        match r with
        | [] => None
        | e :: r1 =>
            if is_char 34 e then parse_string r1 (dquote :: acc)
            else if is_char 92 e then parse_string r1 (backslash :: acc)
            else if is_char 47 e then parse_string r1 ("/"%char :: acc)
            else if is_char 98 e then parse_string r1 (ascii_of_N 8 :: acc)
            else if is_char 102 e then parse_string r1 (ascii_of_N 12 :: acc)
            else if is_char 110 e then parse_string r1 (ascii_of_N 10 :: acc)
            else if is_char 114 e then parse_string r1 (ascii_of_N 13 :: acc)
            else if is_char 116 e then parse_string r1 (ascii_of_N 9 :: acc)
            else if is_char 117 e then
              match r1 with
              | h1 :: h2 :: h3 :: h4 :: r2 =>
                  match hex_value h1, hex_value h2, hex_value h3, hex_value h4 with
                  | Some 0%N, Some 0%N, Some a, Some b =>
                      parse_string r2 (ascii_of_N (a * 16 + b) :: acc)
                  | _, _, _, _ => None
                  end
              | _ => None
              end
            else None
        end
      else if N.ltb (code c) 32 then None
      else parse_string r (c :: acc)
  end.

(** Assignment of an object member: a repeated key keeps its place and
    takes the later value. *)
Fixpoint obj_set (fields : list (string * json)) (k : string) (v : json)
  : list (string * json) :=
  match fields with
  | [] => [(k, v)]
  | (k', v') :: rest =>
      if String.eqb k k' then (k', v) :: rest else (k', v') :: obj_set rest k v
  end.

Definition expect_word (w : string) (cs : list ascii) : option (list ascii) :=
  if String.prefix w (of_chars cs)
  then Some (skipn (String.length w) cs) else None.

Fixpoint parse_value (fuel : nat) (cs : list ascii)
  : option (json * list ascii) :=
  match fuel with
  | O => None
  | S f =>
      match skip_ws cs with
      | [] => None
      | c :: r =>
          if is_char 123 c then
            match skip_ws r with
            | c' :: r' =>
                if is_char 125 c' then Some (JObj [], r')
                else parse_members f r []
            | [] => None
            end
          else if is_char 91 c then
            match skip_ws r with
            | c' :: r' =>
                if is_char 93 c' then Some (JArr [], r')
                else parse_elements f r []
            | [] => None
            end
          else if is_char 34 c then
            match parse_string r [] with
            | Some (s, rest) => Some (JStr s, rest)
            | None => None
            end
          else if is_char 116 c then
            option_map (pair (JBool true)) (expect_word "true" (c :: r))
          else if is_char 102 c then
            option_map (pair (JBool false)) (expect_word "false" (c :: r))
          else if is_char 110 c then
            option_map (pair JNull) (expect_word "null" (c :: r))
          else
            match parse_number (c :: r) with
            | Some (q, rest) => Some (JNum q, rest)
            | None => None
            end
      end
  end
with parse_members (fuel : nat) (cs : list ascii) (acc : list (string * json))
  : option (json * list ascii) :=
  match fuel with
  | O => None
  | S f =>
      match skip_ws cs with
      | c :: r =>
          if is_char 34 c then
            match parse_string r [] with
            | Some (k, r1) =>
                match skip_ws r1 with
                | c1 :: r2 =>
                    if is_char 58 c1 then
                      match parse_value f r2 with
                      | Some (v, r3) =>
                          match skip_ws r3 with
                          | c3 :: r4 =>
                              if is_char 44 c3
                              then parse_members f r4 (obj_set acc k v)
                              else if is_char 125 c3
                              then Some (JObj (obj_set acc k v), r4)
                              else None
                          | [] => None
                          end
                      | None => None
                      end
                    else None
                | [] => None
                end
            | None => None
            end
          else None
      | [] => None
      end
  end
with parse_elements (fuel : nat) (cs : list ascii) (acc : list json)
  : option (json * list ascii) :=
  match fuel with
  | O => None
  | S f =>
      match parse_value f cs with
      | Some (v, r) =>
          match skip_ws r with
          | c :: r' =>
              if is_char 44 c then parse_elements f r' (acc ++ [v])
              else if is_char 93 c then Some (JArr (acc ++ [v]), r')
              else None
          | [] => None
          end
      | None => None
      end
  end.

(** ** The Fetch API as seen by its callers *)

(** [await fetch(url, init)]: the call rejects (a network error), or yields
    a response with a status and a body; reading the body may fail too. *)
Inductive FetchResult : Type :=
| FetchThrows (message : string)
| FetchResponse (status : Z) (body : except string).

(** [response.ok]. *)
Definition response_ok (status : Z) : bool :=
  ((200 <=? status) && (status <=? 299))%bool.

(** [await response.json()]. *)
Definition response_json (rt : Runtime) (body : except string) : except json :=
  bind body (JSON_parse rt).

Definition parse (s : string) : except json :=
  match parse_value (S (String.length s)) (chars s) with
  | Some (v, rest) =>
      match skip_ws rest with
      | [] => Ok v
      | _ => Throw "Unexpected non-whitespace character after JSON"
      end
  | None => Throw "Unexpected token in JSON"
  end.

End JS.

(* ===================================================================== *)
(** * The payment validator                                               *)
(* ===================================================================== *)

Module Validator.
Import JS.

(** [/^0x[0-9a-fA-F]+$/.test(s)]. *)
Definition isValidHex (s : string) : bool :=
  match chars s with
  | a :: b :: c :: rest =>
      (is_char 48 a && is_char 120 b && forallb is_hex (c :: rest))%bool
  | _ => false
  end.

(** validatePaymentFallback: the format check.  Nothing in its body can
    throw on a string, so its catch clause is never entered. *)
Definition validatePaymentFallback (transactionHash : string) : bool :=
  if (String.eqb transactionHash EmptyString
      || (JS.length transactionHash <? 10))%bool then false
  else if startsWith "0x" transactionHash then
    if negb (isValidHex transactionHash) then false else true
  else true.

(** The body posted to the facilitator's /verify endpoint. *)
Definition verify_request (transactionHash expectedRecipient expectedAmount : string)
  : string :=
  JSON_stringify (object [("transactionHash", Some (JStr transactionHash));
                          ("recipient", Some (JStr expectedRecipient));
                          ("amount", Some (JStr expectedAmount))]).

(** The try block of validatePayment; [Throw] is an exception reaching its
    catch clause. *)
Definition validatePayment_try (rt : Runtime) (fetch : string -> string -> FetchResult)
    (transactionHash expectedRecipient expectedAmount facilitatorUrl : string)
  : except bool :=
  match fetch (facilitatorUrl ++ "/verify")
              (verify_request transactionHash expectedRecipient expectedAmount) with
  | FetchThrows e => Throw e
  | FetchResponse status body =>
      if negb (response_ok status) then
        if ((status =? 404) || (status =? 501))%bool
        then Ok (validatePaymentFallback transactionHash)
        else Ok false
      else
        (result <- response_json rt body ;;
         valid <- get rt (Some result) "valid" ;;
         Ok (is_true valid))%js
  end.

Definition validatePayment (rt : Runtime) (fetch : string -> string -> FetchResult)
    (transactionHash expectedRecipient expectedAmount facilitatorUrl : string)
  : bool :=
  match validatePayment_try rt fetch transactionHash expectedRecipient
                            expectedAmount facilitatorUrl with
  | Ok b => b
  | Throw _ => validatePaymentFallback transactionHash
  end.

(** ** On-chain validation *)

Record Log : Type := {
  address : string;
  topics : list string;
  data : string
}.

Record TransactionReceipt : Type := {
  status : option Z;
  logs : list Log
}.

(** [ethers.id('Transfer(address,address,uint256)')]. *)
Definition transferTopic : string :=
  "0xddf252ad1be2c89b69c2b068fc378daa952ba7f163c4a11628f55a4df523b3ef".

(** [log.topics[i]]. *)
Definition topic (log : Log) (i : nat) : option string := nth_error (topics log) i.

(** The predicate of [receipt.logs.filter]. *)
Definition isTransferOf (tokenAddress : string) (log : Log) : bool :=
  (match topic log 0 with
   | Some t => String.eqb t transferTopic
   | None => false
   end
   && String.eqb (toLowerCase (address log)) (toLowerCase tokenAddress))%bool.

(** [ethers.getAddress('0x' + log.topics[i].slice(26))]. *)
Definition topicAddress (rt : Runtime) (log : Log) (i : nat) : except string :=
  match topic log i with
  | None => Throw (TypeError_message rt "slice")
  | Some t => getAddress rt ("0x" ++ slice 26 t)
  end.

(** The three decoding statements at the head of the loop body. *)
Definition decodeTransfer (rt : Runtime) (log : Log)
  : except (string * string * Z) :=
  (from <- topicAddress rt log 1 ;;
   to <- topicAddress rt log 2 ;;
   amount <- BigInt rt (data log) ;;
   Ok (from, to, amount))%js.

(** The condition of the [if] in the loop body, with the short circuit of
    [&&]: the expected amount is converted only when the recipient matches. *)
Definition transferMatches (rt : Runtime) (expectedRecipient expectedAmount : string)
    (to : string) (amount : Z) : except bool :=
  if String.eqb (toLowerCase to) (toLowerCase expectedRecipient) then
    (expected <- BigInt rt expectedAmount ;; Ok (expected <=? amount))%js
  else Ok false.

(** The [for ... of] loop over the transfer logs. *)
Fixpoint scanTransfers (rt : Runtime) (expectedRecipient expectedAmount : string)
    (transferLogs : list Log) : except bool :=
  match transferLogs with
  | [] => Ok false
  | log :: rest =>
      ('(_, to, amount) <- decodeTransfer rt log ;;
       hit <- transferMatches rt expectedRecipient expectedAmount to amount ;;
       if hit : bool then Ok true
       else scanTransfers rt expectedRecipient expectedAmount rest)%js
  end.

Definition validatePaymentOnChain_try (rt : Runtime)
    (getTransactionReceipt : string -> string -> except (option TransactionReceipt))
    (transactionHash rpcUrl expectedRecipient expectedAmount tokenAddress : string)
  : except bool :=
  (receipt <- getTransactionReceipt rpcUrl transactionHash ;;
   match receipt with
   | None => Ok false
   | Some receipt =>
       if negb (match status receipt with Some 1 => true | _ => false end)
       then Ok false
       else
         let transferLogs := filter (isTransferOf tokenAddress) (logs receipt) in
         if (List.length transferLogs =? 0)%nat then Ok false
         else scanTransfers rt expectedRecipient expectedAmount transferLogs
   end)%js.

Definition validatePaymentOnChain (rt : Runtime)
    (getTransactionReceipt : string -> string -> except (option TransactionReceipt))
    (transactionHash rpcUrl expectedRecipient expectedAmount tokenAddress : string)
  : bool :=
  match validatePaymentOnChain_try rt getTransactionReceipt transactionHash rpcUrl
                                   expectedRecipient expectedAmount tokenAddress with
  | Ok b => b
  | Throw _ => false
  end.

End Validator.

(* ===================================================================== *)
(** * The payment gate: POST /sentiment                                   *)
(* ===================================================================== *)

Module Gate.
Import JS.

(** The variables of [process.env] the handler reads. *)
Record Env : Type := {
  USDC_TOKEN_ADDRESS : option string;
  RECEIVER_WALLET_ADDRESS : option string;
  PAYMENT_AMOUNT : option string;
  NETWORK : option string;
  FACILITATOR_URL : option string
}.

(** [process.env.X || d]: an unset or empty variable gives the default. *)
Definition or_default (v : option string) (d : string) : string :=
  match v with
  | Some s => if String.eqb s EmptyString then d else s
  | None => d
  end.

Record Request : Type := {
  (** [req.headers['x-payment']] *)
  x_payment : option string;
  (** [req.body] *)
  body : value
}.

Record Response : Type := {
  status : Z;
  content_type : string;
  json : JS.json
}.

(** [res.status(code).json(payload)]. *)
Definition reply (code : Z) (payload : JS.json) : Response :=
  {| status := code; content_type := "application/json"; json := payload |}.

(** The calls the handler makes to the outside, in order. *)
Inductive Call : Type :=
| CallFacilitator (url : option string) (body : string)
| CallAnalyzeSentiment (text : string) (model temperature : value).

(** The outside as it answers during one request. *)
Record World : Type := {
  facilitator : option string -> string -> FetchResult;
  analyzeSentiment : string -> value -> value -> except JS.json
}.

(** What handling one request leaves behind: the response sent, the set
    [processedPayments] afterwards, and the outside calls made. *)
Record Outcome : Type := {
  response : Response;
  processedPayments : list value;
  calls : list Call
}.

(** [processedPayments.has(v)]. *)
Definition has (store : list value) (v : value) : bool :=
  existsb (same_value_zero v) store.

(** [processedPayments.add(v)]. *)
Definition add (store : list value) (v : value) : list value :=
  if has store v then store else store ++ [v].

(** The payment method of this route, as the 402 body lists it. *)
Definition paymentMethod (env : Env) : JS.json :=
  object [("scheme", Some (JStr "eip3009"));
          ("asset", Some (JStr (or_default (USDC_TOKEN_ADDRESS env)
                     "0x036CbD53842c5426634e7929541eC2318f3dCF7e")));
          ("recipient", Some (JStr (or_default (RECEIVER_WALLET_ADDRESS env)
                     "0x501ab28fc3c7d29c2d12b243723eb5c5418b9de6")));
          ("maximumAmount", Some (JStr (or_default (PAYMENT_AMOUNT env) "100000")));
          ("minimumAmount", Some (JStr (or_default (PAYMENT_AMOUNT env) "100000")));
          ("network", Some (JStr (or_default (NETWORK env) "base-sepolia")));
          ("description",
           Some (JStr "Sentiment Analysis API - Premium GPT-4 powered analysis"));
          ("timeout", Some (JNum 300000))].

(** The 402 body. *)
Definition challenge (env : Env) : JS.json :=
  object [("methods", Some (JArr [paymentMethod env]))].

Definition invalidFormat : Response :=
  reply 400 (object [("error", Some (JStr "Invalid payment format"));
     ("message", Some (JStr
        "X-PAYMENT header must contain valid JSON signed authorization"))]).

Definition invalidAuthorization : Response :=
  reply 400 (object [("error", Some (JStr "Invalid authorization"));
     ("message", Some (JStr "Authorization missing required fields"))]).

Definition alreadyUsed : Response :=
  reply 400 (object [("error", Some (JStr "Payment already used"));
     ("message", Some (JStr
        "This payment authorization has already been processed"))]).

Definition settlementFailed (message : string) : Response :=
  reply 402 (object [("error", Some (JStr "Payment settlement failed"));
                     ("message", Some (JStr message))]).

Definition facilitatorUnreachable (message : string) : Response :=
  reply 502 (object [("error", Some (JStr "Facilitator communication failed"));
     ("message", Some (JStr ("Could not reach payment facilitator: " ++ message)))]).

Definition missingText : Response :=
  reply 400 (object [("error", Some (JStr "Missing required field: text"))]).

(** The outer catch clause. *)
Definition internalError (message : string) : Response :=
  reply 500 (object [("error", Some (JStr "Internal server error"));
                     ("message", Some (JStr message))]).

(** [{ ...result, payment: {...} }]. *)
Definition paid (env : Env) (result : JS.json) (transactionHash : value) : Response :=
  let payment := object [("transactionHash", transactionHash);
                         ("status", Some (JStr "confirmed"));
                         ("network", option_map JStr (NETWORK env))] in
  reply 200 (JObj (obj_set (match result with JObj fields => fields | _ => [] end)
                           "payment" payment)).

(** [signedAuth.payload?.signature] and [signedAuth.payload?.authorization]
    are both truthy. *)
Definition hasRequiredFields (rt : Runtime) (signedAuth : JS.json) : except bool :=
  (payload <- get rt (Some signedAuth) "payload" ;;
   if negb (truthy (get_opt payload "signature")) then Ok false
   else Ok (truthy (get_opt payload "authorization")))%js.

(** [signedAuth.payload.authorization.nonce]. *)
Definition authNonce (rt : Runtime) (signedAuth : JS.json) : except value :=
  (payload <- get rt (Some signedAuth) "payload" ;;
   authorization <- get rt payload "authorization" ;;
   get rt authorization "nonce")%js.

(** The inner try block (step 3): an early response, or the transaction
    hash the facilitator returned; [Throw] reaches the inner catch. *)
Definition settle (rt : Runtime) (answer : FetchResult) : except (Response + value) :=
  match answer with
  | FetchThrows e => Throw e
  | FetchResponse code text =>
      if negb (response_ok code) then
        (errorText <- text ;;
         Ok (inl (settlementFailed ("Facilitator error: " ++ errorText))))%js
      else
        (facilitatorResult <- response_json rt text ;;
         transactionHash <- get rt (Some facilitatorResult) "transactionHash" ;;
         if negb (truthy transactionHash)
         then Ok (inl (settlementFailed "Facilitator did not return transaction hash"))
         else Ok (inr transactionHash))%js
  end.

(** [const { text, model, temperature } = req.body]. *)
Definition parameters (rt : Runtime) (body : value) : except (value * value * value) :=
  (text <- get rt body "text" ;;
   model <- get rt body "model" ;;
   temperature <- get rt body "temperature" ;;
   Ok (text, model, temperature))%js.

(** Steps 4 to 6, after the payment was marked as processed. *)
Definition serve (rt : Runtime) (w : World) (env : Env) (req : Request)
    (transactionHash : value) : Response * list Call :=
  match parameters rt (body req) with
  | Throw e => (internalError e, [])
  | Ok (text, model, temperature) =>
      if negb (truthy text) then (missingText, [])
      else
        match text with
        | Some (JStr t) =>
            let call := CallAnalyzeSentiment t model temperature in
            match analyzeSentiment w t model temperature with
            | Throw e => (internalError e, [call])
            | Ok result => (paid env result transactionHash, [call])
            end
        | _ => (internalError (TypeError_message rt "substring"), [])
        end
  end.

(** The handler of POST /sentiment. *)
Definition handle (rt : Runtime) (w : World) (env : Env) (store : list value)
    (req : Request) : Outcome :=
  let quiet (r : Response) :=
    {| response := r; processedPayments := store; calls := [] |} in
  match x_payment req with
  | None => quiet (reply 402 (challenge env))
  | Some paymentHeader =>
      if String.eqb paymentHeader EmptyString
      then quiet (reply 402 (challenge env))
      else
        match JSON_parse rt paymentHeader with
        | Throw _ => quiet invalidFormat
        | Ok signedAuth =>
            match hasRequiredFields rt signedAuth with
            | Throw e => quiet (internalError e)
            | Ok false => quiet invalidAuthorization
            | Ok true =>
                match authNonce rt signedAuth with
                | Throw e => quiet (internalError e)
                | Ok nonce =>
                    if has store nonce then quiet alreadyUsed
                    else
                      let url := FACILITATOR_URL env in
                      let sent := JSON_stringify signedAuth in
                      let call := CallFacilitator url sent in
                      match settle rt (facilitator w url sent) with
                      | Throw e =>
                          {| response := facilitatorUnreachable e;
                             processedPayments := store; calls := [call] |}
                      | Ok (inl early) =>
                          {| response := early;
                             processedPayments := store; calls := [call] |}
                      | Ok (inr transactionHash) =>
                          let '(r, more) := serve rt w env req transactionHash in
                          {| response := r;
                             processedPayments := add store nonce;
                             calls := call :: more |}
                      end
                end
            end
        end
  end.

(** Requests handled one after the other, each against the outside as it
    is at that moment; [processedPayments] lives as long as the process. *)
Fixpoint run (rt : Runtime) (env : Env) (store : list value)
    (requests : list (Request * World)) : list Outcome :=
  match requests with
  | [] => []
  | (req, w) :: rest =>
      let o := handle rt w env store req in
      o :: run rt env (processedPayments o) rest
  end.

(** The nonce under which the handler looks a request up in
    [processedPayments], when it gets that far. *)
Definition nonceOf (rt : Runtime) (req : Request) : option value :=
  match x_payment req with
  | None => None
  | Some paymentHeader =>
      if String.eqb paymentHeader EmptyString then None
      else
        match JSON_parse rt paymentHeader with
        | Throw _ => None
        | Ok signedAuth =>
            match hasRequiredFields rt signedAuth with
            | Ok true =>
                match authNonce rt signedAuth with
                | Ok nonce => Some nonce
                | Throw _ => None
                end
            | _ => None
            end
        end
  end.

(** The protected resource was invoked. *)
Definition invoked (o : Outcome) : bool :=
  existsb (fun c => match c with CallAnalyzeSentiment _ _ _ => true | _ => false end)
          (calls o).

End Gate.

(* ===================================================================== *)
(** * The paying clients                                                  *)
(* ===================================================================== *)

Module Client.
Import JS.

(** [method.extra]: optional EIP-712 domain hints. *)
Record Extra : Type := {
  name : option string;
  version : option string
}.

(** A payment method of a 402 body, as the signers read it. *)
Record PaymentMethod : Type := {
  scheme : string;
  asset : string;
  recipient : string;
  maximumAmount : string;
  minimumAmount : string;
  network : string;
  description : option string;
  timeout : option Q;
  extra : option Extra
}.

Record Wallet : Type := {
  address : string;
  privateKey : string
}.

Record Domain : Type := {
  domain_name : string;
  domain_version : string;
  chainId : Z;
  verifyingContract : string
}.

(** The EIP-712 message handed to the wallet. *)
Record Message : Type := {
  from : string;
  to : string;
  value : string;
  validAfter : Q;
  validBefore : Q;
  nonce : string
}.

(** The [types] argument of signTypedData: primary type and its fields. *)
Definition TypedData : Type := list (string * list (string * string)).

Definition types : TypedData :=
  [("TransferWithAuthorization",
    [("from", "address"); ("to", "address"); ("value", "uint256");
     ("validAfter", "uint256"); ("validBefore", "uint256");
     ("nonce", "bytes32")])].

(** What a signer takes from the outside: the wallet's signTypedData, the
    clock ([Date.now()], in milliseconds) and ethers.randomBytes. *)
Record Signing : Type := {
  signTypedData : Wallet -> Domain -> TypedData -> Message -> except string;
  now : Z;
  randomBytes : nat -> list byte
}.

(** [method.timeout ? method.timeout / 1000 : 300]. *)
Definition lifetime (method : PaymentMethod) : Q :=
  match timeout method with
  | Some t => if truthy (Some (JNum t)) then t / 1000 else 300
  | None => 300
  end.

(** [a || d] on an optional string. *)
Definition or_else (a : option string) (d : string) : string :=
  match a with
  | Some s => if String.eqb s EmptyString then d else s
  | None => d
  end.

(** The message both signers build. *)
Definition transferMessage (s : Signing) (wallet : Wallet) (method : PaymentMethod)
  : Message :=
  let validAfter := inject_Z (now s / 1000) in
  {| from := address wallet;
     to := recipient method;
     value := maximumAmount method;
     validAfter := validAfter;
     validBefore := validAfter + lifetime method;
     nonce := hexlify (randomBytes s 32) |}.

(** The signed authorization payload both clients emit. *)
Definition signedPayload (method : PaymentMethod) (m : Message) (signature : string)
  : json :=
  object [("x402Version", Some (JNum 1));
          ("scheme", Some (JStr (scheme method)));
          ("network", Some (JStr (network method)));
          ("payload", Some (object [
             ("signature", Some (JStr signature));
             ("authorization", Some (object [
                ("from", Some (JStr (from m)));
                ("to", Some (JStr (to m)));
                ("value", Some (JStr (value m)));
                ("validAfter", Some (JStr (Number_toString (validAfter m))));
                ("validBefore", Some (JStr (Number_toString (validBefore m))));
                ("nonce", Some (JStr (nonce m)))]))]))].

(** [{...options.headers, 'X-PAYMENT': header}]. *)
Fixpoint withPayment (headers : list (string * string)) (header : string)
  : list (string * string) :=
  match headers with
  | [] => [("X-PAYMENT", header)]
  | (k, v) :: rest =>
      if String.eqb k "X-PAYMENT" then (k, header) :: rest
      else (k, v) :: withPayment rest header
  end.

Fixpoint header (k : string) (headers : list (string * string)) : option string :=
  match headers with
  | [] => None
  | (k', v) :: rest => if String.eqb k k' then Some v else header k rest
  end.

(** ** X402Client *)

Module X402Client.

(** getChainId: the table, with base-sepolia for a name it does not hold. *)
Definition getChainId (network : string) : Z :=
  if String.eqb network "base" then 8453
  else if String.eqb network "base-sepolia" then 84532
  else if String.eqb network "ethereum" then 1
  else if String.eqb network "sepolia" then 11155111
  else if String.eqb network "polygon" then 137
  else if String.eqb network "arbitrum" then 42161
  else if String.eqb network "optimism" then 10
  else 84532.

Definition domain (method : PaymentMethod) : Domain :=
  {| domain_name := "USDC";
     domain_version := "2";
     chainId := getChainId (network method);
     verifyingContract := asset method |}.

(** createSignedAuthorization: the payload, or [null] ([None]) when its
    catch clause was entered. *)
Definition createSignedAuthorization (s : Signing) (wallet : Wallet)
    (method : PaymentMethod) : option json :=
  let message := transferMessage s wallet method in
  match signTypedData s wallet (domain method) types message with
  | Ok signature => Some (signedPayload method message signature)
  | Throw _ => None
  end.

(** Steps 3 and 4 of fetch after a 402: the headers of the retried
    request, or the error thrown when no authorization was created. *)
Definition retryHeaders (s : Signing) (wallet : Wallet) (method : PaymentMethod)
    (headers : list (string * string)) : except (list (string * string)) :=
  match createSignedAuthorization s wallet method with
  | None => Throw "Failed to create payment authorization"
  | Some signedAuth => Ok (withPayment headers (JSON_stringify signedAuth))
  end.

End X402Client.

(** ** X402ServerClient *)

Module X402ServerClient.

Definition domain (method : PaymentMethod) : Domain :=
  {| domain_name := or_else (match extra method with
                             | Some e => name e
                             | None => None
                             end) "USDC";
     domain_version := or_else (match extra method with
                                | Some e => version e
                                | None => None
                                end) "2";
     chainId := if String.eqb (network method) "base" then 8453 else 84532;
     verifyingContract := asset method |}.

(** createPaymentAuthorization: the X-PAYMENT header value; an error of
    the wallet propagates to the caller. *)
Definition createPaymentAuthorization (s : Signing) (wallet : Wallet)
    (method : PaymentMethod) : except string :=
  let message := transferMessage s wallet method in
  (signature <- signTypedData s wallet (domain method) types message ;;
   Ok (base64 (JSON_stringify (signedPayload method message signature))))%js.

(** Steps 3 and 4 of fetch after a 402: the headers of the retried
    request. *)
Definition retryHeaders (s : Signing) (wallet : Wallet) (method : PaymentMethod)
    (headers : list (string * string)) : except (list (string * string)) :=
  (paymentHeader <- createPaymentAuthorization s wallet method ;;
   Ok (withPayment headers paymentHeader))%js.

End X402ServerClient.

End Client.

(* ===================================================================== *)
(** * A concrete runtime                                                  *)
(* ===================================================================== *)

Module Node.
Import JS.

Fixpoint digits_value (base : Z) (cs : list ascii) (acc : Z) : option Z :=
  match cs with
  | [] => Some acc
  | c :: r =>
      match hex_value c with
      | Some d => if Z.of_N d <? base then digits_value base r (acc * base + Z.of_N d)
                  else None
      | None => None
      end
  end.

(** BigInt on the literals met here: the empty string, decimal digits, and
    [0x] followed by hex digits. *)
Definition bigInt (s : string) : except Z :=
  match chars s with
  | [] => Ok 0
  | a :: b :: c :: r =>
      if (is_char 48 a && is_char 120 b)%bool then
        match digits_value 16 (c :: r) 0 with
        | Some z => Ok z
        | None => Throw ("Cannot convert " ++ s ++ " to a BigInt")
        end
      else
        match digits_value 10 (a :: b :: c :: r) 0 with
        | Some z => Ok z
        | None => Throw ("Cannot convert " ++ s ++ " to a BigInt")
        end
  | cs =>
      match digits_value 10 cs 0 with
      | Some z => Ok z
      | None => Throw ("Cannot convert " ++ s ++ " to a BigInt")
      end
  end.

(** getAddress on [0x] and forty hex digits.  The EIP-55 capitalisation of
    the result needs Keccak-256; the result is given in lower case, which
    is all its callers here look at. *)
Definition address_of (s : string) : except string :=
  match chars s with
  | a :: b :: r =>
      if (is_char 48 a && is_char 120 b && forallb is_hex r
          && (List.length r =? 40)%nat)%bool
      then Ok (toLowerCase s) else Throw "invalid address"
  | _ => Throw "invalid address"
  end.

Definition node : Runtime :=
  {| JSON_parse := parse;
     TypeError_message := fun p => "Cannot read properties of undefined (reading '"
                                   ++ p ++ "')";
     BigInt := bigInt;
     getAddress := address_of |}.

End Node.

(* ===================================================================== *)
(** * Sample data                                                         *)
(* ===================================================================== *)

Module Sample.
Import JS.

Definition env : Gate.Env :=
  {| Gate.USDC_TOKEN_ADDRESS := None;
     Gate.RECEIVER_WALLET_ADDRESS := None;
     Gate.PAYMENT_AMOUNT := None;
     Gate.NETWORK := Some "base-sepolia";
     Gate.FACILITATOR_URL := Some "https://x402.treasure.lol/facilitator" |}.

(** The method the gate advertises under [env]. *)
Definition method : Client.PaymentMethod :=
  {| Client.scheme := "eip3009";
     Client.asset := "0x036CbD53842c5426634e7929541eC2318f3dCF7e";
     Client.recipient := "0x501ab28fc3c7d29c2d12b243723eb5c5418b9de6";
     Client.maximumAmount := "100000";
     Client.minimumAmount := "100000";
     Client.network := "base-sepolia";
     Client.description := Some "Sentiment Analysis API - Premium GPT-4 powered analysis";
     Client.timeout := Some 300000%Q;
     Client.extra := None |}.

Definition wallet : Client.Wallet :=
  {| Client.address := "0x1111111111111111111111111111111111111111";
     Client.privateKey :=
       "0x0000000000000000000000000000000000000000000000000000000000000001" |}.

(** A wallet stub, a clock at 1700000000.250 s, and a fixed random source. *)
Definition signing : Client.Signing :=
  {| Client.signTypedData := fun _ _ _ _ => Ok "0x5139";
     Client.now := 1700000000250;
     Client.randomBytes := fun n => repeat x01 n |}.

(** A clock long after the authorizations signed under [signing] expired. *)
Definition muchLater : Z := 1800000000.

Definition signedAuth : json :=
  Client.signedPayload method (Client.transferMessage signing wallet method) "0x5139".

(** The header X402Client sends, and the one X402ServerClient sends. *)
Definition rawHeader : string := JSON_stringify signedAuth.
Definition base64Header : string := base64 rawHeader.

Definition goodBody : value :=
  Some (JObj [("text", JStr "I love this product!")]).

Definition emptyBody : value := Some (JObj []).

Definition analysis : json :=
  JObj [("text", JStr "I love this product!"); ("sentiment", JStr "positive");
        ("confidence", JNum (95 # 100)); ("explanation", JStr "love")].

(** The facilitator settles and answers with a transaction hash. *)
Definition settling : Gate.World :=
  {| Gate.facilitator := fun _ _ =>
       FetchResponse 200 (Ok (JSON_stringify (JObj [("transactionHash", JStr "0xdeadbeef")])));
     Gate.analyzeSentiment := fun _ _ _ => Ok analysis |}.

(** The facilitator is down. *)
Definition outage : Gate.World :=
  {| Gate.facilitator := fun _ _ => FetchResponse 503 (Ok "Service Unavailable");
     Gate.analyzeSentiment := fun _ _ _ => Ok analysis |}.

Definition paidRequest : Gate.Request :=
  {| Gate.x_payment := Some rawHeader; Gate.body := goodBody |}.

Definition unpaidRequest : Gate.Request :=
  {| Gate.x_payment := None; Gate.body := goodBody |}.

Definition nonce : value :=
  Some (JStr "0x0101010101010101010101010101010101010101010101010101010101010101").

End Sample.

(* ===================================================================== *)
(** * Terms of the statements about the validator                         *)
(* ===================================================================== *)

Module ValidatorTerms.
Import JS Validator.

(** The facilitator itself confirmed the payment: it answered 2xx with a
    JSON body whose [valid] is [true]. *)
Definition confirmed (rt : Runtime) (answer : FetchResult) : bool :=
  match answer with
  | FetchResponse status (Ok text) =>
      (response_ok status
       && match JSON_parse rt text with
          | Ok result => is_true (get_opt (Some result) "valid")
          | Throw _ => false
          end)%bool
  | _ => false
  end.

(** The ways the facilitator call can go that make validatePayment use
    validatePaymentFallback: the call rejects, the status is 404 or 501, or
    a 2xx body cannot be read, is not JSON, or is [null]. *)
Definition fallsBack (rt : Runtime) (answer : FetchResult) : bool :=
  match answer with
  | FetchThrows _ => true
  | FetchResponse status body =>
      if negb (response_ok status)
      then ((status =? 404) || (status =? 501))%bool
      else
        match response_json rt body with
        | Throw _ => true
        | Ok JNull => true
        | Ok _ => false
        end
  end.

(** The call validatePayment makes. *)
Definition verifyCall (fetch : string -> string -> FetchResult)
    (transactionHash expectedRecipient expectedAmount facilitatorUrl : string)
  : FetchResult :=
  fetch (facilitatorUrl ++ "/verify")
        (verify_request transactionHash expectedRecipient expectedAmount).

(** ** The chain validator, in the words of the claim

    These follow the claim and the ERC-20 event layout, not the code: a
    Transfer(address,address,uint256) event has the hash of its signature
    as first topic, [from] and [to] as second and third topic (an address
    is the last twenty bytes of the 32-byte word) and the value as data. *)

(** The log is a Transfer event emitted by the asset contract, the
    emitter compared without letter case. *)
Definition emittedBy (asset : string) (log : Log) : Prop :=
  nth_error (topics log) 0 = Some transferTopic
  /\ toLowerCase (address log) = toLowerCase asset.

(** Topic [i] of the log holds the address [a]. *)
Definition indexedAddress (rt : Runtime) (log : Log) (i : nat) (a : string) : Prop :=
  exists word,
    nth_error (topics log) i = Some word
    /\ getAddress rt ("0x" ++ slice 26 word) = Ok a.

(** The log reads as a transfer of [amount] from [sender] to [receiver]. *)
Definition transfers (rt : Runtime) (log : Log) (sender receiver : string)
    (amount : Z) : Prop :=
  indexedAddress rt log 1 sender
  /\ indexedAddress rt log 2 receiver
  /\ BigInt rt (data log) = Ok amount.

(** The log can be read as a transfer at all. *)
Definition wellFormed (rt : Runtime) (log : Log) : Prop :=
  exists sender receiver amount, transfers rt log sender receiver amount.

(** The log is a transfer to the expected recipient, compared without
    letter case, of at least the expected amount. *)
Definition pays (rt : Runtime) (recipient minimum : string) (log : Log) : Prop :=
  exists sender receiver amount least,
    transfers rt log sender receiver amount
    /\ toLowerCase receiver = toLowerCase recipient
    /\ BigInt rt minimum = Ok least
    /\ least <= amount.

(** The condition of the claim on a receipt: its status is success and
    some Transfer log of the asset contract pays the recipient. *)
Definition claimedPaid (rt : Runtime) (asset recipient minimum : string)
    (receipt : TransactionReceipt) : Prop :=
  status receipt = Some 1
  /\ exists log,
       In log (logs receipt) /\ emittedBy asset log /\ pays rt recipient minimum log.

(** A receipt as an ERC-20 token leaves it: one Transfer of 100000 units
    to the recipient. *)
Definition paidReceipt : TransactionReceipt :=
  {| status := Some 1;
     logs := [{| address := "0x036CbD53842c5426634e7929541eC2318f3dCF7e";
                 topics := [transferTopic;
                   "0x0000000000000000000000001111111111111111111111111111111111111111";
                   "0x000000000000000000000000501ab28fc3c7d29c2d12b243723eb5c5418b9de6"];
                 data :=
                   "0x00000000000000000000000000000000000000000000000000000000000186a0"
              |}] |}.

(** A receipt whose asset contract first logs a Transfer with a third
    indexed parameter and no data, as ERC-721 lays the event out, and then
    the Transfer of 100000 units to the recipient. *)
Definition mixedReceipt : TransactionReceipt :=
  {| status := Some 1;
     logs := [{| address := "0x036CbD53842c5426634e7929541eC2318f3dCF7e";
                 topics := [transferTopic;
                   "0x0000000000000000000000001111111111111111111111111111111111111111";
                   "0x0000000000000000000000002222222222222222222222222222222222222222";
                   "0x0000000000000000000000000000000000000000000000000000000000000007"];
                 data := "0x" |}]
             ++ logs paidReceipt |}.

End ValidatorTerms.

(* ===================================================================== *)
(** * Terms of the statements about the gate                              *)
(* ===================================================================== *)

Module GateTerms.
Import JS Gate.

(** The request carries, in its X-PAYMENT header, the signed authorization
    [sa] whose nonce is [n], and passes the gate's structural check. *)
Definition carries (rt : Runtime) (req : Request) (sa : JS.json) (n : value) : Prop :=
  exists h,
    x_payment req = Some h /\ h <> EmptyString /\ JSON_parse rt h = Ok sa
    /\ hasRequiredFields rt sa = Ok true /\ authNonce rt sa = Ok n.

(** The answer of the facilitator to the submission of [sa]. *)
Definition facilitatorAnswer (env : Env) (w : World) (sa : JS.json) : FetchResult :=
  facilitator w (FACILITATOR_URL env) (JSON_stringify sa).

(** The facilitator call failed: a communication exception (the fetch or
    the reading of the body threw, or a 2xx body was not JSON), a response
    that is not 2xx, or a 2xx body without a transaction hash. *)
Definition facilitatorFailed (rt : Runtime) (answer : FetchResult) : bool :=
  match answer with
  | FetchThrows _ => true
  | FetchResponse code text =>
      if negb (response_ok code) then true
      else
        match response_json rt text with
        | Throw _ => true
        | Ok result => negb (truthy (get_opt (Some result) "transactionHash"))
        end
  end.

(** A response sent without touching the set or the outside. *)
Definition silently (store : list value) (r : Response) : Outcome :=
  {| response := r; processedPayments := store; calls := [] |}.

(** The outcome at position [i] of a run. *)
Definition outcomeAt (rt : Runtime) (env : Env) (store : list value)
    (requests : list (Request * World)) (i : nat) : option Outcome :=
  nth_error (run rt env store requests) i.

(** [authorization.validBefore] of a decoded header, read as a number of
    seconds when it is a string of decimal digits. *)
Definition validBeforeOf (sa : JS.json) : option Z :=
  match get_opt (get_opt (get_opt (Some sa) "payload") "authorization") "validBefore" with
  | Some (JStr s) => Node.digits_value 10 (chars s) 0
  | _ => None
  end.

End GateTerms.

(* ===================================================================== *)
(** * The payment gate under overlapping requests                         *)
(* ===================================================================== *)

Module Overlap.
Import JS Gate.

(** A request in flight.  The handler is an async function: it runs
    without interruption up to its next [await], and while it waits there
    the handlers of other requests run.  It waits for the facilitator
    (the fetch and the reading of its answer, between which the handler
    touches nothing shared) and for the resource. *)
Inductive Task : Type :=
| Arrived (req : Request)
| AwaitingFacilitator (req : Request) (signedAuth : JS.json) (authNonce : value)
| AwaitingResource (req : Request) (transactionHash : value) (text : string)
                   (model temperature : value)
| Responded (r : Response).

(** One uninterrupted run of a handler, from where it stands to its next
    [await] or to its response: the task afterwards, [processedPayments]
    afterwards, and the outside calls issued. *)
Definition resume (rt : Runtime) (w : World) (env : Env) (store : list value)
    (task : Task) : Task * list value * list Call :=
  match task with
  | Arrived req =>
      match x_payment req with
      | None => (Responded (reply 402 (challenge env)), store, [])
      | Some paymentHeader =>
          if String.eqb paymentHeader EmptyString
          then (Responded (reply 402 (challenge env)), store, [])
          else
            match JSON_parse rt paymentHeader with
            | Throw _ => (Responded invalidFormat, store, [])
            | Ok signedAuth =>
                match hasRequiredFields rt signedAuth with
                | Throw e => (Responded (internalError e), store, [])
                | Ok false => (Responded invalidAuthorization, store, [])
                | Ok true =>
                    match authNonce rt signedAuth with
                    | Throw e => (Responded (internalError e), store, [])
                    | Ok nonce =>
                        if has store nonce then (Responded alreadyUsed, store, [])
                        else (AwaitingFacilitator req signedAuth nonce, store,
                              [CallFacilitator (FACILITATOR_URL env)
                                               (JSON_stringify signedAuth)])
                    end
                end
            end
      end
  | AwaitingFacilitator req signedAuth nonce =>
      match settle rt (facilitator w (FACILITATOR_URL env)
                                   (JSON_stringify signedAuth)) with
      | Throw e => (Responded (facilitatorUnreachable e), store, [])
      | Ok (inl early) => (Responded early, store, [])
      | Ok (inr transactionHash) =>
          let marked := add store nonce in
          match parameters rt (body req) with
          | Throw e => (Responded (internalError e), marked, [])
          | Ok (text, model, temperature) =>
              if negb (truthy text) then (Responded missingText, marked, [])
              else
                match text with
                | Some (JStr t) =>
                    (AwaitingResource req transactionHash t model temperature,
                     marked, [CallAnalyzeSentiment t model temperature])
                | _ => (Responded (internalError (TypeError_message rt "substring")),
                        marked, [])
                end
          end
      end
  | AwaitingResource req transactionHash t model temperature =>
      match analyzeSentiment w t model temperature with
      | Throw e => (Responded (internalError e), store, [])
      | Ok result => (Responded (paid env result transactionHash), store, [])
      end
  | Responded r => (Responded r, store, [])
  end.

(** The process: the set, the requests in flight and the outside calls
    issued so far. *)
Record Process : Type := {
  processedPayments : list value;
  inFlight : list Task;
  calls : list Call
}.

Fixpoint replace (tasks : list Task) (i : nat) (task : Task) : list Task :=
  match tasks, i with
  | [], _ => []
  | _ :: rest, O => task :: rest
  | t :: rest, S i' => t :: replace rest i' task
  end.

(** The event loop gives the handler of request [i] its next run. *)
Definition turn (rt : Runtime) (w : World) (env : Env) (p : Process) (i : nat)
  : Process :=
  match nth_error (inFlight p) i with
  | None => p
  | Some task =>
      let '(task', store', issued) := resume rt w env (processedPayments p) task in
      {| processedPayments := store';
         inFlight := replace (inFlight p) i task';
         calls := (calls p ++ issued)%list |}
  end.

(** The runs of the handlers in the order the event loop gives them. *)
Definition schedule (rt : Runtime) (w : World) (env : Env) (p : Process)
    (order : list nat) : Process :=
  fold_left (turn rt w env) order p.

(** The requests as they arrive at a process with the given set. *)
Definition arriving (store : list value) (requests : list Request) : Process :=
  {| processedPayments := store; inFlight := map Arrived requests; calls := [] |}.

(** How often the protected resource was invoked. *)
Definition invocations (p : Process) : nat :=
  List.length (filter (fun c => match c with
                                | CallAnalyzeSentiment _ _ _ => true
                                | _ => false
                                end) (calls p)).

End Overlap.

(* ===================================================================== *)
(** * The sentiment service                                               *)
(* ===================================================================== *)

Module Sentiment.
Import JS.

Definition newline : string := String (ascii_of_N 10) EmptyString.

(** A text between double quotes. *)
Definition quoted (s : string) : string :=
  String dquote (s ++ String dquote EmptyString).

(** The system message of the request. *)
Definition systemPrompt : string :=
  join newline [
    "You are a sentiment analysis expert. Analyze the sentiment of the given text and respond in JSON format with:";
    "- sentiment: one of " ++ quoted "positive" ++ ", " ++ quoted "negative"
      ++ ", or " ++ quoted "neutral";
    "- confidence: a number between 0 and 1 indicating confidence";
    "- explanation: a brief explanation of why you chose this sentiment";
    EmptyString;
    "Example response:";
    "{";
    "  " ++ quoted "sentiment" ++ ": " ++ quoted "positive" ++ ",";
    "  " ++ quoted "confidence" ++ ": 0.95,";
    "  " ++ quoted "explanation" ++ ": "
      ++ quoted "The text expresses strong enthusiasm and satisfaction with the product.";
    "}"].

(** A default parameter value: taken when the argument is [undefined]. *)
Definition orDefault (v : value) (d : json) : json :=
  match v with
  | None => d
  | Some j => j
  end.

(** The body posted to the chat completions endpoint. *)
Definition completionRequest (text : string) (model temperature : value) : string :=
  JSON_stringify (JObj [
    ("model", orDefault model (JStr "gpt-3.5-turbo"));
    ("messages", JArr [
       JObj [("role", JStr "system"); ("content", JStr systemPrompt)];
       JObj [("role", JStr "user");
             ("content", JStr ("Analyze the sentiment of this text: " ++ quoted text))]]);
    ("temperature", orDefault temperature (JNum (3 # 10)));
    ("response_format", JObj [("type", JStr "json_object")])]).

(** A response of fetch, with its status text. *)
Record Reply : Type := {
  status : Z;
  statusText : string;
  body : except string
}.

(** The outside of the service: the API key of the environment and the
    chat completions endpoint, called with the Authorization header and the
    request body. *)
Record OpenAI : Type := {
  OPENAI_API_KEY : option string;
  completions : string -> string -> except Reply
}.

(** [v[0]]. *)
Definition first (rt : Runtime) (v : value) : except value :=
  match v with
  | None | Some JNull => Throw (TypeError_message rt "0")
  | Some (JArr items) => Ok (nth_error items 0)
  | Some (JObj fields) => Ok (lookup "0" fields)
  | Some (JStr s) =>
      Ok (match s with
          | EmptyString => undefined
          | String c _ => Some (JStr (String c EmptyString))
          end)
  | Some _ => Ok undefined
  end.

(** ToString, the conversion JSON.parse applies to its argument. *)
Fixpoint toString (j : json) : string :=
  match j with
  | JNull => "null"
  | JBool true => "true"
  | JBool false => "false"
  | JNum q => Number_toString q
  | JStr s => s
  | JArr items =>
      join "," ((fix each (l : list json) : list string :=
                   match l with
                   | [] => []
                   | JNull :: r => EmptyString :: each r
                   | x :: r => toString x :: each r
                   end) items)
  | JObj _ => "[object Object]"
  end.

(** [JSON.parse(content)]. *)
Definition parseContent (rt : Runtime) (content : value) : except json :=
  JSON_parse rt (match content with
                 | None => "undefined"
                 | Some j => toString j
                 end).

(** [haystack.includes(needle)]. *)
Fixpoint includes (needle haystack : string) : bool :=
  if String.prefix needle haystack then true
  else match haystack with
       | EmptyString => false
       | String _ rest => includes needle rest
       end.

(** The catch clause of the parse: the sentiment is read off the words of
    the reply.  Only a string has toLowerCase. *)
Definition extracted (rt : Runtime) (content : value) : except json :=
  match content with
  | Some (JStr c) =>
      let lower := toLowerCase c in
      Ok (JObj [("sentiment",
                 JStr (if includes "positive" lower then "positive"
                       else if includes "negative" lower then "negative"
                       else "neutral"));
                ("confidence", JNum (1 # 2));
                ("explanation", JStr c)])
  | _ => Throw (TypeError_message rt "toLowerCase")
  end.

(** The parsed reply while its properties are being assigned: the parsed
    value and the properties assigned since. *)
Record Assigned : Type := {
  parsed : json;
  own : list (string * json)
}.

(** [result.k]. *)
Definition read (rt : Runtime) (r : Assigned) (k : string) : except value :=
  match lookup k (own r) with
  | Some v => Ok (Some v)
  | None => get rt (Some (parsed r)) k
  end.

(** [result.k = v], in strict mode: an object or an array takes the
    property, another value raises a TypeError. *)
Definition assign (rt : Runtime) (r : Assigned) (k : string) (v : json)
  : except Assigned :=
  match parsed r with
  | JObj _ | JArr _ => Ok {| parsed := parsed r; own := obj_set (own r) k v |}
  | _ => Throw (TypeError_message rt k)
  end.

(** [['positive', 'negative', 'neutral'].includes(v)]. *)
Definition isSentiment (v : value) : bool :=
  match v with
  | Some (JStr s) =>
      (String.eqb s "positive" || String.eqb s "negative" || String.eqb s "neutral")%bool
  | _ => false
  end.

(** [typeof v !== 'number' || v < 0 || v > 1]. *)
Definition badConfidence (v : value) : bool :=
  match v with
  | Some (JNum q) => (negb (Qle_bool 0 q) || negb (Qle_bool q 1))%bool
  | _ => true
  end.

(** The two validations and the returned object. *)
Definition validated (rt : Runtime) (text : string) (result : json) : except json :=
  (let r0 := {| parsed := result; own := [] |} in
   sentiment <- read rt r0 "sentiment" ;;
   r1 <- (if negb (isSentiment sentiment)
          then assign rt r0 "sentiment" (JStr "neutral") else Ok r0) ;;
   confidence <- read rt r1 "confidence" ;;
   r2 <- (if badConfidence confidence
          then assign rt r1 "confidence" (JNum (1 # 2)) else Ok r1) ;;
   sentiment' <- read rt r2 "sentiment" ;;
   confidence' <- read rt r2 "confidence" ;;
   explanation <- read rt r2 "explanation" ;;
   Ok (object [("text", Some (JStr text));
               ("sentiment", sentiment');
               ("confidence", confidence');
               ("explanation",
                if truthy explanation then explanation
                else Some (JStr "No explanation provided"))]))%js.

(** [data.choices[0].message.content]. *)
Definition messageContent (rt : Runtime) (data : json) : except value :=
  (choices <- get rt (Some data) "choices" ;;
   choice <- first rt choices ;;
   message <- get rt choice "message" ;;
   get rt message "content")%js.

(** The inner try and catch: the reply parsed as JSON, or else read off
    its words. *)
Definition interpreted (rt : Runtime) (content : value) : except json :=
  match parseContent rt content with
  | Ok j => Ok j
  | Throw _ => extracted rt content
  end.

(** The error thrown on a response that is not 2xx. *)
Definition apiError (rt : Runtime) (response : Reply) : string :=
  let errorData := match response_json rt (body response) with
                   | Ok j => j
                   | Throw _ => JObj []
                   end in
  "OpenAI API error: " ++ Number_toString (inject_Z (status response))
  ++ " " ++ statusText response ++ " - " ++ JSON_stringify errorData.

(** The try block of analyzeSentiment; [Throw] reaches its catch clause. *)
Definition analyzeSentiment_try (rt : Runtime) (api : OpenAI) (key : string)
    (text : string) (model temperature : value) : except json :=
  (response <- completions api ("Bearer " ++ key)
                           (completionRequest text model temperature) ;;
   if negb (response_ok (status response)) then Throw (apiError rt response)
   else
     data <- response_json rt (body response) ;;
     content <- messageContent rt data ;;
     result <- interpreted rt content ;;
     validated rt text result)%js.

Definition analyzeSentiment (rt : Runtime) (api : OpenAI)
    (text : string) (model temperature : value) : except json :=
  match OPENAI_API_KEY api with
  | None => Throw "OPENAI_API_KEY not configured"
  | Some key =>
      if String.eqb key EmptyString then Throw "OPENAI_API_KEY not configured"
      else
        match analyzeSentiment_try rt api key text model temperature with
        | Ok result => Ok result
        | Throw message => Throw ("Sentiment analysis failed: " ++ message)
        end
  end.

End Sentiment.

(* ===================================================================== *)
(** * The clients' fetch                                                  *)
(* ===================================================================== *)

Module Fetching.
Import JS Client.

(** The [options] of a fetch call. *)
Record RequestInit : Type := {
  method : option string;
  headers : list (string * string);
  body : option string
}.

(** A response: [text] is what reading its body gives; a body can be read
    once. *)
Record Response : Type := {
  status : Z;
  statusText : string;
  responseHeaders : list (string * string);
  text : except string;
  bodyUsed : bool
}.

(** The TypeError of a second read. *)
Definition bodyUnusable : string := "Body is unusable".

(** [await response.text()]. *)
Definition read (r : Response) : except string :=
  if bodyUsed r then Throw bodyUnusable else text r.

(** The same response after its body was read. *)
Definition used (r : Response) : Response :=
  {| status := status r; statusText := statusText r;
     responseHeaders := responseHeaders r; text := text r; bodyUsed := true |}.

(** The server a client talks to: it answers a request in its current
    state and moves to a new one; the call itself may reject. *)
Definition Server (S : Type) : Type :=
  S -> string -> RequestInit -> except Response * S.

(** [{...options, headers: {...options.headers, 'X-PAYMENT': payment}}]. *)
Definition paying (options : RequestInit) (payment : string) : RequestInit :=
  {| method := method options;
     headers := withPayment (headers options) payment;
     body := body options |}.

(** How an asynchronous call ends.  [Untyped] stands for a 402 body whose
    payment method does not have the type its reader declares: the
    embedding says nothing about what the client does with it. *)
Inductive Settled (A : Type) : Type :=
| Resolved (a : A)
| Rejected (message : string)
| Untyped.
Arguments Resolved {A} a.
Arguments Rejected {A} message.
Arguments Untyped {A}.

Definition asString (v : JS.value) : option string :=
  match v with
  | Some (JStr s) => Some s
  | _ => None
  end.

(** An optional member of the declared type: absent, or of that type. *)
Definition optionalString (v : JS.value) : option (option string) :=
  match v with
  | None => Some None
  | Some (JStr s) => Some (Some s)
  | _ => None
  end.

Definition optionalNumber (v : JS.value) : option (option Q) :=
  match v with
  | None => Some None
  | Some (JNum q) => Some (Some q)
  | _ => None
  end.

Definition asExtra (v : JS.value) : option (option Extra) :=
  match v with
  | None => Some None
  | Some (JObj fields) =>
      match optionalString (lookup "name" fields),
            optionalString (lookup "version" fields) with
      | Some n, Some ver => Some (Some {| name := n; version := ver |})
      | _, _ => None
      end
  | _ => None
  end.

(** A JSON value seen as an X402PaymentMethod: every member has the type
    the interface declares. *)
Definition asPaymentMethod (j : json) : option PaymentMethod :=
  match j with
  | JObj f =>
      match asString (lookup "scheme" f), asString (lookup "asset" f),
            asString (lookup "recipient" f), asString (lookup "maximumAmount" f),
            asString (lookup "minimumAmount" f), asString (lookup "network" f),
            optionalString (lookup "description" f),
            optionalNumber (lookup "timeout" f), asExtra (lookup "extra" f) with
      | Some sch, Some ast, Some rcp, Some mx, Some mn, Some net,
        Some dsc, Some tmo, Some ext =>
          Some {| scheme := sch; asset := ast; recipient := rcp;
                  maximumAmount := mx; minimumAmount := mn; network := net;
                  description := dsc; timeout := tmo; extra := ext |}
      | _, _, _, _, _, _, _, _, _ => None
      end
  | _ => None
  end.

(** ** X402Client *)

Module X402Client.

Record PaymentResult : Type := {
  success : bool;
  transactionHash : json;
  network : string
}.

(** What a call leaves behind: how it ended, the client's
    [lastTransaction], the requests it sent and the server's state. *)
Record Fetched (S : Type) : Type := {
  settled : Settled Response;
  lastTransaction : option PaymentResult;
  sent : list (string * RequestInit);
  server : S
}.
Arguments settled {S} _.
Arguments lastTransaction {S} _.
Arguments sent {S} _.
Arguments server {S} _.

(** The first payment method of a 402 body, as far as the log line reads
    it: [paymentReq.methods[0]], then [method.maximumAmount]. *)
Definition firstMethod (rt : Runtime) (response : Response) : except JS.value :=
  (paymentReq <- response_json rt (read response) ;;
   methods <- get rt (Some paymentReq) "methods" ;;
   method <- Sentiment.first rt methods ;;
   _ <- get rt method "maximumAmount" ;;
   Ok method)%js.

(** [new Response(JSON.stringify(result), {status, statusText, headers})];
    a status that allows no body makes the constructor throw. *)
Definition rebuilt (response : Response) (result : json) : except Response :=
  if ((status response =? 204) || (status response =? 205))%bool
  then Throw "Response with null body status cannot have body"
  else Ok {| status := status response; statusText := statusText response;
             responseHeaders := responseHeaders response;
             text := Ok (JSON_stringify result); bodyUsed := false |}.

(** [result.payment?.transactionHash], recorded when it is truthy. *)
Definition recorded (method : PaymentMethod) (payment : JS.value)
  : option PaymentResult :=
  match get_opt payment "transactionHash" with
  | Some hash =>
      if truthy (Some hash)
      then Some {| success := true; transactionHash := hash;
                   network := Client.network method |}
      else None
  | None => None
  end.

(** The part of fetch after the paid retry was answered. *)
Definition afterRetry (rt : Runtime) (method : PaymentMethod) (response : Response)
  : Settled Response * option PaymentResult :=
  if response_ok (status response) then
    match response_json rt (read response) with
    | Throw e => (Rejected e, None)
    | Ok result =>
        match get rt (Some result) "payment" with
        | Throw e => (Rejected e, None)
        | Ok payment =>
            match rebuilt response result with
            | Throw e => (Rejected e, recorded method payment)
            | Ok r => (Resolved r, recorded method payment)
            end
        end
    end
  else
    match read response with
    | Throw e => (Rejected e, None)
    | Ok _ => (Resolved (used response), None)
    end.

Definition fetch {S : Type} (rt : Runtime) (s : Signing) (wallet : Wallet)
    (serve : Server S) (state : S) (url : string) (options : RequestInit)
  : Fetched S :=
  let once (end_ : Settled Response) (st : S) :=
    {| settled := end_; lastTransaction := None;
       sent := [(url, options)]; server := st |} in
  match serve state url options with
  | (Throw e, st1) => once (Rejected e) st1
  | (Ok response, st1) =>
      if negb (status response =? 402) then once (Resolved response) st1
      else
        match firstMethod rt response with
        | Throw e => once (Rejected e) st1
        | Ok None => once Untyped st1
        | Ok (Some methodJson) =>
            match asPaymentMethod methodJson with
            | None => once Untyped st1
            | Some method =>
                match Client.X402Client.createSignedAuthorization s wallet method with
                | None => once (Rejected "Failed to create payment authorization") st1
                | Some signedAuth =>
                    let retry := paying options (JSON_stringify signedAuth) in
                    match serve st1 url retry with
                    | (Throw e, st2) =>
                        {| settled := Rejected e; lastTransaction := None;
                           sent := [(url, options); (url, retry)]; server := st2 |}
                    | (Ok response2, st2) =>
                        let '(end_, last) := afterRetry rt method response2 in
                        {| settled := end_; lastTransaction := last;
                           sent := [(url, options); (url, retry)]; server := st2 |}
                    end
                end
            end
        end
  end.

(** getExplorerUrl. *)
Definition getExplorerUrl (txHash network : string) : string :=
  (if String.eqb network "base" then "https://basescan.org/tx/"
   else if String.eqb network "base-sepolia" then "https://sepolia.basescan.org/tx/"
   else if String.eqb network "ethereum" then "https://etherscan.io/tx/"
   else if String.eqb network "sepolia" then "https://sepolia.etherscan.io/tx/"
   else if String.eqb network "polygon" then "https://polygonscan.com/tx/"
   else if String.eqb network "arbitrum" then "https://arbiscan.io/tx/"
   else if String.eqb network "optimism" then "https://optimistic.etherscan.io/tx/"
   else "https://sepolia.basescan.org/tx/") ++ txHash.

End X402Client.

(** ** X402ServerClient *)

Module X402ServerClient.

(** [a || b]. *)
Definition orValue (a b : JS.value) : JS.value := if truthy a then a else b.

(** [v?.[0]]. *)
Definition firstOf (v : JS.value) : JS.value :=
  match v with
  | Some (JArr items) => nth_error items 0
  | Some (JObj fields) => lookup "0" fields
  | Some (JStr (String c _)) => Some (JStr (String c EmptyString))
  | _ => undefined
  end.

(** [paymentReq.accepts?.[0] || paymentReq.methods?.[0]]. *)
Definition methodRaw (rt : Runtime) (paymentReq : json) : except JS.value :=
  (accepts <- get rt (Some paymentReq) "accepts" ;;
   Ok (orValue (firstOf accepts) (firstOf (get_opt (Some paymentReq) "methods"))))%js.

(** [methodRaw.timeout || (methodRaw.maxTimeoutSeconds ?
    methodRaw.maxTimeoutSeconds * 1000 : undefined)]; [None] when the
    product is taken of something that is not a number. *)
Definition normalTimeout (raw : JS.value) : option JS.value :=
  if truthy (get_opt raw "timeout") then Some (get_opt raw "timeout")
  else if truthy (get_opt raw "maxTimeoutSeconds") then
    match get_opt raw "maxTimeoutSeconds" with
    | Some (JNum q) => Some (Some (JNum (q * 1000)))
    | _ => None
    end
  else Some undefined.

(** The normalised [method] object; reading a member of a missing
    [methodRaw] throws. *)
Definition normalise (rt : Runtime) (raw : JS.value) : except (option json) :=
  (maximumAmount <- get rt raw "maximumAmount" ;;
   Ok (match normalTimeout raw with
       | None => None
       | Some timeout =>
           Some (object [
             ("maximumAmount", orValue maximumAmount (get_opt raw "maxAmountRequired"));
             ("recipient", orValue (get_opt raw "recipient") (get_opt raw "payTo"));
             ("timeout", timeout);
             ("scheme", get_opt raw "scheme");
             ("network", get_opt raw "network");
             ("asset", get_opt raw "asset");
             ("description", get_opt raw "description");
             ("extra", get_opt raw "extra")])
       end))%js.

(** The normalised method as createPaymentAuthorization reads it.  It has
    no minimumAmount, and the signer reads none. *)
Definition asMethod (j : json) : option PaymentMethod :=
  match j with
  | JObj f =>
      match asString (lookup "scheme" f), asString (lookup "asset" f),
            asString (lookup "recipient" f), asString (lookup "maximumAmount" f),
            asString (lookup "network" f),
            optionalString (lookup "description" f),
            optionalNumber (lookup "timeout" f), asExtra (lookup "extra" f) with
      | Some sch, Some ast, Some rcp, Some mx, Some net,
        Some dsc, Some tmo, Some ext =>
          Some {| scheme := sch; asset := ast; recipient := rcp;
                  maximumAmount := mx; minimumAmount := EmptyString; network := net;
                  description := dsc; timeout := tmo; extra := ext |}
      | _, _, _, _, _, _, _, _ => None
      end
  | _ => None
  end.

(** The method a 402 body asks to be paid with. *)
Definition methodOf (rt : Runtime) (paymentReq : json)
  : except (option PaymentMethod) :=
  (raw <- methodRaw rt paymentReq ;;
   normal <- normalise rt raw ;;
   Ok (match normal with
       | Some j => asMethod j
       | None => None
       end))%js.

Definition required (rt : Runtime) (response : Response)
  : except (option PaymentMethod) :=
  (paymentReq <- response_json rt (read response) ;;
   methodOf rt paymentReq)%js.

(** What a call leaves behind; [undefined] stands for the [null] of
    [lastTransactionHash]. *)
Record Fetched (S : Type) : Type := {
  settled : Settled Response;
  lastTransactionHash : JS.value;
  lastNetwork : option string;
  sent : list (string * RequestInit);
  server : S
}.
Arguments settled {S} _.
Arguments lastTransactionHash {S} _.
Arguments lastNetwork {S} _.
Arguments sent {S} _.
Arguments server {S} _.

(** [data.transactionHash || data.txHash || data.tx] of a clone of the
    response, inside its try block. *)
Definition hashOf (rt : Runtime) (response : Response) : JS.value :=
  match response_json rt (read response) with
  | Throw _ => undefined
  | Ok data =>
      match get rt (Some data) "transactionHash" with
      | Throw _ => undefined
      | Ok hash =>
          let found := orValue hash (orValue (get_opt (Some data) "txHash")
                                             (get_opt (Some data) "tx")) in
          if truthy found then found else undefined
      end
  end.

Definition fetch {S : Type} (rt : Runtime) (s : Signing) (wallet : Wallet)
    (serve : Server S) (state : S) (url : string) (options : RequestInit)
  : Fetched S :=
  let once (end_ : Settled Response) (st : S) :=
    {| settled := end_; lastTransactionHash := undefined; lastNetwork := None;
       sent := [(url, options)]; server := st |} in
  match serve state url options with
  | (Throw e, st1) => once (Rejected e) st1
  | (Ok response, st1) =>
      if negb (status response =? 402) then once (Resolved response) st1
      else
        match required rt response with
        | Throw e => once (Rejected e) st1
        | Ok None => once Untyped st1
        | Ok (Some method) =>
            match Client.X402ServerClient.createPaymentAuthorization s wallet method with
            | Throw e => once (Rejected e) st1
            | Ok paymentHeader =>
                let retry := paying options paymentHeader in
                let twice (end_ : Settled Response) (hash : JS.value) (st : S) :=
                  {| settled := end_; lastTransactionHash := hash;
                     lastNetwork := Some (Client.network method);
                     sent := [(url, options); (url, retry)]; server := st |} in
                match serve st1 url retry with
                | (Throw e, st2) => twice (Rejected e) undefined st2
                | (Ok response2, st2) =>
                    if response_ok (status response2)
                    then twice (Resolved response2) (hashOf rt response2) st2
                    else
                      match read response2 with
                      | Throw e => twice (Rejected e) undefined st2
                      | Ok _ => twice (Resolved response2) undefined st2
                      end
                end
            end
        end
  end.

End X402ServerClient.

(** ** X402BrowserClient *)

Module X402BrowserClient.

(** [b.toString(16).padStart(2, '0')]. *)
Definition byteHex (b : byte) : list ascii :=
  let n := Byte.to_N b in
  let digits := if N.ltb n 16 then [hex_char n]
                else [hex_char (n / 16); hex_char (n mod 16)] in
  if (List.length digits <? 2)%nat then "0"%char :: digits else digits.

(** The nonce printed by hand. *)
Definition nonceOf (bytes : list byte) : string :=
  "0x" ++ join EmptyString (map (fun b => of_chars (byteHex b)) bytes).

(** [s.slice(from, to)] for non-negative bounds. *)
Definition sliceBetween (from to : nat) (s : string) : string :=
  of_chars (firstn (to - from) (skipn from (chars s))).

(** [s.slice(-n)]. *)
Definition sliceLast (n : nat) (s : string) : string :=
  of_chars (skipn (String.length s - n) (chars s)).

Fixpoint hexPrefix (cs : list ascii) : list ascii :=
  match cs with
  | c :: r => if is_hex c then c :: hexPrefix r else []
  | [] => []
  end.

(** [parseInt(s, 16)]: white space, a sign and [0x] are skipped, the
    longest run of hex digits is read; [None] is NaN. *)
Definition parseInt16 (s : string) : option Z :=
  let cs := skip_ws (chars s) in
  let '(negative, cs) :=
    match cs with
    | c :: r => if is_char 45 c then (true, r)
                else if is_char 43 c then (false, r) else (false, cs)
    | [] => (false, cs)
    end in
  let cs :=
    match cs with
    | a :: b :: r =>
        if (is_char 48 a && (is_char 120 b || is_char 88 b))%bool then r else cs
    | _ => cs
    end in
  match hexPrefix cs with
  | [] => None
  | digits =>
      match Node.digits_value 16 digits 0 with
      | Some z => Some (if negative then - z else z)
      | None => None
      end
  end.

Record Sig : Type := {
  v : option Z;
  r : string;
  s : string
}.

(** The signature taken apart. *)
Definition split (signature : string) : Sig :=
  {| v := parseInt16 (sliceLast 2 signature);
     r := sliceBetween 0 66 signature;
     s := "0x" ++ sliceBetween 66 130 signature |}.

Definition domain (method : PaymentMethod) : Domain :=
  {| domain_name := "USDC";
     domain_version := "2";
     chainId := if String.eqb (network method) "base" then 8453 else 84532;
     verifyingContract := asset method |}.

(** The message, with the nonce printed by hand. *)
Definition message (sg : Signing) (wallet : Wallet) (method : PaymentMethod)
  : Message :=
  let validAfter := inject_Z (now sg / 1000) in
  {| from := address wallet;
     to := recipient method;
     value := maximumAmount method;
     validAfter := validAfter;
     validBefore := validAfter + lifetime method;
     nonce := nonceOf (randomBytes sg 32) |}.

(** The payload: the authorization and the parts of the signature side by
    side.  A [v] that is NaN is written as [null] by JSON.stringify. *)
Definition payloadOf (method : PaymentMethod) (m : Message) (sig : Sig) : json :=
  object [("x402Version", Some (JNum 1));
          ("scheme", Some (JStr (scheme method)));
          ("network", Some (JStr (network method)));
          ("payload", Some (object [
             ("from", Some (JStr (from m)));
             ("to", Some (JStr (to m)));
             ("value", Some (JStr (value m)));
             ("validAfter", Some (JNum (validAfter m)));
             ("validBefore", Some (JNum (validBefore m)));
             ("nonce", Some (JStr (nonce m)));
             ("v", Some (match v sig with
                         | Some z => JNum (inject_Z z)
                         | None => JNull
                         end));
             ("r", Some (JStr (r sig)));
             ("s", Some (JStr (s sig)))]))].

(** createPaymentAuthorization: the X-PAYMENT header value; an error of
    the signer propagates. *)
Definition createPaymentAuthorization (sg : Signing) (wallet : Wallet)
    (method : PaymentMethod) : except string :=
  let m := message sg wallet method in
  (signature <- signTypedData sg wallet (domain method) types m ;;
   Ok (base64 (JSON_stringify (payloadOf method m (split signature)))))%js.

End X402BrowserClient.

End Fetching.

(* ===================================================================== *)
(** * Tools that pay                                                      *)
(* ===================================================================== *)

Module Tools.
Import JS Fetching.

(** The body the sentiment_analysis tool posts. *)
Definition sentimentRequest (text : string) : json :=
  JObj [("text", JStr text); ("model", JStr "gpt-3.5-turbo");
        ("temperature", JNum (3 # 10))].

(** The execute function of the sentiment_analysis tool, run with a
    client, on parameters its schema accepted.  [endpoint] is the
    variable X402_SENTIMENT_API_URL. *)
Definition sentimentAnalysis {S : Type} (rt : Runtime) (endpoint : option string)
    (sg : Client.Signing) (wallet : Client.Wallet) (serve : Server S) (state : S)
    (text : string) : Settled json * X402Client.Fetched S :=
  let options :=
    {| method := Some "POST";
       headers := [("Content-Type", "application/json")];
       body := Some (JSON_stringify (sentimentRequest text)) |} in
  let f := X402Client.fetch rt sg wallet serve state
             (Gate.or_default endpoint "https://x402-api.example.com/sentiment")
             options in
  (match X402Client.settled f with
   | Resolved response =>
       if negb (response_ok (status response))
       then Rejected ("Sentiment API error: " ++ statusText response)
       else
         match response_json rt (read response) with
         | Throw e => Rejected e
         | Ok data => Resolved data
         end
   | Rejected e => Rejected e
   | Untyped => Untyped
   end, f).

(** The execute function registerPaidAPI builds, run with a client:
    [body] is the outcome of transformParams. *)
Definition paidCall {S : Type} (rt : Runtime) (endpoint : string)
    (httpMethod : option string) (body : json)
    (sg : Client.Signing) (wallet : Client.Wallet) (serve : Server S) (state : S)
  : Settled json * X402Client.Fetched S :=
  let options :=
    {| method := Some (Client.or_else httpMethod "POST");
       headers := [("Content-Type", "application/json")];
       Fetching.body := Some (JSON_stringify body) |} in
  let f := X402Client.fetch rt sg wallet serve state endpoint options in
  (match X402Client.settled f with
   | Resolved response =>
       if negb (response_ok (status response)) then
         match read response with
         | Throw e => Rejected e
         | Ok error => Rejected ("API call failed: " ++ error)
         end
       else
         match response_json rt (read response) with
         | Throw e => Rejected e
         | Ok data => Resolved data
         end
   | Rejected e => Rejected e
   | Untyped => Untyped
   end, f).

End Tools.

(* ===================================================================== *)
(** * The gate behind HTTP                                                *)
(* ===================================================================== *)

Module Wire.
Import JS Fetching.

(** A request header, looked up as Node does, by its lower-case name. *)
Fixpoint requestHeader (name : string) (headers : list (string * string))
  : option string :=
  match headers with
  | [] => None
  | (k, v) :: rest =>
      if String.eqb (toLowerCase k) name then Some v else requestHeader name rest
  end.

(** The reason phrases of the status codes the gate sends. *)
Definition reason (code : Z) : string :=
  if code =? 200 then "OK"
  else if code =? 400 then "Bad Request"
  else if code =? 402 then "Payment Required"
  else if code =? 500 then "Internal Server Error"
  else if code =? 502 then "Bad Gateway"
  else EmptyString.

(** A reply of the gate as the client receives it. *)
Definition received (r : Gate.Response) : Response :=
  {| status := Gate.status r;
     statusText := reason (Gate.status r);
     responseHeaders := [("content-type", Gate.content_type r)];
     text := Ok (JSON_stringify (Gate.json r));
     bodyUsed := false |}.

(** The gate's process: [processedPayments] and the outside calls made so
    far. *)
Definition Process : Type := (list JS.value * list Gate.Call)%type.

(** The route POST /sentiment as a server, for requests whose body the
    JSON middleware parsed to [parsed]. *)
Definition sentimentRoute (rt : Runtime) (w : Gate.World) (env : Gate.Env)
    (parsed : JS.value) : Server Process :=
  fun state _ options =>
    let o := Gate.handle rt w env (fst state)
               {| Gate.x_payment := requestHeader "x-payment" (headers options);
                  Gate.body := parsed |} in
    (Ok (received (Gate.response o)),
     (Gate.processedPayments o, (snd state ++ Gate.calls o)%list)).

End Wire.

(* ===================================================================== *)
(** * The agents' registries and configuration                            *)
(* ===================================================================== *)

Module Vercel.
Import JS.

(** getExplorerUrl of the Vercel agent's registry. *)
Definition getExplorerUrl (txHash : string) (network : option string) : string :=
  let key := Client.or_else network "base-sepolia" in
  (if String.eqb key "base" then "https://basescan.org/tx/"
   else if String.eqb key "base-sepolia" then "https://sepolia.basescan.org/tx/"
   else if String.eqb key "ethereum" then "https://etherscan.io/tx/"
   else if String.eqb key "polygon" then "https://polygonscan.com/tx/"
   else if String.eqb key "arbitrum" then "https://arbiscan.io/tx/"
   else if String.eqb key "optimism" then "https://optimistic.etherscan.io/tx/"
   else "https://sepolia.basescan.org/tx/") ++ txHash.

End Vercel.

Module Registry.
Import JS.

Section Tools.
(** The types of a tool's schema and of its execute function. *)
Variables Schema Execute : Type.

Record ToolConfig : Type := {
  name : string;
  description : string;
  schema : Schema;
  isPaid : bool;
  cost : option Q;
  endpoint : option string;
  execute : Execute
}.

(** The Map [tools], in insertion order. *)
Definition Tools : Type := list (string * ToolConfig).

(** Map.prototype.set: a key already present keeps its place. *)
Fixpoint set (tools : Tools) (k : string) (config : ToolConfig) : Tools :=
  match tools with
  | [] => [(k, config)]
  | (k', c') :: rest =>
      if String.eqb k k' then (k', config) :: rest else (k', c') :: set rest k config
  end.

Definition registerTool (tools : Tools) (config : ToolConfig) : Tools :=
  set tools (name config) config.

Definition getAllTools (tools : Tools) : list ToolConfig := map snd tools.

Fixpoint getTool (tools : Tools) (n : string) : option ToolConfig :=
  match tools with
  | [] => None
  | (k, c) :: rest => if String.eqb n k then Some c else getTool rest n
  end.

Definition count (tools : Tools) : nat := List.length tools.

Definition clear (tools : Tools) : Tools := [].

(** [tool?.isPaid ? tool.cost || 0 : 0]. *)
Definition price (tools : Tools) (n : string) : Q :=
  match getTool tools n with
  | Some tool =>
      if isPaid tool then
        match cost tool with
        | Some c => if truthy (Some (JNum c)) then c else 0
        | None => 0
        end
      else 0
  | None => 0
  end.

Definition calculateCost (tools : Tools) (toolNames : list string) : Q :=
  fold_left (fun total n => (total + price tools n)%Q) toolNames 0%Q.

(** The tools registered one after the other, starting from an empty
    registry. *)
Definition registered (configs : list ToolConfig) : Tools :=
  fold_left registerTool configs [].

(** Every entry is stored under its own name. *)
Definition keyed (tools : Tools) : Prop :=
  forall k c, In (k, c) tools -> name c = k.

End Tools.

Arguments name {Schema Execute} _.
Arguments description {Schema Execute} _.
Arguments schema {Schema Execute} _.
Arguments isPaid {Schema Execute} _.
Arguments cost {Schema Execute} _.
Arguments endpoint {Schema Execute} _.
Arguments execute {Schema Execute} _.
Arguments set {Schema Execute} _ _ _.
Arguments registerTool {Schema Execute} _ _.
Arguments getAllTools {Schema Execute} _.
Arguments getTool {Schema Execute} _ _.
Arguments count {Schema Execute} _.
Arguments clear {Schema Execute} _.
Arguments price {Schema Execute} _ _.
Arguments calculateCost {Schema Execute} _ _.
Arguments registered {Schema Execute} _.
Arguments keyed {Schema Execute} _.

End Registry.

Module Agent.
Import JS Fetching.

(** JSON.stringify(value, null, 2). *)
Fixpoint JSON_stringify_indented (current : string) (j : json) : string :=
  let inner := current ++ "  " in
  let break := "," ++ Sentiment.newline ++ inner in
  match j with
  | JArr [] => "[]"
  | JArr items =>
      "[" ++ Sentiment.newline ++ inner
      ++ join break ((fix each (l : list json) : list string :=
                        match l with
                        | [] => []
                        | x :: r => JSON_stringify_indented inner x :: each r
                        end) items)
      ++ Sentiment.newline ++ current ++ "]"
  | JObj [] => "{}"
  | JObj fields =>
      "{" ++ Sentiment.newline ++ inner
      ++ join break ((fix each (l : list (string * json)) : list string :=
                        match l with
                        | [] => []
                        | (k, v) :: r =>
                            (quote k ++ ": " ++ JSON_stringify_indented inner v)
                            :: each r
                        end) fields)
      ++ Sentiment.newline ++ current ++ "}"
  | _ => JSON_stringify j
  end.

Fixpoint indexed (i : nat) (items : list json) : list (string * json) :=
  match items with
  | [] => []
  | x :: rest => (Z_toString (Z.of_nat i), x) :: indexed (S i) rest
  end.

(** The members [{...v}] copies, in the order they were written (the order
    of enumeration when no key of an object is an array index). *)
Definition spread (j : json) : list (string * json) :=
  match j with
  | JObj fields => fields
  | JArr items => indexed 0 items
  | JStr text => indexed 0 (map (fun c => JStr (String c EmptyString)) (chars text))
  | _ => []
  end.

Section Registry.
(** The state of the outside that the tools talk to. *)
Variable S : Type.

(** [schema.parse]: the validated parameters, or the error thrown. *)
Definition Schema : Type := JS.value -> except JS.value.

(** The field [lastTransaction] of the one X402Client. *)
Definition Client : Type := option X402Client.PaymentResult.

(** A tool's execute function: the validated parameters, whether the
    client was passed, and the outside and the client before and after. *)
Definition Execute : Type :=
  JS.value -> bool -> S * Client -> Settled json * (S * Client).

Record ToolRegistry : Type := {
  tools : Registry.Tools Schema Execute;
  (** whether [initialize] has set [x402Client] *)
  x402Client : bool
}.

Definition executeTool (registry : ToolRegistry) (n : string) (params : JS.value)
    (state : S * Client) : Settled json * (S * Client) :=
  match Registry.getTool (tools registry) n with
  | None => (Rejected ("Tool not found: " ++ n), state)
  | Some tool =>
      match Registry.schema tool params with
      | Throw e => (Rejected e, state)
      | Ok validatedParams =>
          Registry.execute tool validatedParams
            (Registry.isPaid tool && x402Client registry)%bool state
      end
  end.

(** The [payment] member added to the result of a paid tool. *)
Definition paymentInfo (tx : X402Client.PaymentResult) : json :=
  object [("transactionHash", Some (X402Client.transactionHash tx));
          ("network", Some (JStr (X402Client.network tx)));
          ("explorerUrl",
           Some (JStr (X402Client.getExplorerUrl
                         (Sentiment.toString (X402Client.transactionHash tx))
                         (Client.or_else (Some (X402Client.network tx))
                                         "base-sepolia"))))].

(** The [func] of the LangChain tool made from [tool]: the text handed to
    the agent. *)
Definition func (registry : ToolRegistry) (tool : Registry.ToolConfig Schema Execute)
    (input : JS.value) (state : S * Client) : Settled string * (S * Client) :=
  match executeTool registry (Registry.name tool) input state with
  | (Resolved result, (outside, last)) =>
      let plain := JSON_stringify_indented EmptyString result in
      (Resolved
         (if (Registry.isPaid tool && x402Client registry)%bool then
            match last with
            | Some tx =>
                if (X402Client.success tx
                    && truthy (Some (X402Client.transactionHash tx)))%bool
                then JSON_stringify_indented EmptyString
                       (JObj (obj_set (spread result) "payment" (paymentInfo tx)))
                else plain
            | None => plain
            end
          else plain),
       (outside, last))
  | (Rejected e, state') =>
      (Resolved (JSON_stringify
                   (object [("error", Some (JStr e));
                            ("tool", Some (JStr (Registry.name tool)))])),
       state')
  | (Untyped, state') => (Untyped, state')
  end.

End Registry.

Arguments tools {S} _.
Arguments x402Client {S} _.
Arguments executeTool {S} _ _ _ _.
Arguments func {S} _ _ _ _.

(** ** The research_company tool *)

Fixpoint strings (items : list json) : option (list string) :=
  match items with
  | [] => Some []
  | JStr a :: rest => option_map (cons a) (strings rest)
  | _ => None
  end.

(** The parameters as the tool's schema types them: a company name and a
    list of aspects. *)
Definition asResearch (params : JS.value) : option (string * list string) :=
  match params with
  | Some (JObj fields) =>
      match lookup "company_name" fields, lookup "aspects" fields with
      | Some (JStr company), Some (JArr items) =>
          option_map (fun aspects => (company, aspects)) (strings items)
      | _, _ => None
      end
  | _ => None
  end.

Definition completionsUrl : string := "https://api.openai.com/v1/chat/completions".

(** The request the tool sends; [key] is the variable OPENAI_API_KEY. *)
Definition researchRequest (key : option string) (company : string)
    (aspects : list string) : RequestInit :=
  {| method := Some "POST";
     headers := [("Content-Type", "application/json");
                 ("Authorization",
                  "Bearer " ++ match key with
                               | Some k => k
                               | None => "undefined"
                               end)];
     body := Some (JSON_stringify (JObj [
       ("model", JStr "gpt-4");
       ("messages", JArr [
          JObj [("role", JStr "system");
                ("content", JStr "You are a business intelligence analyst. Provide comprehensive, factual information about companies based on publicly available knowledge.")];
          JObj [("role", JStr "user");
                ("content", JStr ("Research " ++ company ++ ". Focus on: "
                                  ++ join ", " aspects
                                  ++ ". Provide structured, factual information."))]]);
       ("temperature", JNum (3 # 10))])) |}.

(** The execute function of research_company; [serve] is the platform's
    fetch. *)
Definition researchCompany {S : Type} (rt : Runtime) (key : option string)
    (serve : Server S) : Execute S :=
  fun params client state =>
    if negb client then (Rejected "x402 client required", state)
    else
      match asResearch params with
      | None => (Untyped, state)
      | Some (company, aspects) =>
          match serve (fst state) completionsUrl (researchRequest key company aspects) with
          | (Throw e, outside) => (Rejected e, (outside, snd state))
          | (Ok response, outside) =>
              (if negb (response_ok (status response))
               then Rejected ("OpenAI API error: " ++ statusText response)
               else
                 match bind (response_json rt (read response))
                            (Sentiment.messageContent rt) with
                 | Throw e => Rejected e
                 | Ok content =>
                     Resolved (object [
                       ("company_name", Some (JStr company));
                       ("research", content);
                       ("aspects_covered", Some (JArr (map JStr aspects)))])
                 end,
               (outside, snd state))
          end
      end.

(** The tool as predefined: marked as paid, at 0.25 USDC. *)
Definition researchTool {S : Type} (rt : Runtime) (key : option string)
    (serve : Server S) (schema : Schema) : Registry.ToolConfig Schema (Execute S) :=
  {| Registry.name := "research_company";
     Registry.description :=
       "Research company information and provide business intelligence using GPT-4";
     Registry.schema := schema;
     Registry.isPaid := true;
     Registry.cost := Some (25 # 100);
     Registry.endpoint := None;
     Registry.execute := researchCompany rt key serve |}.

End Agent.

Module Config.
Import JS.

(** The variables of [process.env] the configuration reads. *)
Record ProcessEnv : Type := {
  OPENAI_API_KEY : option string;
  AGENT_WALLET_PRIVATE_KEY : option string;
  RECEIVER_WALLET_ADDRESS : option string;
  X402_FACILITATOR : option string;
  X402_NETWORK : option string
}.

Record AppConfig : Type := {
  openaiApiKey : string;
  agentWalletPrivateKey : string;
  receiverWalletAddress : string;
  facilitatorUrl : string;
  network : string
}.

Definition loadConfig (env : ProcessEnv) : AppConfig :=
  {| openaiApiKey := Client.or_else (OPENAI_API_KEY env) EmptyString;
     agentWalletPrivateKey := Client.or_else (AGENT_WALLET_PRIVATE_KEY env) EmptyString;
     receiverWalletAddress :=
       Client.or_else (RECEIVER_WALLET_ADDRESS env)
         "0x501ab28fc3c7d29c2d12b243723eb5c5418b9de6";
     facilitatorUrl :=
       Client.or_else (X402_FACILITATOR env) "https://x402.treasure.lol/facilitator";
     network := Client.or_else (X402_NETWORK env) "base-sepolia" |}.

(** The list [errors] validateConfig collects. *)
Definition errors (config : AppConfig) : list string :=
  ((if String.eqb (openaiApiKey config) EmptyString
    then ["OPENAI_API_KEY is required"] else [])
   ++ (if String.eqb (agentWalletPrivateKey config) EmptyString
       then ["AGENT_WALLET_PRIVATE_KEY is required"] else [])
   ++ (if String.eqb (receiverWalletAddress config) EmptyString
       then ["RECEIVER_WALLET_ADDRESS is required"] else []))%list.

Definition validateConfig (config : AppConfig) : except unit :=
  match errors config with
  | [] => Ok tt
  | es => Throw ("Configuration errors:" ++ Sentiment.newline
                 ++ join Sentiment.newline es)
  end.

Definition getReceiverWallet (env : ProcessEnv) : string :=
  Client.or_else (RECEIVER_WALLET_ADDRESS env)
    "0x501ab28fc3c7d29c2d12b243723eb5c5418b9de6".

End Config.

(* ===================================================================== *)
(** * Terms of further statements                                         *)
(* ===================================================================== *)

Module MoreTerms.
Import JS Gate.

(** [processedPayments] after a run of requests. *)
Fixpoint storeAfter (rt : Runtime) (env : Env) (store : list value)
    (requests : list (Request * World)) : list value :=
  match requests with
  | [] => store
  | (req, w) :: rest =>
      storeAfter rt env (processedPayments (handle rt w env store req)) rest
  end.

(** The receipt the gate merges into a paid response. *)
Definition receipt (env : Env) (transactionHash : value) : JS.json :=
  object [("transactionHash", transactionHash);
          ("status", Some (JStr "confirmed"));
          ("network", option_map JStr (NETWORK env))].

(** The three rejections the gate issues on its own, before it turns to
    the facilitator. *)
Definition rejectedByGate (r : Response) : Prop :=
  r = invalidFormat \/ r = invalidAuthorization \/ r = alreadyUsed.

(** The facilitator settles, the resource then fails. *)
Definition failingResource : World :=
  {| facilitator := facilitator Sample.settling;
     analyzeSentiment := fun _ _ _ =>
       Throw "Sentiment analysis failed: OpenAI API error" |}.

(** The outside of the gate when its resource is the sentiment service. *)
Definition withSentiment (rt : Runtime) (api : Sentiment.OpenAI)
    (facilitator : option string -> string -> FetchResult) : World :=
  {| facilitator := facilitator;
     analyzeSentiment := Sentiment.analyzeSentiment rt api |}.

(** The endpoint answers the request about [text] with a 2xx response
    whose first choice has the string [c] as message content. *)
Definition replies (rt : Runtime) (api : Sentiment.OpenAI) (text : string)
    (model temperature : value) (c : string) : Prop :=
  exists key response data,
    Sentiment.OPENAI_API_KEY api = Some key /\ key <> EmptyString
    /\ Sentiment.completions api ("Bearer " ++ key)
         (Sentiment.completionRequest text model temperature) = Ok response
    /\ response_ok (Sentiment.status response) = true
    /\ response_json rt (Sentiment.body response) = Ok data
    /\ Sentiment.messageContent rt data = Ok (Some (JStr c)).

(** A chat completion whose message has the given content. *)
Definition completion (content : JS.json) : string :=
  JSON_stringify (JObj [("choices",
    JArr [JObj [("message", JObj [("role", JStr "assistant");
                                  ("content", content)])]])]).

(** An endpoint that answers every request with the given content. *)
Definition answering (content : JS.json) : Sentiment.OpenAI :=
  {| Sentiment.OPENAI_API_KEY := Some "sk-test";
     Sentiment.completions := fun _ _ =>
       Ok {| Sentiment.status := 200; Sentiment.statusText := "OK";
             Sentiment.body := Ok (completion content) |} |}.

(** A reply in the requested JSON format, with a confidence out of range,
    and a reply in plain words. *)
Definition jsonReply : JS.json :=
  JStr (JSON_stringify (JObj [("sentiment", JStr "positive");
                              ("confidence", JNum 7);
                              ("explanation", JStr "love")])).

Definition wellFormedReply : JS.json :=
  JStr (JSON_stringify (JObj [("sentiment", JStr "negative");
                              ("confidence", JNum (9 # 10));
                              ("explanation", JStr "hate")])).

Definition plainReply : JS.json := JStr "Clearly POSITIVE, not negative.".

End MoreTerms.

(* ===================================================================== *)
(** * Terms of the statements about the clients                           *)
(* ===================================================================== *)

Module WireTerms.
Import JS Client Fetching.

(** JSON.parse reads back what JSON.stringify wrote of [j]. *)
Definition readsBack (rt : Runtime) (j : json) : Prop :=
  JSON_parse rt (JSON_stringify j) = Ok j.

(** The method the gate advertises, as X402Client reads it. *)
Definition advertised (env : Gate.Env) : PaymentMethod :=
  {| scheme := "eip3009";
     asset := Gate.or_default (Gate.USDC_TOKEN_ADDRESS env)
                "0x036CbD53842c5426634e7929541eC2318f3dCF7e";
     recipient := Gate.or_default (Gate.RECEIVER_WALLET_ADDRESS env)
                    "0x501ab28fc3c7d29c2d12b243723eb5c5418b9de6";
     maximumAmount := Gate.or_default (Gate.PAYMENT_AMOUNT env) "100000";
     minimumAmount := Gate.or_default (Gate.PAYMENT_AMOUNT env) "100000";
     network := Gate.or_default (Gate.NETWORK env) "base-sepolia";
     description := Some "Sentiment Analysis API - Premium GPT-4 powered analysis";
     timeout := Some 300000%Q;
     extra := None |}.

(** The authorization a client signs for [method]. *)
Definition authorization (sg : Signing) (wallet : Wallet) (method : PaymentMethod)
    (signature : string) : json :=
  signedPayload method (transferMessage sg wallet method) signature.

(** The wallet signs the transfer message of [method] under [domain]. *)
Definition signs (sg : Signing) (wallet : Wallet) (domain : Domain)
    (method : PaymentMethod) (signature : string) : Prop :=
  signTypedData sg wallet domain types (transferMessage sg wallet method)
  = Ok signature.

(** The nonce a signer draws. *)
Definition drawn (sg : Signing) : JS.value :=
  Some (JStr (hexlify (randomBytes sg 32))).

(** What the sentiment_analysis tool asks the resource for. *)
Definition asked (text : string) : Gate.Call :=
  Gate.CallAnalyzeSentiment text (Some (JStr "gpt-3.5-turbo")) (Some (JNum (3 # 10))).

(** The request the sentiment_analysis tool sends first. *)
Definition toolOptions (text : string) : RequestInit :=
  {| method := Some "POST";
     headers := [("Content-Type", "application/json")];
     body := Some (JSON_stringify (Tools.sentimentRequest text)) |}.

(** JSON.parse refuses a text that begins with the letter e. *)
Definition refusesLetters (rt : Runtime) : Prop :=
  forall rest, exists e, JSON_parse rt (String "e" rest) = Throw e.

(** The method the gate advertises, as X402ServerClient normalises it. *)
Definition normalised (env : Gate.Env) : PaymentMethod :=
  {| scheme := scheme (advertised env);
     asset := asset (advertised env);
     recipient := recipient (advertised env);
     maximumAmount := maximumAmount (advertised env);
     minimumAmount := EmptyString;
     network := network (advertised env);
     description := description (advertised env);
     timeout := timeout (advertised env);
     extra := None |}.

(** A signature of 65 bytes ending in the byte 1b. *)
Definition longSignature : string :=
  "0x" ++ of_chars (repeat "a"%char 128) ++ "1b".

(** An endpoint that answers every request with a chat completion saying
    [words]. *)
Definition completing (words : string) : Server unit :=
  fun state _ _ =>
    (Ok {| status := 200; statusText := "OK"; responseHeaders := [];
           text := Ok (MoreTerms.completion (JStr words)); bodyUsed := false |},
     state).

(** A payment the client recorded earlier. *)
Definition earlier : X402Client.PaymentResult :=
  {| X402Client.success := true;
     X402Client.transactionHash := JStr "0xdeadbeef";
     X402Client.network := "base-sepolia" |}.

(** The parameters of a research request, and a schema that accepts every
    input as it is. *)
Definition aboutAcme : JS.value :=
  Some (JObj [("company_name", JStr "Acme");
              ("aspects", JArr [JStr "industry"; JStr "products"])]).

Definition anything : Agent.Schema := fun params => Ok params.

(** The property names every object inherits. *)
Definition inherited : list string :=
  ["constructor"; "hasOwnProperty"; "isPrototypeOf"; "propertyIsEnumerable";
   "toLocaleString"; "toString"; "valueOf"; "__proto__";
   "__defineGetter__"; "__defineSetter__"; "__lookupGetter__"; "__lookupSetter__"].

(** The variable is set to a text that is not empty. *)
Definition isSet (v : option string) : Prop :=
  exists text, v = Some text /\ text <> EmptyString.

(** A 402 body in the names this repository uses, and the same one in the
    names of the x402 standard, with the timeout given in seconds. *)
Definition ownNames (sch net ast amt rcp : string) (seconds : Q) : json :=
  JObj [("methods", JArr [JObj [
    ("scheme", JStr sch); ("network", JStr net); ("asset", JStr ast);
    ("maximumAmount", JStr amt); ("recipient", JStr rcp);
    ("timeout", JNum (seconds * 1000))]])].

Definition standardNames (sch net ast amt rcp : string) (seconds : Q) : json :=
  JObj [("accepts", JArr [JObj [
    ("scheme", JStr sch); ("network", JStr net); ("asset", JStr ast);
    ("maxAmountRequired", JStr amt); ("payTo", JStr rcp);
    ("maxTimeoutSeconds", JNum seconds)]])].

(** A resource that answers every text with the same verdict, behind a
    facilitator that settles. *)
Definition verdict : json :=
  JObj [("text", JStr "I love this product!"); ("sentiment", JStr "positive");
        ("confidence", JNum (19 # 20)); ("explanation", JStr "love")].

Definition service : Gate.World :=
  {| Gate.facilitator := Gate.facilitator Sample.settling;
     Gate.analyzeSentiment := fun _ _ _ => Ok verdict |}.

End WireTerms.

(* ===================================================================== *)
(** * Properties of the payment validator                                 *)
(* ===================================================================== *)

Module ValidatorProps.
Import JS Validator ValidatorTerms.

(** validatePayment, case by case on the facilitator's answer. *)
Lemma validatePayment_cases (rt : Runtime) (fetch : string -> string -> FetchResult)
    (h r a u : string) :
  validatePayment rt fetch h r a u =
  if fallsBack rt (verifyCall fetch h r a u)
  then validatePaymentFallback h
  else confirmed rt (verifyCall fetch h r a u).
Proof.
  unfold validatePayment, validatePayment_try, verifyCall.
  destruct (fetch _ _) as [e | status body]; simpl; [reflexivity |].
  destruct (response_ok status) eqn:Hok; simpl.
  - destruct body as [text | e]; simpl; [| reflexivity].
    destruct (JSON_parse rt text) as [result | e]; simpl; [| reflexivity].
    destruct result; simpl; reflexivity.
  - destruct ((status =? 404) || (status =? 501))%bool; simpl; try reflexivity.
    destruct body; reflexivity.
Qed.

(** C1, as stated, does not hold: validatePayment can return [true]
    although the facilitator confirmed nothing.  Here the facilitator is
    unreachable (fetch rejects) and a hash of the right shape is accepted by
    validatePaymentFallback alone. *)
Lemma validatePayment_accepts_unconfirmed :
  let fetch := fun (_ _ : string) => FetchThrows "fetch failed" in
  let h := "0x1234567890" in
  let r := "0x501ab28fc3c7d29c2d12b243723eb5c5418b9de6" in
  let u := "https://x402.treasure.lol/facilitator" in
  validatePayment Node.node fetch h r "100000" u = true
  /\ confirmed Node.node (verifyCall fetch h r "100000" u) = false.
Proof. split; reflexivity. Qed.

(** The same through a 404 of the /verify endpoint, while a 500 rejects. *)
Example fallback_on_404 :
  let h := "0x1234567890" in
  let r := "0x501ab28fc3c7d29c2d12b243723eb5c5418b9de6" in
  let u := "https://x402.treasure.lol/facilitator" in
  validatePayment Node.node (fun _ _ => FetchResponse 404 (Ok "Not Found"))
                  h r "100000" u = true
  /\ validatePayment Node.node (fun _ _ => FetchResponse 500 (Ok "Oops"))
                     h r "100000" u = false.
Proof. split; reflexivity. Qed.

(** C1, amended: validatePayment returns [true] exactly when the
    facilitator confirmed the payment, or the facilitator call went one of
    the ways that fall back (fetch rejected, status 404 or 501, a 2xx body
    that is unreadable, not JSON or null) and the hash passes the format
    check of validatePaymentFallback.  Any other status than 2xx, 404 and 501
    rejects. *)
Theorem validatePayment_true_iff (rt : Runtime)
    (fetch : string -> string -> FetchResult) (h r a u : string) :
  validatePayment rt fetch h r a u = true <->
  confirmed rt (verifyCall fetch h r a u) = true
  \/ (fallsBack rt (verifyCall fetch h r a u) = true
      /\ validatePaymentFallback h = true).
Proof.
  rewrite validatePayment_cases.
  destruct (fallsBack rt (verifyCall fetch h r a u)) eqn:Hf.
  - split; [intros H; right; split; [reflexivity | exact H] |].
    intros [Hc | [_ H]]; [| exact H].
    exfalso. revert Hf Hc. unfold fallsBack, confirmed, response_json.
    destruct (verifyCall fetch h r a u) as [e | status body]; [discriminate |].
    destruct body as [text | e]; [| discriminate].
    destruct (response_ok status); simpl; [| discriminate].
    destruct (JSON_parse rt text) as [[] | e]; simpl; discriminate.
  - split; [intros H; left; exact H |].
    intros [Hc | [H _]]; [exact Hc | discriminate H].
Qed.

(** What the format check of validatePaymentFallback accepts. *)
Lemma validatePaymentFallback_true_iff (h : string) :
  validatePaymentFallback h = true <->
  10 <= JS.length h
  /\ (startsWith "0x" h = true -> isValidHex h = true).
Proof.
  unfold validatePaymentFallback.
  destruct (String.eqb_spec h EmptyString) as [-> | Hne]; simpl.
  - split; [discriminate |]. intros [H _]. unfold JS.length in H. simpl in H. lia.
  - destruct (JS.length h <? 10) eqn:Hlen; simpl.
    + apply Z.ltb_lt in Hlen. split; [discriminate | intros [H _]; lia].
    + apply Z.ltb_ge in Hlen.
      destruct (startsWith "0x" h); simpl.
      * destruct (isValidHex h); simpl; split; try discriminate; auto.
        intros [_ H]. apply H. reflexivity.
      * split; [intros _; split; [exact Hlen | discriminate] | reflexivity].
Qed.

(** ** The chain validator *)

Lemma isTransferOf_emittedBy (asset : string) (log : Log) :
  isTransferOf asset log = true <-> emittedBy asset log.
Proof.
  unfold isTransferOf, emittedBy, topic.
  destruct (nth_error (topics log) 0) as [t |]; simpl.
  - destruct (String.eqb_spec t transferTopic) as [-> | Hne]; simpl.
    + rewrite String.eqb_eq. split; [intros H; split; [reflexivity | exact H] |].
      intros [_ H]. exact H.
    + split; [discriminate |]. intros [[= H] _]. contradiction.
  - split; [discriminate |]. intros [H _]. discriminate H.
Qed.

Lemma topicAddress_indexed (rt : Runtime) (log : Log) (i : nat) (a : string) :
  topicAddress rt log i = Ok a <-> indexedAddress rt log i a.
Proof.
  unfold topicAddress, indexedAddress, topic.
  destruct (nth_error (topics log) i) as [t |].
  - split; [intros H; exists t; auto |]. intros (word & [= <-] & H). exact H.
  - split; [discriminate |]. intros (word & H & _). discriminate H.
Qed.

Lemma decodeTransfer_transfers (rt : Runtime) (log : Log) (sender receiver : string)
    (amount : Z) :
  decodeTransfer rt log = Ok (sender, receiver, amount)
  <-> transfers rt log sender receiver amount.
Proof.
  unfold decodeTransfer, transfers.
  rewrite <- !topicAddress_indexed.
  destruct (topicAddress rt log 1) as [f |] eqn:H1; simpl.
  2: { split; [discriminate | intros [H _]; discriminate H]. }
  destruct (topicAddress rt log 2) as [t |] eqn:H2; simpl.
  2: { split; [discriminate | intros (_ & H & _); discriminate H]. }
  destruct (BigInt rt (data log)) as [v |] eqn:H3; simpl.
  2: { split; [discriminate | intros (_ & _ & H); discriminate H]. }
  split.
  - intros [= -> -> ->]. auto.
  - intros ([= ->] & [= ->] & [= ->]). reflexivity.
Qed.

Lemma decodes_iff_wellFormed (rt : Runtime) (log : Log) :
  (exists d, decodeTransfer rt log = Ok d) <-> wellFormed rt log.
Proof.
  unfold wellFormed. split.
  - intros [[[f t] v] H]. exists f, t, v. apply decodeTransfer_transfers. exact H.
  - intros (f & t & v & H). exists (f, t, v). apply decodeTransfer_transfers. exact H.
Qed.

(** One turn of the loop on a log that pays. *)
Lemma scanTransfers_hit (rt : Runtime) (r a : string) (log : Log) (rest : list Log) :
  pays rt r a log -> scanTransfers rt r a (log :: rest) = Ok true.
Proof.
  intros (f & t & v & m & Ht & Hto & Hm & Hle).
  apply decodeTransfer_transfers in Ht.
  cbn [scanTransfers]. rewrite Ht. cbn [bind]. unfold transferMatches.
  rewrite (proj2 (String.eqb_eq _ _) Hto), Hm. cbn [bind].
  rewrite (proj2 (Z.leb_le _ _) Hle). reflexivity.
Qed.

(** One turn of the loop on a log that reads as a transfer, when the
    expected amount is an integer: the log is a hit or the loop goes on. *)
Lemma scanTransfers_turn (rt : Runtime) (r a : string) (log : Log) (rest : list Log)
    (least : Z) :
  BigInt rt a = Ok least ->
  wellFormed rt log ->
  scanTransfers rt r a (log :: rest) = Ok true
  \/ scanTransfers rt r a (log :: rest) = scanTransfers rt r a rest.
Proof.
  intros Hm (f & t & v & Ht).
  apply decodeTransfer_transfers in Ht.
  cbn [scanTransfers]. rewrite Ht. cbn [bind]. unfold transferMatches.
  destruct (String.eqb (toLowerCase t) (toLowerCase r)); cbn [bind].
  - rewrite Hm. cbn [bind]. destruct (least <=? v); [left | right]; reflexivity.
  - right. reflexivity.
Qed.

(** The loop over the filtered logs accepts exactly when some Transfer log
    of the asset pays and every Transfer log of the asset before it can be
    read. *)
Lemma scan_accepts_iff (rt : Runtime) (asset r a : string) (ls : list Log) :
  scanTransfers rt r a (filter (isTransferOf asset) ls) = Ok true
  <->
  exists before log after,
    ls = (before ++ log :: after)%list
    /\ emittedBy asset log
    /\ pays rt r a log
    /\ forall earlier, In earlier before -> emittedBy asset earlier ->
                       wellFormed rt earlier.
Proof.
  split.
  - induction ls as [| l rest IH]; [discriminate |].
    cbn [filter]. destruct (isTransferOf asset l) eqn:Hl.
    + cbn [scanTransfers].
      destruct (decodeTransfer rt l) as [[[f t] v] | e] eqn:Hd; cbn [bind];
        [| discriminate].
      assert (Hwf : wellFormed rt l).
      { apply decodes_iff_wellFormed. exists (f, t, v). exact Hd. }
      assert (Hgo : scanTransfers rt r a (filter (isTransferOf asset) rest) = Ok true ->
                    exists before log after,
                      (l :: rest) = (before ++ log :: after)%list
                      /\ emittedBy asset log /\ pays rt r a log
                      /\ forall earlier, In earlier before -> emittedBy asset earlier ->
                                         wellFormed rt earlier).
      { intros H. destruct (IH H) as (before & log & after & -> & He & Hp & Hb).
        exists (l :: before), log, after.
        split; [reflexivity |]. split; [exact He |]. split; [exact Hp |].
        intros earlier [<- | Hin] Hem; [exact Hwf | exact (Hb earlier Hin Hem)]. }
      unfold transferMatches.
      destruct (String.eqb_spec (toLowerCase t) (toLowerCase r)) as [Hto | Hto];
        cbn [bind]; [| exact Hgo].
      destruct (BigInt rt a) as [m |] eqn:Hm; cbn [bind]; [| discriminate].
      destruct (m <=? v) eqn:Hle; [| exact Hgo].
      intros _. exists [], l, rest.
      split; [reflexivity |]. split; [apply isTransferOf_emittedBy; exact Hl |].
      split; [| intros earlier []].
      exists f, t, v, m. apply decodeTransfer_transfers in Hd. apply Z.leb_le in Hle.
      auto.
    + intros H. destruct (IH H) as (before & log & after & -> & He & Hp & Hb).
      exists (l :: before), log, after.
      split; [reflexivity |]. split; [exact He |]. split; [exact Hp |].
      intros earlier [<- | Hin] Hem; [| exact (Hb earlier Hin Hem)].
      apply isTransferOf_emittedBy in Hem. congruence.
  - intros (before & log & after & -> & He & Hp & Hb).
    assert (Hm : exists least, BigInt rt a = Ok least).
    { destruct Hp as (_ & _ & _ & m & _ & _ & Hm & _). eauto. }
    destruct Hm as [least Hm].
    induction before as [| l before IH]; cbn [app filter].
    + rewrite (proj2 (isTransferOf_emittedBy asset log) He).
      apply scanTransfers_hit. exact Hp.
    + assert (Hrest : scanTransfers rt r a
                        (filter (isTransferOf asset) (before ++ log :: after)) = Ok true).
      { apply IH. intros earlier Hin. apply Hb. right. exact Hin. }
      destruct (isTransferOf asset l) eqn:Hl; [| exact Hrest].
      assert (Hwf : wellFormed rt l).
      { apply Hb; [left; reflexivity | apply isTransferOf_emittedBy; exact Hl]. }
      destruct (scanTransfers_turn rt r a l
                  (filter (isTransferOf asset) (before ++ log :: after)) least Hm Hwf)
        as [H | H]; [exact H | rewrite H; exact Hrest].
Qed.

Lemma emptiness_test_is_redundant (rt : Runtime) (r a : string) (ls : list Log) :
  (if (List.length ls =? 0)%nat then Ok false else scanTransfers rt r a ls)
  = scanTransfers rt r a ls.
Proof. destruct ls; reflexivity. Qed.

(** C8, as the claim states it, fails on a receipt in which the asset
    contract logs a Transfer that cannot be read before the one that pays:
    the receipt exists, its status is success and a Transfer log of the
    asset pays the recipient the expected amount, yet the hash is rejected,
    because reading the first log throws into the catch clause. *)
Lemma unreadable_log_hides_a_payment :
  claimedPaid Node.node "0x036cbd53842c5426634e7929541ec2318f3dcf7e"
              "0x501AB28FC3C7D29C2D12B243723EB5C5418B9DE6" "100000" mixedReceipt
  /\ validatePaymentOnChain Node.node (fun _ _ => Ok (Some mixedReceipt))
       "0xabc" "https://sepolia.base.org"
       "0x501AB28FC3C7D29C2D12B243723EB5C5418B9DE6" "100000"
       "0x036cbd53842c5426634e7929541ec2318f3dcf7e" = false.
Proof.
  split; [| vm_compute; reflexivity].
  split; [reflexivity |].
  eexists. split; [right; left; reflexivity |].
  split; [split; vm_compute; reflexivity |].
  exists "0x1111111111111111111111111111111111111111",
         "0x501ab28fc3c7d29c2d12b243723eb5c5418b9de6", 100000, 100000.
  split.
  - split; [eexists; split; vm_compute; reflexivity |].
    split; [eexists; split; vm_compute; reflexivity |].
    vm_compute. reflexivity.
  - split; [vm_compute; reflexivity |]. split; [vm_compute; reflexivity | lia].
Qed.

(** C8, amended: validatePaymentOnChain accepts a transaction hash if and
    only if the receipt exists, its status is 1 (success), and some
    Transfer log emitted by the asset contract reads as a transfer to the
    expected recipient (compared without letter case) of at least the
    expected amount, every Transfer log of the asset contract before it in
    the receipt being readable as a transfer too.  In every other case,
    an absent receipt and an RPC error among them, it rejects. *)
Theorem validatePaymentOnChain_accepts_iff (rt : Runtime)
    (getTransactionReceipt : string -> string -> except (option TransactionReceipt))
    (transactionHash rpcUrl expectedRecipient expectedAmount tokenAddress : string) :
  validatePaymentOnChain rt getTransactionReceipt transactionHash rpcUrl
                         expectedRecipient expectedAmount tokenAddress = true
  <->
  exists receipt before log after,
    getTransactionReceipt rpcUrl transactionHash = Ok (Some receipt)
    /\ status receipt = Some 1
    /\ logs receipt = (before ++ log :: after)%list
    /\ emittedBy tokenAddress log
    /\ pays rt expectedRecipient expectedAmount log
    /\ forall earlier, In earlier before -> emittedBy tokenAddress earlier ->
                       wellFormed rt earlier.
Proof.
  unfold validatePaymentOnChain, validatePaymentOnChain_try.
  destruct (getTransactionReceipt rpcUrl transactionHash) as [[receipt |] | e];
    cbn [bind].
  - destruct (status receipt) as [[| [p | p |] | p] |] eqn:Hst; cbn [negb];
      try (split; [discriminate |];
           intros (r' & before & log & after & [= <-] & Hone & _); congruence).
    rewrite emptiness_test_is_redundant.
    destruct (scanTransfers rt expectedRecipient expectedAmount
                (filter (isTransferOf tokenAddress) (logs receipt)))
      as [[] | e] eqn:Hscan.
    + split; [intros _ | reflexivity].
      apply scan_accepts_iff in Hscan.
      destruct Hscan as (before & log & after & H).
      exists receipt, before, log, after.
      split; [reflexivity |]. split; [exact Hst | exact H].
    + split; [discriminate |].
      intros (r' & before & log & after & [= <-] & _ & H).
      assert (Hyes : scanTransfers rt expectedRecipient expectedAmount
                       (filter (isTransferOf tokenAddress) (logs receipt)) = Ok true).
      { apply scan_accepts_iff. exists before, log, after. exact H. }
      congruence.
    + split; [discriminate |].
      intros (r' & before & log & after & [= <-] & _ & H).
      assert (Hyes : scanTransfers rt expectedRecipient expectedAmount
                       (filter (isTransferOf tokenAddress) (logs receipt)) = Ok true).
      { apply scan_accepts_iff. exists before, log, after. exact H. }
      congruence.
  - split; [discriminate |]. intros (r' & _ & _ & _ & H & _). discriminate H.
  - split; [discriminate |]. intros (r' & _ & _ & _ & H & _). discriminate H.
Qed.

Example paid_receipt_is_accepted :
  validatePaymentOnChain Node.node (fun _ _ => Ok (Some paidReceipt))
    "0xabc" "https://sepolia.base.org"
    "0x501AB28FC3C7D29C2D12B243723EB5C5418B9DE6" "100000"
    "0x036cbd53842c5426634e7929541ec2318f3dcf7e" = true.
Proof. reflexivity. Qed.

Example other_recipient_is_rejected :
  validatePaymentOnChain Node.node (fun _ _ => Ok (Some paidReceipt))
    "0xabc" "https://sepolia.base.org"
    "0x2222222222222222222222222222222222222222" "100000"
    "0x036cbd53842c5426634e7929541ec2318f3dcf7e" = false.
Proof. reflexivity. Qed.

End ValidatorProps.

(* ===================================================================== *)
(** * Properties of the payment gate                                      *)
(* ===================================================================== *)

Module GateProps.
Import JS Gate GateTerms.

Create HintDb gate.

(** Both sides of an equivalence are absurd. *)
Ltac neither :=
  split; [discriminate | intros [? H]; discriminate H].

Lemma eqb_nonempty (h : string) : h <> EmptyString -> String.eqb h EmptyString = false.
Proof. intros H. destruct (String.eqb_spec h EmptyString); [contradiction | reflexivity]. Qed.

(** ** The set of processed payments *)

Lemma same_value_zero_refl (v : value) :
  is_primitive v = true -> same_value_zero v v = true.
Proof.
  destruct v as [[] |]; simpl; try discriminate; intros _; try reflexivity.
  - destruct b; reflexivity.
  - apply Qeq_bool_iff. reflexivity.
  - apply String.eqb_refl.
Qed.

Lemma has_app (store more : list value) (v : value) :
  has (store ++ more) v = (has store v || has more v)%bool.
Proof. unfold has. apply existsb_app. Qed.

Lemma has_add_same (store : list value) (v : value) :
  is_primitive v = true -> has (add store v) v = true.
Proof.
  intros Hp. unfold add. destruct (has store v) eqn:Hh; [exact Hh |].
  rewrite has_app. unfold has. simpl.
  rewrite (same_value_zero_refl v Hp). rewrite orb_true_l. apply orb_true_r.
Qed.

Lemma has_add_keeps (store : list value) (v u : value) :
  has store v = true -> has (add store u) v = true.
Proof.
  intros H. unfold add. destruct (has store u); [exact H |].
  rewrite has_app, H. reflexivity.
Qed.

#[local] Hint Resolve has_add_same has_add_keeps : gate.

Section Handler.

Variable rt : Runtime.
Variable env : Env.

(** The handler on a request that passes the structural check. *)
Lemma handle_carried (w : World) (store : list value) (req : Request)
    (sa : JS.json) (n : value) :
  carries rt req sa n ->
  handle rt w env store req =
  if has store n then silently store alreadyUsed
  else
    let call := CallFacilitator (FACILITATOR_URL env) (JSON_stringify sa) in
    match settle rt (facilitatorAnswer env w sa) with
    | Throw e =>
        {| response := facilitatorUnreachable e;
           processedPayments := store; calls := [call] |}
    | Ok (inl early) =>
        {| response := early; processedPayments := store; calls := [call] |}
    | Ok (inr transactionHash) =>
        {| response := fst (serve rt w env req transactionHash);
           processedPayments := add store n;
           calls := call :: snd (serve rt w env req transactionHash) |}
    end.
Proof.
  intros (h & Hh & Hne & Hp & Hf & Hn).
  unfold handle, facilitatorAnswer, silently.
  rewrite Hh, (eqb_nonempty h Hne), Hp, Hf, Hn.
  destruct (has store n); [reflexivity |].
  destruct (settle rt _) as [[early | tx] | e]; try reflexivity.
  destruct (serve rt w env req tx); reflexivity.
Qed.

Lemma nonceOf_carries (req : Request) (n : value) :
  nonceOf rt req = Some n <-> exists sa, carries rt req sa n.
Proof.
  unfold nonceOf, carries. split.
  - destruct (x_payment req) as [h |]; [| discriminate].
    destruct (String.eqb_spec h EmptyString) as [| Hne]; [discriminate |].
    destruct (JSON_parse rt h) as [sa | e] eqn:Hp; [| discriminate].
    destruct (hasRequiredFields rt sa) as [[] | e] eqn:Hf; try discriminate.
    destruct (authNonce rt sa) as [m | e] eqn:Hn; [| discriminate].
    intros [= <-]. exists sa, h. auto.
  - intros (sa & h & -> & Hne & -> & -> & ->).
    rewrite (eqb_nonempty h Hne). reflexivity.
Qed.

(** The same header under another body carries the same authorization. *)
Lemma carries_resend (req : Request) (sa : JS.json) (n : value) (body' : value) :
  carries rt req sa n ->
  carries rt {| x_payment := x_payment req; body := body' |} sa n.
Proof. intros (h & H). exists h. exact H. Qed.

(** The facilitator call fails exactly when the inner try block does not
    reach a transaction hash. *)
Lemma settle_succeeds_iff (answer : FetchResult) :
  facilitatorFailed rt answer = false <-> exists tx, settle rt answer = Ok (inr tx).
Proof.
  unfold facilitatorFailed, settle, response_json.
  destruct answer as [e | code text]; simpl; [neither |].
  destruct (response_ok code); simpl.
  - destruct text as [t | e]; simpl; [| neither].
    destruct (JSON_parse rt t) as [result | e]; simpl; [| neither].
    destruct result; simpl; try neither.
    destruct (truthy (lookup "transactionHash" fields)); simpl; [| neither].
    split; eauto.
  - destruct text; simpl; neither.
Qed.

Lemma settle_early_is_402 (answer : FetchResult) (early : Response) :
  settle rt answer = Ok (inl early) -> status early = 402.
Proof.
  unfold settle, response_json.
  destruct answer as [e | code text]; [discriminate |].
  destruct (response_ok code); simpl.
  - destruct text as [t | e]; simpl; [| discriminate].
    destruct (JSON_parse rt t) as [result | e]; simpl; [| discriminate].
    destruct result; simpl; try discriminate; try (intros [= <-]; reflexivity).
    destruct (truthy (lookup "transactionHash" fields)); simpl; [discriminate |].
    intros [= <-]. reflexivity.
  - destruct text as [t | e]; simpl; [| discriminate].
    intros [= <-]. reflexivity.
Qed.

Lemma serve_is_not_invalidFormat (w : World) (req : Request) (tx : value) :
  fst (serve rt w env req tx) <> invalidFormat.
Proof.
  unfold serve.
  destruct (parameters rt (body req)) as [[[text model] temperature] | e]; simpl;
    [| discriminate].
  destruct (truthy text); simpl; [| discriminate].
  destruct text as [[] |]; simpl; try discriminate.
  destruct (analyzeSentiment w s model temperature); simpl; discriminate.
Qed.

(** Handling a request removes nothing from the set. *)
Lemma handle_keeps (w : World) (store : list value) (req : Request) (v : value) :
  has store v = true -> has (processedPayments (handle rt w env store req)) v = true.
Proof.
  intros H. unfold handle.
  destruct (x_payment req) as [h |]; [| exact H].
  destruct (String.eqb h EmptyString); [exact H |].
  destruct (JSON_parse rt h) as [sa | e]; [| exact H].
  destruct (hasRequiredFields rt sa) as [[] | e]; try exact H.
  destruct (authNonce rt sa) as [n | e]; [| exact H].
  destruct (has store n); [exact H |].
  destruct (settle rt _) as [[early | tx] | e]; try exact H.
  destruct (serve rt w env req tx). simpl. auto with gate.
Qed.

(** A request that reached the resource left its nonce in the set. *)
Lemma invoked_marks (w : World) (store : list value) (req : Request) (n : value) :
  nonceOf rt req = Some n -> is_primitive n = true ->
  invoked (handle rt w env store req) = true ->
  has (processedPayments (handle rt w env store req)) n = true.
Proof.
  intros Hn Hp. apply nonceOf_carries in Hn. destruct Hn as [sa Hc].
  rewrite (handle_carried w store req sa n Hc).
  destruct (has store n) eqn:Hh; [intros _; exact Hh |].
  simpl. destruct (settle rt _) as [[early | tx] | e]; simpl; try discriminate.
  intros _. auto with gate.
Qed.

(** A request whose nonce is in the set is answered 400 at once. *)
Lemma known_nonce_is_refused (w : World) (store : list value) (req : Request)
    (n : value) :
  nonceOf rt req = Some n -> has store n = true ->
  handle rt w env store req = silently store alreadyUsed.
Proof.
  intros Hn Hh. apply nonceOf_carries in Hn. destruct Hn as [sa Hc].
  rewrite (handle_carried w store req sa n Hc), Hh. reflexivity.
Qed.

Lemma run_known_nonce (requests : list (Request * World)) :
  forall (store : list value) (j : nat) (req : Request) (w : World) (n : value)
         (o : Outcome),
    has store n = true ->
    nth_error requests j = Some (req, w) ->
    nonceOf rt req = Some n ->
    outcomeAt rt env store requests j = Some o ->
    response o = alreadyUsed /\ calls o = [].
Proof.
  unfold outcomeAt.
  induction requests as [| [r0 w0] rest IH]; intros store j req w n o Hh Hj Hn Ho.
  - destruct j; discriminate Hj.
  - destruct j as [| j]; simpl in Hj, Ho.
    + injection Hj as -> ->. injection Ho as <-.
      rewrite (known_nonce_is_refused w store req n Hn Hh). split; reflexivity.
    + apply (IH _ j req w n o (handle_keeps w0 store r0 n Hh) Hj Hn Ho).
Qed.

(** One-shot, for a nonce of any primitive type. *)
Lemma run_rejects_reuse (requests : list (Request * World)) :
  forall (store : list value) (i j : nat) (reqi reqj : Request) (wi wj : World)
         (n : value) (oi oj : Outcome),
    (i < j)%nat ->
    is_primitive n = true ->
    nth_error requests i = Some (reqi, wi) ->
    nth_error requests j = Some (reqj, wj) ->
    nonceOf rt reqi = Some n ->
    nonceOf rt reqj = Some n ->
    outcomeAt rt env store requests i = Some oi ->
    outcomeAt rt env store requests j = Some oj ->
    invoked oi = true ->
    response oj = alreadyUsed /\ calls oj = [].
Proof.
  induction requests as [| [r0 w0] rest IH];
    intros store i j reqi reqj wi wj n oi oj Hij Hp Hi Hj Hni Hnj Hoi Hoj Hinv.
  - destruct i; discriminate Hi.
  - destruct j as [| j]; [lia |].
    destruct i as [| i]; unfold outcomeAt in *; simpl in Hi, Hj, Hoi, Hoj.
    + injection Hi as -> ->. injection Hoi as <-.
      apply (run_known_nonce rest _ j reqj wj n oj
               (invoked_marks wi store reqi n Hni Hp Hinv) Hj Hnj Hoj).
    + apply (IH (processedPayments (handle rt w0 env store r0))
                 i j reqi reqj wi wj n oi oj); auto. lia.
Qed.

(** ** Replay protection *)

(** One-shot for requests handled one after the other: in any such
    sequence of requests handled by the gate, if a
    request with nonce [n] got as far as invoking the protected resource,
    then every later request carrying an authorization with the same nonce
    is answered HTTP 400 (payment already used) without any outside call,
    and so does not invoke the resource: at most one request per nonce
    does. *)
Theorem one_shot (store : list value) (requests : list (Request * World))
    (n : string) (i j : nat) (reqi reqj : Request) (wi wj : World)
    (oi oj : Outcome) :
  (i < j)%nat ->
  nth_error requests i = Some (reqi, wi) ->
  nth_error requests j = Some (reqj, wj) ->
  nonceOf rt reqi = Some (Some (JStr n)) ->
  nonceOf rt reqj = Some (Some (JStr n)) ->
  outcomeAt rt env store requests i = Some oi ->
  outcomeAt rt env store requests j = Some oj ->
  invoked oi = true ->
  status (response oj) = 400 /\ response oj = alreadyUsed
  /\ calls oj = [] /\ invoked oj = false.
Proof.
  intros Hij Hi Hj Hni Hnj Hoi Hoj Hinv.
  destruct (run_rejects_reuse requests store i j reqi reqj wi wj (Some (JStr n))
              oi oj Hij eq_refl Hi Hj Hni Hnj Hoi Hoj Hinv) as [Hr Hc].
  unfold invoked. rewrite Hr, Hc. repeat split.
Qed.

(** C3 (replay rollback): when the facilitator call of a request fails (a
    response that is not 2xx, a 2xx body without a transaction hash, or a
    communication exception), the set of processed payments is left as it
    was, the nonce is not in it, and the resource is not invoked; a later
    retry with the same header, once the facilitator settles, is served
    with HTTP 200. *)
Theorem failed_settlement_leaves_nonce_unused (w : World) (store : list value)
    (req : Request) (sa : JS.json) (n : value) :
  carries rt req sa n ->
  has store n = false ->
  facilitatorFailed rt (facilitatorAnswer env w sa) = true ->
  let o := handle rt w env store req in
  processedPayments o = store
  /\ has (processedPayments o) n = false
  /\ invoked o = false
  /\ forall (w' : World) (tx : value) (t : string) (model temperature : value)
            (result : JS.json),
       settle rt (facilitatorAnswer env w' sa) = Ok (inr tx) ->
       parameters rt (body req) = Ok (Some (JStr t), model, temperature) ->
       t <> EmptyString ->
       analyzeSentiment w' t model temperature = Ok result ->
       let o' := handle rt w' env (processedPayments o) req in
       response o' = paid env result tx /\ status (response o') = 200
       /\ invoked o' = true.
Proof.
  intros Hc Hh Hf o.
  assert (Ho : processedPayments o = store /\ invoked o = false).
  { unfold o. rewrite (handle_carried w store req sa n Hc), Hh. simpl.
    destruct (settle rt (facilitatorAnswer env w sa)) as [[early | tx] | e] eqn:Hs;
      [split; reflexivity | | split; reflexivity].
    assert (Hok : facilitatorFailed rt (facilitatorAnswer env w sa) = false)
      by (apply settle_succeeds_iff; eauto).
    rewrite Hok in Hf. discriminate Hf. }
  destruct Ho as [Hstore Hinv]. rewrite Hstore.
  split; [reflexivity |]. split; [exact Hh |]. split; [exact Hinv |].
  intros w' tx t model temperature result Hs Hp Hne Ha o'.
  assert (Ho' : o' = {| response := paid env result tx;
                        processedPayments := add store n;
                        calls := [CallFacilitator (FACILITATOR_URL env)
                                                  (JSON_stringify sa);
                                  CallAnalyzeSentiment t model temperature] |}).
  { unfold o'. rewrite (handle_carried w' store req sa n Hc), Hh. simpl.
    rewrite Hs. unfold serve. rewrite Hp. simpl.
    rewrite (eqb_nonempty t Hne). simpl. rewrite Ha. reflexivity. }
  rewrite Ho'. repeat split.
Qed.

(** C9: when the facilitator settles the payment but the request body has
    no (truthy) [text], the gate answers HTTP 400 without invoking the
    protected resource and keeps the nonce in the set; a resend of the same
    header, whatever its body and whatever the outside does, is answered
    400 (payment already used) without any outside call. *)
Theorem settled_payment_without_text_is_spent (w : World) (store : list value)
    (req : Request) (sa : JS.json) (n : string)
    (fields : list (string * JS.json)) :
  carries rt req sa (Some (JStr n)) ->
  has store (Some (JStr n)) = false ->
  facilitatorFailed rt (facilitatorAnswer env w sa) = false ->
  body req = Some (JObj fields) ->
  truthy (lookup "text" fields) = false ->
  let o := handle rt w env store req in
  response o = missingText /\ status (response o) = 400
  /\ invoked o = false
  /\ calls o = [CallFacilitator (FACILITATOR_URL env) (JSON_stringify sa)]
  /\ has (processedPayments o) (Some (JStr n)) = true
  /\ forall (w' : World) (body' : value),
       let o' := handle rt w' env (processedPayments o)
                        {| x_payment := x_payment req; body := body' |} in
       response o' = alreadyUsed /\ status (response o') = 400
       /\ calls o' = [] /\ invoked o' = false.
Proof.
  intros Hc Hh Hf Hb Ht o.
  apply settle_succeeds_iff in Hf. destruct Hf as [tx Hs].
  assert (Ho : o = {| response := missingText;
                      processedPayments := add store (Some (JStr n));
                      calls := [CallFacilitator (FACILITATOR_URL env)
                                                (JSON_stringify sa)] |}).
  { unfold o. rewrite (handle_carried w store req sa _ Hc), Hh. simpl.
    rewrite Hs. unfold serve, parameters. rewrite Hb. simpl. rewrite Ht. reflexivity. }
  rewrite Ho. simpl.
  assert (Hin : has (add store (Some (JStr n))) (Some (JStr n)) = true)
    by auto with gate.
  split; [reflexivity |]. split; [reflexivity |]. split; [reflexivity |].
  split; [reflexivity |]. split; [exact Hin |].
  intros w' body'.
  rewrite (known_nonce_is_refused w' _ _ (Some (JStr n)));
    [repeat split | | exact Hin].
  apply nonceOf_carries. exists sa. apply carries_resend. exact Hc.
Qed.

(** ** The unpaid request *)

(** C6, amended: a request without X-PAYMENT header is answered HTTP 402
    with the JSON body [{ methods: [configured method] }] (and no
    [x402Version] member), Content-Type application/json; the set of
    processed payments is unchanged and nothing outside is called. *)
Theorem unpaid_request_gets_challenge (w : World) (store : list value)
    (req : Request) :
  x_payment req = None ->
  let o := handle rt w env store req in
  status (response o) = 402
  /\ content_type (response o) = "application/json"
  /\ json (response o) = JObj [("methods", JArr [paymentMethod env])]
  /\ processedPayments o = store
  /\ calls o = [].
Proof.
  intros H. unfold handle. rewrite H. simpl. repeat split.
Qed.

(** ** Decoding of the header *)

(** C4, amended: the gate decodes a present X-PAYMENT header with
    JSON.parse alone, without any base64 step: it answers 400 (invalid
    payment format) exactly when JSON.parse of the header text throws. *)
Theorem invalid_format_iff_not_json (w : World) (store : list value)
    (req : Request) (h : string) :
  x_payment req = Some h ->
  h <> EmptyString ->
  response (handle rt w env store req) = invalidFormat
  <-> exists e, JSON_parse rt h = Throw e.
Proof.
  intros Hh Hne. unfold handle. rewrite Hh, (eqb_nonempty h Hne).
  destruct (JSON_parse rt h) as [sa | e]; [| split; eauto].
  split; [| intros [e H]; discriminate H].
  intros H. exfalso. revert H.
  destruct (hasRequiredFields rt sa) as [[] | e]; simpl; try discriminate.
  destruct (authNonce rt sa) as [n | e]; simpl; try discriminate.
  destruct (has store n); simpl; try discriminate.
  destruct (settle rt _) as [[early | tx] | e] eqn:Hs; simpl; try discriminate.
  - intros ->. apply settle_early_is_402 in Hs. discriminate Hs.
  - pose proof (serve_is_not_invalidFormat w req tx) as Hserve.
    destruct (serve rt w env req tx). exact Hserve.
Qed.

(** ** Expiry *)

(** C5, amended: the gate makes no expiry check.  A request whose decoded
    authorization has validBefore <= now, and that passes the structural
    and replay checks, is submitted to the facilitator like any other, and
    the answer follows the facilitator's: 402 (payment settlement failed)
    when the facilitator answers outside 2xx or without a transaction hash,
    502 when it cannot be reached, and otherwise the nonce is marked and the
    request goes on to the resource. *)
Theorem expiry_is_left_to_the_facilitator (w : World) (store : list value)
    (req : Request) (sa : JS.json) (n : value) (validBefore now : Z) :
  carries rt req sa n ->
  has store n = false ->
  validBeforeOf sa = Some validBefore ->
  validBefore <= now ->
  let o := handle rt w env store req in
  let call := CallFacilitator (FACILITATOR_URL env) (JSON_stringify sa) in
  match settle rt (facilitatorAnswer env w sa) with
  | Throw e =>
      status (response o) = 502 /\ response o = facilitatorUnreachable e
      /\ processedPayments o = store /\ calls o = [call]
  | Ok (inl early) =>
      status (response o) = 402 /\ response o = early
      /\ processedPayments o = store /\ calls o = [call]
  | Ok (inr transactionHash) =>
      response o = fst (serve rt w env req transactionHash)
      /\ processedPayments o = add store n
      /\ calls o = call :: snd (serve rt w env req transactionHash)
  end.
Proof.
  intros Hc Hh _ _ o call. unfold o.
  rewrite (handle_carried w store req sa n Hc), Hh. simpl.
  destruct (settle rt (facilitatorAnswer env w sa)) as [[early | tx] | e] eqn:Hs;
    simpl; repeat split.
  apply (settle_early_is_402 _ early Hs).
Qed.

End Handler.

(** ** The statements on the sample data *)

Lemma paidRequest_carries (body : value) :
  carries Node.node {| x_payment := Some Sample.rawHeader; body := body |}
          Sample.signedAuth Sample.nonce.
Proof.
  exists Sample.rawHeader. repeat split; try (vm_compute; reflexivity).
  intros H. discriminate H.
Qed.

Lemma one_shot_witness :
  let requests := [(Sample.paidRequest, Sample.settling);
                   (Sample.unpaidRequest, Sample.settling);
                   (Sample.paidRequest, Sample.settling)] in
  exists oi oj,
    outcomeAt Node.node Sample.env [] requests 0 = Some oi
    /\ outcomeAt Node.node Sample.env [] requests 2 = Some oj
    /\ invoked oi = true
    /\ status (response oj) = 400 /\ response oj = alreadyUsed
    /\ calls oj = [] /\ invoked oj = false.
Proof.
  intros requests.
  eexists. eexists.
  split; [vm_compute; reflexivity |].
  split; [vm_compute; reflexivity |].
  split; [vm_compute; reflexivity |].
  apply (one_shot Node.node Sample.env [] requests
           "0x0101010101010101010101010101010101010101010101010101010101010101"
           0 2 Sample.paidRequest Sample.paidRequest Sample.settling Sample.settling
           (handle Node.node Sample.settling Sample.env [] Sample.paidRequest)).
  - lia.
  - reflexivity.
  - reflexivity.
  - vm_compute. reflexivity.
  - vm_compute. reflexivity.
  - vm_compute. reflexivity.
  - vm_compute. reflexivity.
  - vm_compute. reflexivity.
Defined.

Lemma failed_settlement_leaves_nonce_unused_witness :
  let o := handle Node.node Sample.outage Sample.env [] Sample.paidRequest in
  status (response o) = 402
  /\ processedPayments o = []
  /\ status (response (handle Node.node Sample.settling Sample.env
                               (processedPayments o) Sample.paidRequest)) = 200.
Proof.
  intros o.
  destruct (failed_settlement_leaves_nonce_unused Node.node Sample.env Sample.outage
              [] Sample.paidRequest Sample.signedAuth Sample.nonce
              (paidRequest_carries Sample.goodBody)
              eq_refl eq_refl) as (Hstore & _ & _ & Hretry).
  split; [vm_compute; reflexivity |].
  split; [exact Hstore |].
  apply (Hretry Sample.settling (Some (JStr "0xdeadbeef")) "I love this product!"
           None None Sample.analysis).
  - vm_compute. reflexivity.
  - vm_compute. reflexivity.
  - intros H. discriminate H.
  - reflexivity.
Defined.

Lemma settled_payment_without_text_is_spent_witness :
  let req := {| x_payment := Some Sample.rawHeader; body := Sample.emptyBody |} in
  let o := handle Node.node Sample.settling Sample.env [] req in
  status (response o) = 400
  /\ invoked o = false
  /\ response (handle Node.node Sample.settling Sample.env (processedPayments o)
                       Sample.paidRequest) = alreadyUsed.
Proof.
  intros req o.
  destruct (settled_payment_without_text_is_spent Node.node Sample.env
              Sample.settling [] req Sample.signedAuth _ []
              (paidRequest_carries Sample.emptyBody) eq_refl eq_refl
              eq_refl eq_refl) as (_ & Hst & Hinv & _ & _ & Hresend).
  split; [exact Hst |]. split; [exact Hinv |].
  exact (proj1 (Hresend Sample.settling Sample.goodBody)).
Defined.

(** C6, as stated, does not hold: the 402 body has no [x402Version]. *)
Lemma challenge_has_no_version :
  let o := handle Node.node Sample.settling Sample.env [] Sample.unpaidRequest in
  status (response o) = 402
  /\ get_opt (Some (json (response o))) "x402Version" = undefined
  /\ json (response o)
     <> object [("x402Version", Some (JNum 1));
                ("methods", Some (JArr [paymentMethod Sample.env]))].
Proof.
  split; [reflexivity |]. split; [reflexivity |]. intros H. discriminate H.
Qed.

Lemma unpaid_request_gets_challenge_witness :
  let o := handle Node.node Sample.settling Sample.env [Sample.nonce]
                  Sample.unpaidRequest in
  status (response o) = 402
  /\ content_type (response o) = "application/json"
  /\ json (response o) = JObj [("methods", JArr [paymentMethod Sample.env])]
  /\ processedPayments o = [Sample.nonce]
  /\ calls o = [].
Proof.
  exact (unpaid_request_gets_challenge Node.node Sample.env Sample.settling
           [Sample.nonce] Sample.unpaidRequest eq_refl).
Defined.

(** C4, as stated, does not hold: the header X402ServerClient sends, the
    base64 of the JSON of a signed authorization, is answered 400 (invalid
    payment format) although its base64 decoding is JSON the gate would
    take; the raw JSON of the same authorization goes through. *)
Lemma base64_header_is_refused :
  let encoded := {| x_payment := Some (base64 (JSON_stringify Sample.signedAuth));
                    body := Sample.goodBody |} in
  let raw := {| x_payment := Some (JSON_stringify Sample.signedAuth);
                body := Sample.goodBody |} in
  JSON_parse Node.node (JSON_stringify Sample.signedAuth) = Ok Sample.signedAuth
  /\ handle Node.node Sample.settling Sample.env [] encoded
     = silently [] invalidFormat
  /\ status (response (handle Node.node Sample.settling Sample.env [] raw)) = 200.
Proof. repeat split; vm_compute; reflexivity. Qed.

Lemma invalid_format_iff_not_json_witness :
  response (handle Node.node Sample.settling Sample.env []
                   {| x_payment := Some Sample.base64Header;
                      body := Sample.goodBody |}) = invalidFormat
  <-> exists e, JSON_parse Node.node Sample.base64Header = Throw e.
Proof.
  apply invalid_format_iff_not_json.
  - reflexivity.
  - intros H. discriminate H.
Defined.

(** C5, as stated, does not hold: the authorization below is valid until
    1700000300 and the clock reads 1800000000, yet the gate submits it to
    the facilitator, invokes the resource and answers 200. *)
Lemma expired_authorization_is_served :
  let o := handle Node.node Sample.settling Sample.env [] Sample.paidRequest in
  JSON_parse Node.node Sample.rawHeader = Ok Sample.signedAuth
  /\ validBeforeOf Sample.signedAuth = Some 1700000300
  /\ 1700000300 <= Sample.muchLater
  /\ status (response o) = 200
  /\ invoked o = true
  /\ calls o = [CallFacilitator (FACILITATOR_URL Sample.env) Sample.rawHeader;
                CallAnalyzeSentiment "I love this product!" None None].
Proof. repeat split; vm_compute; try reflexivity. discriminate. Qed.

Lemma expiry_is_left_to_the_facilitator_witness :
  let o := handle Node.node Sample.outage Sample.env [] Sample.paidRequest in
  status (response o) = 402
  /\ response o = settlementFailed "Facilitator error: Service Unavailable"
  /\ processedPayments o = []
  /\ calls o = [CallFacilitator (FACILITATOR_URL Sample.env) Sample.rawHeader].
Proof.
  assert (Hnow : 1700000300 <= Sample.muchLater) by (vm_compute; discriminate).
  exact (expiry_is_left_to_the_facilitator Node.node Sample.env Sample.outage []
           Sample.paidRequest Sample.signedAuth Sample.nonce 1700000300
           Sample.muchLater (paidRequest_carries Sample.goodBody)
           eq_refl eq_refl Hnow).
Defined.

End GateProps.

(* ===================================================================== *)
(** * The payment gate under overlapping requests                         *)
(* ===================================================================== *)

Module OverlapProps.
Import JS Gate GateTerms Overlap.

Section Handler.
Variables (rt : Runtime) (w : World) (env : Env).

(** A request handled alone, its three runs one after the other, ends as
    the handler's outcome says. *)
Lemma alone_is_handle (store : list value) (req : Request) :
  let p := schedule rt w env (arriving store [req]) [0; 0; 0]%nat in
  inFlight p = [Responded (response (handle rt w env store req))]
  /\ Overlap.processedPayments p = Gate.processedPayments (handle rt w env store req)
  /\ Overlap.calls p = Gate.calls (handle rt w env store req).
Proof.
  unfold schedule, arriving, turn, handle. cbn [fold_left map nth_error inFlight
    Overlap.processedPayments Overlap.calls resume replace].
  destruct (x_payment req) as [h |]; [| repeat split].
  destruct (String.eqb h EmptyString); [repeat split |].
  destruct (JSON_parse rt h) as [sa | e]; [| repeat split].
  destruct (hasRequiredFields rt sa) as [[] | e]; try (repeat split; fail).
  destruct (authNonce rt sa) as [n | e]; [| repeat split].
  destruct (has store n); [repeat split |].
  cbn [nth_error inFlight Overlap.processedPayments Overlap.calls resume replace app].
  destruct (settle rt (facilitator w (FACILITATOR_URL env) (JSON_stringify sa)))
    as [[early | tx] | e]; try (repeat split; fail).
  unfold serve.
  destruct (parameters rt (body req)) as [[[text model] temperature] | e];
    [| repeat split].
  destruct (truthy text); cbn [negb]; [| repeat split].
  destruct text as [[| | | t | |] |]; try (repeat split; fail).
  cbn [nth_error inFlight Overlap.processedPayments Overlap.calls resume replace app].
  destruct (analyzeSentiment w t model temperature); repeat split.
Qed.

(** Two requests that carry the same authorization and overlap: each runs
    up to its facilitator call before the other is resumed.  When the
    facilitator settles and the resource answers, both are answered 200 and
    the resource is invoked twice: the second request passed the test of
    the set before the first one added the nonce. *)
Lemma overlap_serves_both (store : list value) (req : Request)
    (sa : JS.json) (n tx : value) (t : string) (model temperature : value)
    (result : JS.json) :
  carries rt req sa n ->
  has store n = false ->
  settle rt (facilitatorAnswer env w sa) = Ok (inr tx) ->
  parameters rt (body req) = Ok (Some (JStr t), model, temperature) ->
  t <> EmptyString ->
  analyzeSentiment w t model temperature = Ok result ->
  let p := schedule rt w env (arriving store [req; req]) [0; 1; 0; 1; 0; 1]%nat in
  inFlight p = [Responded (paid env result tx); Responded (paid env result tx)]
  /\ invocations p = 2%nat.
Proof.
  intros (h & Hh & Hne & Hparse & Hfields & Hnonce) Hfresh Hsettle Hparams Ht Hrun.
  unfold facilitatorAnswer in Hsettle.
  unfold schedule, arriving, turn.
  cbn [fold_left map nth_error inFlight Overlap.processedPayments Overlap.calls
       resume replace].
  rewrite Hh, (proj2 (String.eqb_neq _ _) Hne), Hparse, Hfields, Hnonce, Hfresh.
  cbn [nth_error inFlight Overlap.processedPayments Overlap.calls resume replace app].
  rewrite Hh, (proj2 (String.eqb_neq _ _) Hne), Hparse, Hfields, Hnonce, Hfresh.
  cbn [nth_error inFlight Overlap.processedPayments Overlap.calls resume replace app].
  rewrite Hsettle, Hparams. cbn [truthy].
  rewrite (proj2 (String.eqb_neq _ _) Ht). cbn [negb].
  cbn [nth_error inFlight Overlap.processedPayments Overlap.calls resume replace app].
  rewrite Hsettle, Hparams. cbn [truthy].
  rewrite (proj2 (String.eqb_neq _ _) Ht). cbn [negb].
  cbn [nth_error inFlight Overlap.processedPayments Overlap.calls resume replace app].
  rewrite Hrun.
  cbn [nth_error inFlight Overlap.processedPayments Overlap.calls resume replace app].
  rewrite Hrun.
  split; reflexivity.
Qed.

End Handler.

(** C2 fails on the code for requests that overlap.  Two requests with the
    same X-PAYMENT header, the second arriving while the first waits for
    the facilitator: both pass [processedPayments.has] before either
    reaches [processedPayments.add], both are answered 200, and the
    protected resource is invoked twice for the one nonce.  Handled one
    after the other, the same two requests invoke it once and the second
    is answered 400 without any outside call. *)
Theorem overlapping_requests_are_both_served :
  let both := arriving [] [Sample.paidRequest; Sample.paidRequest] in
  let overlapped := schedule Node.node Sample.settling Sample.env both
                      [0; 1; 0; 1; 0; 1]%nat in
  let inTurn := schedule Node.node Sample.settling Sample.env both
                  [0; 0; 0; 1; 1; 1]%nat in
  nonceOf Node.node Sample.paidRequest = Some Sample.nonce
  /\ map (fun task => match task with
                      | Responded r => Some (status r)
                      | _ => None
                      end) (inFlight overlapped) = [Some 200; Some 200]
  /\ invocations overlapped = 2%nat
  /\ Overlap.processedPayments overlapped = [Sample.nonce]
  /\ inFlight inTurn
     = [Responded (response (handle Node.node Sample.settling Sample.env []
                                    Sample.paidRequest));
        Responded alreadyUsed]
  /\ invocations inTurn = 1%nat.
Proof.
  repeat split; vm_compute; reflexivity.
Qed.

End OverlapProps.

(* ===================================================================== *)
(** * Properties of the clients                                           *)
(* ===================================================================== *)

Module ClientProps.
Import JS Client.



Lemma header_withPayment (headers : list (string * string)) (h : string) :
  header "X-PAYMENT" (withPayment headers h) = Some h.
Proof.
  induction headers as [| [k v] rest IH]; [reflexivity |].
  cbn [withPayment].
  destruct (String.eqb k "X-PAYMENT") eqn:Hk; cbn [header].
  - rewrite String.eqb_sym, Hk. reflexivity.
  - rewrite String.eqb_sym, Hk. exact IH.
Qed.

(** No base64 digit is an opening brace. *)
Lemma base64_first_char (a : byte) : base64_char (Byte.to_N a / 4) <> "{"%char.
Proof. destruct a; vm_compute; discriminate. Qed.

(** So no base64 text is the text of a JSON object. *)
Lemma base64_is_not_an_object (s rest : string) : base64 s <> String "{" rest.
Proof.
  unfold base64. destruct (list_byte_of_string s) as [| a [| b [| c l]]]; simpl.
  - discriminate.
  - intros [= H _]. exact (base64_first_char a H).
  - intros [= H _]. exact (base64_first_char a H).
  - intros [= H _]. exact (base64_first_char a H).
Qed.

Lemma Ok_inj {A : Type} (a b : A) : Ok a = Ok b -> a = b.
Proof. intros H. injection H as H. exact H. Qed.

Lemma Some_inj {A : Type} (a b : A) : Some a = Some b -> a = b.
Proof. intros H. injection H as H. exact H. Qed.


Section Signers.

Variable s : Signing.
Variable wallet : Wallet.
Variable method : PaymentMethod.

(** ethers.randomBytes(k) returns k bytes. *)
Hypothesis random_length : forall k, List.length (randomBytes s k) = k.

(** A provided timeout is not zero; the data model keeps it within
    1 s and 1 h. *)
Hypothesis timeout_not_zero : forall t, timeout method = Some t -> ~ t == 0.



Lemma stringify_signedPayload (m : Message) (sig : string) :
  exists rest, JSON_stringify (signedPayload method m sig) = String "{" rest.
Proof.
  unfold signedPayload, object. cbn [JSON_stringify]. eexists. reflexivity.
Qed.


(** C10: after a 402, for the same payment method, wallet, clock and random
    source, X402Client retries with an X-PAYMENT header that is the JSON
    text of its signed authorization, X402ServerClient with one that is the
    base64 encoding of the JSON text of its own; the two header values are
    never equal, and when the two EIP-712 domains coincide the second is
    exactly the base64 encoding of the first. *)
Theorem clients_are_not_wire_equivalent
    (headers retry1 retry2 : list (string * string)) :
  X402Client.retryHeaders s wallet method headers = Ok retry1 ->
  X402ServerClient.retryHeaders s wallet method headers = Ok retry2 ->
  exists signedAuth1 signedAuth2 : json,
    X402Client.createSignedAuthorization s wallet method = Some signedAuth1
    /\ header "X-PAYMENT" retry1 = Some (JSON_stringify signedAuth1)
    /\ header "X-PAYMENT" retry2 = Some (base64 (JSON_stringify signedAuth2))
    /\ header "X-PAYMENT" retry1 <> header "X-PAYMENT" retry2
    /\ (X402Client.domain method = X402ServerClient.domain method ->
        signedAuth1 = signedAuth2).
Proof.
  unfold X402Client.retryHeaders, X402ServerClient.retryHeaders,
    X402Client.createSignedAuthorization,
    X402ServerClient.createPaymentAuthorization.
  set (m := transferMessage s wallet method).
  destruct (signTypedData s wallet (X402Client.domain method) types m)
    as [sig1 | e] eqn:H1; [| discriminate].
  destruct (signTypedData s wallet (X402ServerClient.domain method) types m)
    as [sig2 | e] eqn:H2; cbn [bind]; [| discriminate].
  intros E1 E2. apply Ok_inj in E1. apply Ok_inj in E2. subst retry1 retry2.
  exists (signedPayload method m sig1), (signedPayload method m sig2).
  rewrite !header_withPayment.
  split; [reflexivity |]. split; [reflexivity |]. split; [reflexivity |]. split.
  - intros H. apply Some_inj in H.
    destruct (stringify_signedPayload m sig1) as [rest Hrest].
    rewrite Hrest in H. symmetry in H.
    exact (base64_is_not_an_object _ _ H).
  - intros Hd. rewrite Hd in H1. rewrite H1 in H2. apply Ok_inj in H2.
    rewrite H2. reflexivity.
Qed.

End Signers.


Lemma clients_are_not_wire_equivalent_witness :
  exists retry1 retry2,
    X402Client.retryHeaders Sample.signing Sample.wallet Sample.method
      [("Content-Type", "application/json")] = Ok retry1
    /\ X402ServerClient.retryHeaders Sample.signing Sample.wallet Sample.method
         [("Content-Type", "application/json")] = Ok retry2
    /\ header "X-PAYMENT" retry1 = Some Sample.rawHeader
    /\ header "X-PAYMENT" retry2 = Some Sample.base64Header
    /\ header "X-PAYMENT" retry1 <> header "X-PAYMENT" retry2.
Proof.
  eexists. eexists.
  split; [vm_compute; reflexivity |].
  split; [vm_compute; reflexivity |].
  destruct (clients_are_not_wire_equivalent Sample.signing Sample.wallet
              Sample.method [("Content-Type", "application/json")] _ _
              eq_refl eq_refl) as (a1 & a2 & _ & _ & _ & Hne & _).
  split; [vm_compute; reflexivity |].
  split; [vm_compute; reflexivity |].
  exact Hne.
Defined.

End ClientProps.

(* ===================================================================== *)
(** * Further properties of the payment validator                         *)
(* ===================================================================== *)

Module ValidatorMore.
Import JS Validator ValidatorTerms.

Lemma length_of_chars (l : list ascii) : String.length (of_chars l) = List.length l.
Proof. induction l as [| c l IH]; simpl; [reflexivity | rewrite IH; reflexivity]. Qed.

Lemma chars_of_chars (l : list ascii) : chars (of_chars l) = l.
Proof. apply list_ascii_of_string_of_list_ascii. Qed.

(** The format check lets every genuine transaction hash through ([0x] and
    64 hex digits), and also every text of ten characters or more that does
    not start with [0x]: it is not a test of being a hash. *)
Theorem format_check_accepts (h : string) :
  (exists digits, h = "0x" ++ of_chars digits
                  /\ List.length digits = 64%nat
                  /\ forallb is_hex digits = true)
  \/ (10 <= JS.length h /\ startsWith "0x" h = false) ->
  validatePaymentFallback h = true.
Proof.
  intros [(digits & -> & Hlen & Hhex) | [Hlen Hpre]].
  - destruct digits as [| d rest]; [discriminate Hlen |].
    unfold validatePaymentFallback, JS.length, isValidHex.
    change (String.length ("0x" ++ of_chars (d :: rest)))
      with (S (S (String.length (of_chars (d :: rest))))).
    rewrite length_of_chars, Hlen.
    change (chars ("0x" ++ of_chars (d :: rest)))
      with ("0"%char :: "x"%char :: chars (of_chars (d :: rest))).
    rewrite chars_of_chars, Hhex. reflexivity.
  - unfold validatePaymentFallback. rewrite Hpre.
    destruct (String.eqb_spec h EmptyString) as [-> | _];
      [unfold JS.length in Hlen; simpl in Hlen; lia |].
    simpl. destruct (JS.length h <? 10) eqn:Hlt; [| reflexivity].
    apply Z.ltb_lt in Hlt. lia.
Qed.

Lemma format_check_accepts_witness :
  validatePaymentFallback
    "0xdeadbeefdeadbeefdeadbeefdeadbeefdeadbeefdeadbeefdeadbeefdeadbeef" = true
  /\ validatePaymentFallback "not a hash at all" = true.
Proof.
  split.
  - apply format_check_accepts. left.
    exists (chars "deadbeefdeadbeefdeadbeefdeadbeefdeadbeefdeadbeefdeadbeefdeadbeef").
    repeat split; reflexivity.
  - apply format_check_accepts. right. split; [vm_compute; discriminate | reflexivity].
Defined.

(** ** The chain validator *)

Lemma scanTransfers_lower_amount (rt : Runtime) (r a a' : string) (ea ea' : Z)
    (ls : list Log) :
  BigInt rt a = Ok ea -> BigInt rt a' = Ok ea' -> ea' <= ea ->
  scanTransfers rt r a ls = Ok true -> scanTransfers rt r a' ls = Ok true.
Proof.
  intros Ha Ha' Hle. induction ls as [| log rest IH]; simpl; [discriminate |].
  destruct (decodeTransfer rt log) as [[[from to] amount] | e]; simpl; [| discriminate].
  unfold transferMatches.
  destruct (String.eqb (toLowerCase to) (toLowerCase r)); simpl; [| exact IH].
  rewrite Ha, Ha'. simpl.
  destruct (ea <=? amount) eqn:H1; destruct (ea' <=? amount) eqn:H2; auto.
  apply Z.leb_le in H1. apply Z.leb_gt in H2. lia.
Qed.

(** A transaction accepted for an expected amount is accepted for every
    smaller one. *)
Theorem accepted_for_smaller_amounts (rt : Runtime)
    (getTransactionReceipt : string -> string -> except (option TransactionReceipt))
    (transactionHash rpcUrl expectedRecipient tokenAddress : string)
    (amount smaller : string) (a a' : Z) :
  BigInt rt amount = Ok a ->
  BigInt rt smaller = Ok a' ->
  a' <= a ->
  validatePaymentOnChain rt getTransactionReceipt transactionHash rpcUrl
                         expectedRecipient amount tokenAddress = true ->
  validatePaymentOnChain rt getTransactionReceipt transactionHash rpcUrl
                         expectedRecipient smaller tokenAddress = true.
Proof.
  intros Ha Ha' Hle.
  unfold validatePaymentOnChain, validatePaymentOnChain_try.
  destruct (getTransactionReceipt rpcUrl transactionHash) as [[receipt |] | e];
    simpl; try discriminate.
  destruct (status receipt) as [[| [] |] |]; simpl; try discriminate.
  destruct (List.length (filter (isTransferOf tokenAddress) (logs receipt)) =? 0)%nat;
    [discriminate |].
  destruct (scanTransfers rt expectedRecipient amount
              (filter (isTransferOf tokenAddress) (logs receipt)))
    as [[] | e] eqn:Hscan; try discriminate.
  intros _.
  rewrite (scanTransfers_lower_amount rt expectedRecipient amount smaller a a' _
             Ha Ha' Hle Hscan).
  reflexivity.
Qed.

Lemma accepted_for_smaller_amounts_witness :
  validatePaymentOnChain Node.node (fun _ _ => Ok (Some paidReceipt))
    "0xabc" "https://sepolia.base.org"
    "0x501ab28fc3c7d29c2d12b243723eb5c5418b9de6" "99999"
    "0x036CbD53842c5426634e7929541eC2318f3dCF7e" = true.
Proof.
  apply (accepted_for_smaller_amounts Node.node (fun _ _ => Ok (Some paidReceipt))
           "0xabc" "https://sepolia.base.org"
           "0x501ab28fc3c7d29c2d12b243723eb5c5418b9de6"
           "0x036CbD53842c5426634e7929541eC2318f3dCF7e" "100000" "99999"
           100000 99999).
  - reflexivity.
  - reflexivity.
  - lia.
  - vm_compute. reflexivity.
Defined.

Lemma scanTransfers_recipient_case (rt : Runtime) (r r' a : string) (ls : list Log) :
  toLowerCase r = toLowerCase r' ->
  scanTransfers rt r a ls = scanTransfers rt r' a ls.
Proof.
  intros Hr. induction ls as [| log rest IH]; simpl; [reflexivity |].
  destruct (decodeTransfer rt log) as [[[from to] amount] | e]; simpl; [| reflexivity].
  unfold transferMatches. rewrite Hr, IH. reflexivity.
Qed.

(** The verdict depends on the expected recipient and on the token address
    only up to the case of their letters. *)
Theorem verdict_ignores_letter_case (rt : Runtime)
    (getTransactionReceipt : string -> string -> except (option TransactionReceipt))
    (transactionHash rpcUrl expectedAmount : string)
    (recipient recipient' token token' : string) :
  toLowerCase recipient = toLowerCase recipient' ->
  toLowerCase token = toLowerCase token' ->
  validatePaymentOnChain rt getTransactionReceipt transactionHash rpcUrl
                         recipient expectedAmount token
  = validatePaymentOnChain rt getTransactionReceipt transactionHash rpcUrl
                           recipient' expectedAmount token'.
Proof.
  intros Hr Ht.
  unfold validatePaymentOnChain, validatePaymentOnChain_try.
  destruct (getTransactionReceipt rpcUrl transactionHash) as [[receipt |] | e];
    simpl; try reflexivity.
  assert (Hf : filter (isTransferOf token) (logs receipt)
               = filter (isTransferOf token') (logs receipt)).
  { apply filter_ext. intros log. unfold isTransferOf. rewrite Ht. reflexivity. }
  rewrite Hf, (scanTransfers_recipient_case rt recipient recipient' expectedAmount _ Hr).
  reflexivity.
Qed.

Lemma verdict_ignores_letter_case_witness :
  validatePaymentOnChain Node.node (fun _ _ => Ok (Some paidReceipt))
    "0xabc" "https://sepolia.base.org"
    "0x501AB28FC3C7D29C2D12B243723EB5C5418B9DE6" "100000"
    "0x036CBD53842C5426634E7929541EC2318F3DCF7E"
  = validatePaymentOnChain Node.node (fun _ _ => Ok (Some paidReceipt))
      "0xabc" "https://sepolia.base.org"
      "0x501ab28fc3c7d29c2d12b243723eb5c5418b9de6" "100000"
      "0x036cbd53842c5426634e7929541ec2318f3dcf7e".
Proof.
  apply verdict_ignores_letter_case; vm_compute; reflexivity.
Defined.

End ValidatorMore.

(* ===================================================================== *)
(** * Further properties of the payment gate                              *)
(* ===================================================================== *)

Module GateMore.
Import JS Gate GateTerms MoreTerms GateProps.

Section Handler.

Variable rt : Runtime.
Variable env : Env.

(** The handler either answers on its own, or has a request with an unused
    nonce to settle. *)
Lemma handle_shapes (w : World) (store : list value) (req : Request) :
  (exists r, handle rt w env store req = silently store r
             /\ (r = reply 402 (challenge env) \/ rejectedByGate r
                 \/ exists e, r = internalError e))
  \/ (exists sa n, carries rt req sa n /\ has store n = false).
Proof.
  unfold handle, rejectedByGate, carries, silently.
  destruct (x_payment req) as [h |] eqn:Hh.
  2: { left. eexists. split; [reflexivity | auto]. }
  destruct (String.eqb_spec h EmptyString) as [Hempty | Hne].
  { left. eexists. split; [reflexivity | auto]. }
  destruct (JSON_parse rt h) as [sa | e] eqn:Hp.
  2: { left. eexists. split; [reflexivity | auto]. }
  destruct (hasRequiredFields rt sa) as [[] | e] eqn:Hf.
  2: { left. eexists. split; [reflexivity | auto]. }
  2: { left. eexists. split; [reflexivity | eauto]. }
  destruct (authNonce rt sa) as [n | e] eqn:Hn.
  2: { left. eexists. split; [reflexivity | eauto]. }
  destruct (has store n) eqn:Hs.
  { left. eexists. split; [reflexivity | auto 6]. }
  right. exists sa, n. split; [exists h |]; auto.
Qed.

(** What steps 4 to 6 can answer. *)
Lemma serve_shapes (w : World) (req : Request) (tx : value) :
  (exists e, serve rt w env req tx = (internalError e, []))
  \/ serve rt w env req tx = (missingText, [])
  \/ exists t model temperature,
       parameters rt (body req) = Ok (Some (JStr t), model, temperature)
       /\ t <> EmptyString
       /\ ((exists e, analyzeSentiment w t model temperature = Throw e
                      /\ serve rt w env req tx
                         = (internalError e, [CallAnalyzeSentiment t model temperature]))
           \/ (exists result, analyzeSentiment w t model temperature = Ok result
                              /\ serve rt w env req tx
                                 = (paid env result tx,
                                    [CallAnalyzeSentiment t model temperature]))).
Proof.
  unfold serve.
  destruct (parameters rt (body req)) as [[[text model] temperature] | e];
    [| left; eauto].
  destruct (truthy text) eqn:Ht; simpl; [| right; left; reflexivity].
  destruct text as [[| | | t | |] |]; simpl; try (left; eauto; fail).
  right. right. exists t, model, temperature.
  split; [reflexivity |]. split.
  - intros ->. discriminate Ht.
  - destruct (analyzeSentiment w t model temperature) as [result | e]; eauto.
Qed.

Lemma settle_hash_is_truthy (answer : FetchResult) (tx : value) :
  settle rt answer = Ok (inr tx) -> truthy tx = true.
Proof.
  unfold settle, response_json.
  destruct answer as [e | code text]; [discriminate |].
  destruct (response_ok code); simpl.
  - destruct text as [t | e]; simpl; [| discriminate].
    destruct (JSON_parse rt t) as [result | e]; simpl; [| discriminate].
    destruct result; simpl; try discriminate.
    destruct (truthy (lookup "transactionHash" fields)) eqn:Ht; simpl; [| discriminate].
    intros [= <-]. exact Ht.
  - destruct text; simpl; discriminate.
Qed.

Lemma add_unused (store : list value) (n : value) :
  has store n = false -> add store n = (store ++ [n])%list.
Proof. intros H. unfold add. rewrite H. reflexivity. Qed.

(** The protected resource is invoked only for a request whose nonce was
    unused and whose authorization the facilitator settled with a
    transaction hash; the calls are then the facilitator's and the
    resource's, in that order, and the nonce joins the set. *)
Theorem resource_needs_settlement (w : World) (store : list value) (req : Request) :
  invoked (handle rt w env store req) = true ->
  exists sa n tx t model temperature,
    carries rt req sa n
    /\ has store n = false
    /\ settle rt (facilitatorAnswer env w sa) = Ok (inr tx)
    /\ truthy tx = true
    /\ calls (handle rt w env store req)
       = [CallFacilitator (FACILITATOR_URL env) (JSON_stringify sa);
          CallAnalyzeSentiment t model temperature]
    /\ processedPayments (handle rt w env store req) = (store ++ [n])%list.
Proof.
  destruct (handle_shapes w store req) as [(r & -> & _) | (sa & n & Hc & Hh)];
    [discriminate |].
  rewrite (handle_carried rt env w store req sa n Hc), Hh. simpl.
  destruct (settle rt (facilitatorAnswer env w sa)) as [[early | tx] | e] eqn:Hs;
    simpl; try discriminate.
  destruct (serve_shapes w req tx)
    as [[e1 ->] | [-> | (t & model & temperature & _ & _ & Hrun)]];
    simpl; try discriminate.
  intros _. exists sa, n, tx, t, model, temperature.
  rewrite (add_unused store n Hh).
  repeat split; auto; try (apply (settle_hash_is_truthy _ tx Hs)).
  destruct Hrun as [(e2 & _ & ->) | (result & _ & ->)]; reflexivity.
Qed.

Lemma set_gains_only_a_settled_nonce_shape (w : World) (store : list value)
    (req : Request) :
  processedPayments (handle rt w env store req) = store
  \/ exists n, processedPayments (handle rt w env store req) = (store ++ [n])%list.
Proof.
  destruct (handle_shapes w store req) as [(r & -> & _) | (sa & n & Hc & Hh)];
    [left; reflexivity |].
  rewrite (handle_carried rt env w store req sa n Hc), Hh. simpl.
  destruct (settle rt (facilitatorAnswer env w sa)) as [[early | tx] | e];
    simpl; [left; reflexivity | | left; reflexivity].
  right. exists n. apply add_unused. exact Hh.
Qed.

Lemma handle_grows (w : World) (store : list value) (req : Request) :
  (List.length store
   <= List.length (processedPayments (handle rt w env store req)))%nat.
Proof.
  destruct (set_gains_only_a_settled_nonce_shape w store req) as [-> | [n ->]].
  - lia.
  - rewrite length_app. simpl. lia.
Qed.

(** A request leaves the set as it was, or adds the one nonce it carried,
    and that only after the facilitator settled. *)
Theorem set_gains_only_a_settled_nonce (w : World) (store : list value)
    (req : Request) :
  processedPayments (handle rt w env store req) = store
  \/ exists sa n tx,
       carries rt req sa n
       /\ has store n = false
       /\ settle rt (facilitatorAnswer env w sa) = Ok (inr tx)
       /\ processedPayments (handle rt w env store req) = (store ++ [n])%list.
Proof.
  destruct (handle_shapes w store req) as [(r & -> & _) | (sa & n & Hc & Hh)];
    [left; reflexivity |].
  rewrite (handle_carried rt env w store req sa n Hc), Hh. simpl.
  destruct (settle rt (facilitatorAnswer env w sa)) as [[early | tx] | e] eqn:Hs;
    simpl; [left; reflexivity | | left; reflexivity].
  right. exists sa, n, tx. rewrite (add_unused store n Hh). auto.
Qed.

Lemma lookup_obj_set_same (fields : list (string * JS.json)) (k : string) (v : JS.json) :
  lookup k (obj_set fields k v) = Some v.
Proof.
  induction fields as [| [k' v'] rest IH]; simpl.
  - rewrite String.eqb_refl. reflexivity.
  - destruct (String.eqb k k') eqn:Hk; simpl; rewrite Hk; [reflexivity | exact IH].
Qed.

Lemma lookup_obj_set_other (fields : list (string * JS.json)) (k k' : string)
    (v : JS.json) :
  k <> k' -> lookup k (obj_set fields k' v) = lookup k fields.
Proof.
  intros Hne. induction fields as [| [k0 v0] rest IH]; simpl.
  - destruct (String.eqb_spec k k'); [contradiction | reflexivity].
  - destruct (String.eqb_spec k' k0) as [<- | Hk0]; simpl.
    + destruct (String.eqb_spec k k'); [contradiction | reflexivity].
    + destruct (String.eqb k k0); [reflexivity | exact IH].
Qed.

(** The handler on a request it answers 200. *)
Lemma ok_response_shape (w : World) (store : list value) (req : Request) :
  status (response (handle rt w env store req)) = 200 ->
  exists sa n tx t model temperature result,
    carries rt req sa n
    /\ settle rt (facilitatorAnswer env w sa) = Ok (inr tx)
    /\ parameters rt (body req) = Ok (Some (JStr t), model, temperature)
    /\ analyzeSentiment w t model temperature = Ok result
    /\ response (handle rt w env store req) = paid env result tx.
Proof.
  destruct (handle_shapes w store req) as [(r & -> & Hr) | (sa & n & Hc & Hh)].
  { simpl. unfold rejectedByGate in Hr.
    destruct Hr as [-> | [[-> | [-> | ->]] | [e ->]]]; discriminate. }
  rewrite (handle_carried rt env w store req sa n Hc), Hh. simpl.
  destruct (settle rt (facilitatorAnswer env w sa)) as [[early | tx] | e] eqn:Hs;
    simpl; try discriminate.
  { intros H. rewrite (settle_early_is_402 rt _ early Hs) in H. discriminate H. }
  destruct (serve_shapes w req tx)
    as [[e1 ->] | [-> | (t & model & temperature & Hp & _ & Hrun)]];
    simpl; try discriminate.
  destruct Hrun as [(e2 & _ & ->) | (result & Ha & ->)]; simpl; [discriminate |].
  intros _. exists sa, n, tx, t, model, temperature, result. auto.
Qed.

(** A 200 response exists only for a settled payment whose resource call
    returned: the resource was called with the text, model and temperature
    of the request body and returned a result; the body of the response has
    the member [payment] holding the facilitator's transaction hash, the
    status "confirmed" and the network, also when the result has a member
    of that name, and every other member of the body is that of the result
    the resource returned. *)
Theorem paid_response_carries_receipt (w : World) (store : list value)
    (req : Request) :
  status (response (handle rt w env store req)) = 200 ->
  exists sa n tx t model temperature result,
    carries rt req sa n
    /\ settle rt (facilitatorAnswer env w sa) = Ok (inr tx)
    /\ parameters rt (body req) = Ok (Some (JStr t), model, temperature)
    /\ analyzeSentiment w t model temperature = Ok result
    /\ calls (handle rt w env store req)
       = [CallFacilitator (FACILITATOR_URL env) (JSON_stringify sa);
          CallAnalyzeSentiment t model temperature]
    /\ get_opt (Some (json (response (handle rt w env store req)))) "payment"
       = Some (receipt env tx)
    /\ forall k, k <> "payment" ->
         get_opt (Some (json (response (handle rt w env store req)))) k
         = get_opt (Some result) k.
Proof.
  destruct (handle_shapes w store req) as [(r & -> & Hr) | (sa & n & Hc & Hh)].
  { simpl. unfold rejectedByGate in Hr.
    destruct Hr as [-> | [[-> | [-> | ->]] | [e ->]]]; discriminate. }
  rewrite (handle_carried rt env w store req sa n Hc), Hh. simpl.
  destruct (settle rt (facilitatorAnswer env w sa)) as [[early | tx] | e] eqn:Hs;
    simpl; try discriminate.
  { intros H. rewrite (settle_early_is_402 rt _ early Hs) in H. discriminate H. }
  destruct (serve_shapes w req tx)
    as [[e1 ->] | [-> | (t & model & temperature & Hp & _ & Hrun)]];
    simpl; try discriminate.
  destruct Hrun as [(e2 & _ & ->) | (result & Ha & ->)]; simpl; [discriminate |].
  intros _. exists sa, n, tx, t, model, temperature, result.
  split; [exact Hc |]. split; [exact Hs |]. split; [exact Hp |]. split; [exact Ha |].
  split; [reflexivity |].
  split.
  - apply lookup_obj_set_same.
  - intros k Hk. rewrite (lookup_obj_set_other _ k "payment" _ Hk).
    destruct result; reflexivity.
Qed.

(** When the resource throws after the facilitator settled, the gate
    answers 500 and the payment is spent all the same: the nonce is in the
    set, and a resend of the header is answered 400 without any outside
    call. *)
Theorem failed_resource_still_spends_payment (w : World) (store : list value)
    (req : Request) (sa : JS.json) (n tx : value) (t : string)
    (model temperature : value) (e : string) :
  carries rt req sa n ->
  is_primitive n = true ->
  has store n = false ->
  settle rt (facilitatorAnswer env w sa) = Ok (inr tx) ->
  parameters rt (body req) = Ok (Some (JStr t), model, temperature) ->
  t <> EmptyString ->
  analyzeSentiment w t model temperature = Throw e ->
  let o := handle rt w env store req in
  response o = internalError e
  /\ has (processedPayments o) n = true
  /\ forall (w' : World) (body' : value),
       handle rt w' env (processedPayments o)
              {| x_payment := x_payment req; body := body' |}
       = silently (processedPayments o) alreadyUsed.
Proof.
  intros Hc Hp Hh Hs Hb Hne Ha o.
  assert (Ho : o = {| response := internalError e;
                      processedPayments := add store n;
                      calls := [CallFacilitator (FACILITATOR_URL env)
                                                (JSON_stringify sa);
                                CallAnalyzeSentiment t model temperature] |}).
  { unfold o. rewrite (handle_carried rt env w store req sa n Hc), Hh. simpl.
    rewrite Hs. unfold serve. rewrite Hb. simpl.
    rewrite (eqb_nonempty t Hne). simpl. rewrite Ha. reflexivity. }
  rewrite Ho. simpl.
  assert (Hin : has (add store n) n = true) by (apply has_add_same; exact Hp).
  split; [reflexivity |]. split; [exact Hin |].
  intros w' body'.
  apply (known_nonce_is_refused rt env w' _ _ n); [| exact Hin].
  apply nonceOf_carries. exists sa. apply carries_resend. exact Hc.
Qed.

(** The three rejections the gate issues on its own (invalid format,
    invalid authorization, payment already used) come without any call to
    the facilitator or to the resource, and leave the set as it was. *)
Theorem gate_rejections_are_silent (w : World) (store : list value) (req : Request) :
  rejectedByGate (response (handle rt w env store req)) ->
  processedPayments (handle rt w env store req) = store
  /\ calls (handle rt w env store req) = [].
Proof.
  destruct (handle_shapes w store req) as [(r & -> & _) | (sa & n & Hc & Hh)];
    [split; reflexivity |].
  rewrite (handle_carried rt env w store req sa n Hc), Hh. simpl.
  unfold rejectedByGate. intros Hr. exfalso.
  destruct (settle rt (facilitatorAnswer env w sa)) as [[early | tx] | e] eqn:Hs;
    simpl in Hr.
  - pose proof (settle_early_is_402 rt _ early Hs) as H402.
    destruct Hr as [-> | [-> | ->]]; discriminate H402.
  - destruct (serve_shapes w req tx)
      as [[e1 He] | [He | (t & model & temperature & _ & _ & Hrun)]].
    + rewrite He in Hr. destruct Hr as [Hr | [Hr | Hr]]; discriminate Hr.
    + rewrite He in Hr. destruct Hr as [Hr | [Hr | Hr]]; discriminate Hr.
    + destruct Hrun as [(e2 & _ & He) | (result & _ & He)]; rewrite He in Hr;
        destruct Hr as [Hr | [Hr | Hr]]; discriminate Hr.
  - destruct Hr as [Hr | [Hr | Hr]]; discriminate Hr.
Qed.

(** The gate answers with one of five status codes. *)
Theorem response_statuses (w : World) (store : list value) (req : Request) :
  In (status (response (handle rt w env store req))) [200; 400; 402; 500; 502].
Proof.
  destruct (handle_shapes w store req) as [(r & -> & Hr) | (sa & n & Hc & Hh)].
  { unfold rejectedByGate in Hr.
    destruct Hr as [-> | [[-> | [-> | ->]] | [e ->]]]; simpl; auto 6. }
  rewrite (handle_carried rt env w store req sa n Hc), Hh. simpl.
  destruct (settle rt (facilitatorAnswer env w sa)) as [[early | tx] | e] eqn:Hs; simpl.
  - rewrite (settle_early_is_402 rt _ early Hs). auto.
  - destruct (serve_shapes w req tx)
      as [[e1 ->] | [-> | (t & model & temperature & _ & _ & Hrun)]]; simpl; auto 6.
    destruct Hrun as [(e2 & _ & ->) | (result & _ & ->)]; simpl; auto 6.
  - auto 6.
Qed.

Lemma handle_adds_at_most_one (w : World) (store : list value) (req : Request) :
  (List.length (processedPayments (handle rt w env store req))
   <= S (List.length store))%nat.
Proof.
  destruct (set_gains_only_a_settled_nonce_shape w store req) as [-> | [n ->]].
  - lia.
  - rewrite length_app. simpl. lia.
Qed.

(** Over any run of requests the set loses no member and gains at most one
    per request. *)
Theorem processed_payments_only_grow (requests : list (Request * World)) :
  forall store : list value,
    (forall v, has store v = true -> has (storeAfter rt env store requests) v = true)
    /\ (List.length store <= List.length (storeAfter rt env store requests)
        <= List.length store + List.length requests)%nat.
Proof.
  induction requests as [| [req w] rest IH]; intros store; simpl.
  - split; [auto | lia].
  - destruct (IH (processedPayments (handle rt w env store req))) as [Hkeep Hlen].
    split.
    + intros v Hv. apply Hkeep. apply handle_keeps. exact Hv.
    + pose proof (handle_adds_at_most_one w store req) as Hone.
      pose proof (handle_grows w store req) as Hgrow. lia.
Qed.

End Handler.

Lemma resource_needs_settlement_witness :
  exists sa n tx t model temperature,
    carries Node.node Sample.paidRequest sa n
    /\ has [] n = false
    /\ settle Node.node (facilitatorAnswer Sample.env Sample.settling sa) = Ok (inr tx)
    /\ truthy tx = true
    /\ calls (handle Node.node Sample.settling Sample.env [] Sample.paidRequest)
       = [CallFacilitator (FACILITATOR_URL Sample.env) (JSON_stringify sa);
          CallAnalyzeSentiment t model temperature]
    /\ processedPayments (handle Node.node Sample.settling Sample.env []
                                 Sample.paidRequest) = ([] ++ [n])%list.
Proof.
  apply resource_needs_settlement. vm_compute. reflexivity.
Defined.

Lemma paid_response_carries_receipt_witness :
  let o := handle Node.node Sample.settling Sample.env [] Sample.paidRequest in
  exists sa n tx t model temperature result,
    carries Node.node Sample.paidRequest sa n
    /\ settle Node.node (facilitatorAnswer Sample.env Sample.settling sa) = Ok (inr tx)
    /\ parameters Node.node (body Sample.paidRequest)
       = Ok (Some (JStr t), model, temperature)
    /\ analyzeSentiment Sample.settling t model temperature = Ok result
    /\ calls o = [CallFacilitator (FACILITATOR_URL Sample.env) (JSON_stringify sa);
                  CallAnalyzeSentiment t model temperature]
    /\ get_opt (Some (json (response o))) "payment" = Some (receipt Sample.env tx)
    /\ forall k, k <> "payment" ->
         get_opt (Some (json (response o))) k = get_opt (Some result) k.
Proof.
  apply (paid_response_carries_receipt Node.node Sample.env Sample.settling []
           Sample.paidRequest).
  vm_compute. reflexivity.
Defined.

Lemma failed_resource_still_spends_payment_witness :
  let o := handle Node.node failingResource Sample.env [] Sample.paidRequest in
  status (response o) = 500
  /\ has (processedPayments o) Sample.nonce = true
  /\ handle Node.node Sample.settling Sample.env (processedPayments o)
            Sample.paidRequest
     = silently (processedPayments o) alreadyUsed.
Proof.
  intros o.
  destruct (failed_resource_still_spends_payment Node.node Sample.env
              failingResource [] Sample.paidRequest Sample.signedAuth Sample.nonce
              (Some (JStr "0xdeadbeef")) "I love this product!" None None
              "Sentiment analysis failed: OpenAI API error"
              (paidRequest_carries Sample.goodBody))
    as (Hr & Hin & Hresend).
  - reflexivity.
  - reflexivity.
  - vm_compute. reflexivity.
  - vm_compute. reflexivity.
  - intros H. discriminate H.
  - reflexivity.
  - split; [unfold o; rewrite Hr; reflexivity |].
    split; [exact Hin |].
    exact (Hresend Sample.settling Sample.goodBody).
Defined.

Lemma gate_rejections_are_silent_witness :
  let req := {| x_payment := Some Sample.base64Header; body := Sample.goodBody |} in
  processedPayments (handle Node.node Sample.settling Sample.env [] req) = []
  /\ calls (handle Node.node Sample.settling Sample.env [] req) = [].
Proof.
  apply gate_rejections_are_silent.
  left. vm_compute. reflexivity.
Defined.

End GateMore.

(* ===================================================================== *)
(** * Properties of the sentiment service                                 *)
(* ===================================================================== *)

Module SentimentProps.
Import JS Sentiment MoreTerms.

Section Service.

Variable rt : Runtime.

Lemma read_fresh (result : json) (k : string) :
  read rt {| parsed := result; own := [] |} k = get rt (Some result) k.
Proof. reflexivity. Qed.

Lemma read_assign_same (r r' : Assigned) (k : string) (v : json) :
  assign rt r k v = Ok r' -> read rt r' k = Ok (Some v).
Proof.
  unfold assign, read.
  destruct (parsed r); try discriminate; intros [= <-]; simpl;
    rewrite GateMore.lookup_obj_set_same; reflexivity.
Qed.

Lemma read_assign_other (r r' : Assigned) (k k' : string) (v : json) :
  assign rt r k v = Ok r' -> k' <> k -> read rt r' k' = read rt r k'.
Proof.
  unfold assign, read.
  destruct (parsed r); try discriminate; intros [= <-] Hne; simpl;
    rewrite (GateMore.lookup_obj_set_other _ k' k v Hne); reflexivity.
Qed.

Lemma isSentiment_cases (v : value) :
  isSentiment v = true ->
  exists s, v = Some (JStr s) /\ In s ["positive"; "negative"; "neutral"].
Proof.
  destruct v as [[| | | label | |] |]; try discriminate.
  unfold isSentiment. intros H. exists label. split; [reflexivity |].
  destruct (String.eqb_spec label "positive") as [Hp | _]; [left; auto |].
  destruct (String.eqb_spec label "negative") as [Hn | _]; [right; left; auto |].
  destruct (String.eqb_spec label "neutral") as [Hu | _];
    [right; right; left; auto |].
  discriminate H.
Qed.

Lemma goodConfidence_cases (v : value) :
  badConfidence v = false -> exists q, v = Some (JNum q) /\ (0 <= q <= 1)%Q.
Proof.
  destruct v as [[| | q | | |] |]; simpl; try discriminate.
  intros H. apply orb_false_elim in H. destruct H as [H0 H1].
  apply negb_false_iff in H0, H1. apply Qle_bool_iff in H0, H1.
  exists q. auto.
Qed.

(** After the first validation the sentiment is one of the three. *)
Lemma sentiment_settled (r0 r1 : Assigned) (s0 : value) :
  read rt r0 "sentiment" = Ok s0 ->
  (if negb (isSentiment s0) then assign rt r0 "sentiment" (JStr "neutral") else Ok r0)
  = Ok r1 ->
  exists s1, read rt r1 "sentiment" = Ok s1 /\ isSentiment s1 = true.
Proof.
  intros Hr. destruct (isSentiment s0) eqn:Hs; simpl.
  - intros [= <-]. eauto.
  - intros Ha. exists (Some (JStr "neutral")).
    split; [exact (read_assign_same _ _ _ _ Ha) | reflexivity].
Qed.

Lemma confidence_settled (r1 r2 : Assigned) (c1 : value) :
  read rt r1 "confidence" = Ok c1 ->
  (if badConfidence c1 then assign rt r1 "confidence" (JNum (1 # 2)) else Ok r1)
  = Ok r2 ->
  (exists c2, read rt r2 "confidence" = Ok c2 /\ badConfidence c2 = false)
  /\ read rt r2 "sentiment" = read rt r1 "sentiment".
Proof.
  intros Hr. destruct (badConfidence c1) eqn:Hc.
  - intros Ha. split.
    + exists (Some (JNum (1 # 2))).
      split; [exact (read_assign_same _ _ _ _ Ha) | reflexivity].
    + apply (read_assign_other _ _ _ _ _ Ha). discriminate.
  - intros [= <-]. split; [eauto | reflexivity].
Qed.

(** What the validations return. *)
Lemma validated_shape (text : string) (result r : json) :
  validated rt text result = Ok r ->
  exists (s : string) (q : Q) (e : json),
    r = JObj [("text", JStr text); ("sentiment", JStr s);
              ("confidence", JNum q); ("explanation", e)]
    /\ In s ["positive"; "negative"; "neutral"]
    /\ (0 <= q <= 1)%Q
    /\ truthy (Some e) = true.
Proof.
  unfold validated.
  destruct (read rt {| parsed := result; own := [] |} "sentiment")
    as [s0 | err] eqn:Hs0; [| discriminate].
  cbn [bind].
  destruct (if negb (isSentiment s0)
            then assign rt {| parsed := result; own := [] |} "sentiment" (JStr "neutral")
            else Ok {| parsed := result; own := [] |}) as [r1 | err] eqn:H1;
    [| discriminate].
  cbn [bind].
  destruct (sentiment_settled _ r1 s0 Hs0 H1) as (s1 & Hs1 & Hvalid).
  destruct (read rt r1 "confidence") as [c1 | err] eqn:Hc1; [| discriminate].
  cbn [bind].
  destruct (if badConfidence c1 then assign rt r1 "confidence" (JNum (1 # 2)) else Ok r1)
    as [r2 | err] eqn:H2; [| discriminate].
  cbn [bind].
  destruct (confidence_settled r1 r2 c1 Hc1 H2) as ((c2 & Hc2 & Hgood) & Hsame).
  rewrite Hsame, Hs1, Hc2. cbn [bind].
  destruct (read rt r2 "explanation") as [e0 | err]; [| discriminate].
  cbn [bind].
  destruct (isSentiment_cases s1 Hvalid) as (s & -> & Hin).
  destruct (goodConfidence_cases c2 Hgood) as (q & -> & Hq).
  intros [= <-].
  destruct (truthy e0) eqn:He.
  - destruct e0 as [e |]; [| discriminate He].
    exists s, q, e. auto.
  - exists s, q, (JStr "No explanation provided"). auto.
Qed.

Variable api : OpenAI.

Lemma analysis_shape (text : string) (model temperature : value) (r : json) :
  analyzeSentiment rt api text model temperature = Ok r ->
  exists (s : string) (q : Q) (e : json),
    r = JObj [("text", JStr text); ("sentiment", JStr s);
              ("confidence", JNum q); ("explanation", e)]
    /\ In s ["positive"; "negative"; "neutral"]
    /\ (0 <= q <= 1)%Q
    /\ truthy (Some e) = true.
Proof.
  unfold analyzeSentiment, analyzeSentiment_try.
  destruct (OPENAI_API_KEY api) as [key |]; [| discriminate].
  destruct (String.eqb key EmptyString); [discriminate |].
  destruct (completions api _ _) as [response | err]; cbn [bind]; [| discriminate].
  destruct (negb (response_ok (status response))); [discriminate |].
  destruct (response_json rt (body response)) as [data | err]; cbn [bind];
    [| discriminate].
  destruct (messageContent rt data) as [content | err]; cbn [bind]; [| discriminate].
  destruct (interpreted rt content) as [result | err]; cbn [bind]; [| discriminate].
  destruct (validated rt text result) as [r' | err] eqn:Hv; [| discriminate].
  intros [= <-]. exact (validated_shape text result r' Hv).
Qed.

(** Whatever the model replies, a result that analyzeSentiment returns is
    the object with the four members text, sentiment, confidence and
    explanation, where text is the text asked about, sentiment is one of
    positive, negative and neutral, confidence is a number between 0 and 1,
    and explanation is truthy; and a result is returned only when an API key
    is configured and the endpoint answered 2xx. *)
Theorem analysis_is_well_formed (text : string) (model temperature : value)
    (r : json) :
  analyzeSentiment rt api text model temperature = Ok r ->
  (exists (s : string) (q : Q) (e : json),
     r = JObj [("text", JStr text); ("sentiment", JStr s);
               ("confidence", JNum q); ("explanation", e)]
     /\ In s ["positive"; "negative"; "neutral"]
     /\ (0 <= q <= 1)%Q
     /\ truthy (Some e) = true)
  /\ exists key response,
       OPENAI_API_KEY api = Some key /\ key <> EmptyString
       /\ completions api ("Bearer " ++ key)
            (completionRequest text model temperature) = Ok response
       /\ response_ok (status response) = true.
Proof.
  intros Hr. split; [exact (analysis_shape text model temperature r Hr) |].
  revert Hr. unfold analyzeSentiment, analyzeSentiment_try.
  destruct (OPENAI_API_KEY api) as [key |]; [| discriminate].
  destruct (String.eqb_spec key EmptyString) as [| Hne]; [discriminate |].
  destruct (completions api _ _) as [response | err] eqn:Hc; cbn [bind];
    [| discriminate].
  destruct (response_ok (status response)) eqn:Hok; [| discriminate].
  intros _. exists key, response. auto.
Qed.

(** analyzeSentiment fails in two ways only: without an API key, with the
    message about the key and whatever the endpoint would answer; with a
    key, with a message that starts with "Sentiment analysis failed: ". *)
Theorem analysis_errors (text : string) (model temperature : value)
    (message : string) :
  analyzeSentiment rt api text model temperature = Throw message ->
  (message = "OPENAI_API_KEY not configured"
   /\ (OPENAI_API_KEY api = None \/ OPENAI_API_KEY api = Some EmptyString))
  \/ (exists key cause,
        OPENAI_API_KEY api = Some key /\ key <> EmptyString
        /\ analyzeSentiment_try rt api key text model temperature = Throw cause
        /\ message = "Sentiment analysis failed: " ++ cause).
Proof.
  unfold analyzeSentiment.
  destruct (OPENAI_API_KEY api) as [key |].
  2: { intros [= <-]. left. split; [reflexivity | left; reflexivity]. }
  destruct (String.eqb_spec key EmptyString) as [-> | Hne].
  { intros [= <-]. left. split; [reflexivity | right; reflexivity]. }
  destruct (analyzeSentiment_try rt api key text model temperature)
    as [r | cause] eqn:Htry; [discriminate |].
  intros [= <-]. right. exists key, cause. auto.
Qed.

Lemma analyzeSentiment_on_reply (text : string) (model temperature : value)
    (c : string) :
  replies rt api text model temperature c ->
  analyzeSentiment rt api text model temperature
  = match bind (interpreted rt (Some (JStr c))) (validated rt text) with
    | Ok r => Ok r
    | Throw message => Throw ("Sentiment analysis failed: " ++ message)
    end.
Proof.
  intros (key & response & data & Hk & Hne & Hr & Hok & Hd & Hc).
  unfold analyzeSentiment, analyzeSentiment_try.
  rewrite Hk, (GateProps.eqb_nonempty key Hne), Hr. cbn [bind].
  rewrite Hok. cbn [negb]. rewrite Hd. cbn [bind]. rewrite Hc. reflexivity.
Qed.

(** A reply that is not JSON is read off its words: positive if the
    lower-cased reply contains "positive", else negative if it contains
    "negative", else neutral, with confidence 0.5 and the reply itself as
    explanation (the default explanation for an empty reply). *)
Theorem plain_reply_is_read_off_its_words (text : string)
    (model temperature : value) (c : string) :
  replies rt api text model temperature c ->
  (exists e, JSON_parse rt c = Throw e) ->
  analyzeSentiment rt api text model temperature
  = Ok (JObj [("text", JStr text);
              ("sentiment",
               JStr (if includes "positive" (toLowerCase c) then "positive"
                     else if includes "negative" (toLowerCase c) then "negative"
                     else "neutral"));
              ("confidence", JNum (1 # 2));
              ("explanation",
               JStr (if String.eqb c EmptyString
                     then "No explanation provided" else c))]).
Proof.
  intros Hreply [e He]. rewrite (analyzeSentiment_on_reply _ _ _ _ Hreply).
  unfold interpreted, parseContent. simpl toString. rewrite He.
  unfold extracted. cbn [bind]. unfold validated, read, assign. cbn [own parsed lookup].
  destruct (includes "positive" (toLowerCase c));
    [| destruct (includes "negative" (toLowerCase c))];
    simpl; destruct (String.eqb c EmptyString); reflexivity.
Qed.

(** A reply in the requested format, with a sentiment among the three, a
    confidence within 0 and 1 and a truthy explanation, is returned as it
    is, under the text asked about. *)
Theorem well_formed_reply_passes_through (text : string)
    (model temperature : value) (c s : string) (q : Q) (e : json)
    (fields : list (string * json)) :
  replies rt api text model temperature c ->
  JSON_parse rt c = Ok (JObj fields) ->
  lookup "sentiment" fields = Some (JStr s) ->
  In s ["positive"; "negative"; "neutral"] ->
  lookup "confidence" fields = Some (JNum q) ->
  (0 <= q <= 1)%Q ->
  lookup "explanation" fields = Some e ->
  truthy (Some e) = true ->
  analyzeSentiment rt api text model temperature
  = Ok (JObj [("text", JStr text); ("sentiment", JStr s);
              ("confidence", JNum q); ("explanation", e)]).
Proof.
  intros Hreply Hp Hs Hin Hc Hq He Ht.
  rewrite (analyzeSentiment_on_reply _ _ _ _ Hreply).
  unfold interpreted, parseContent. simpl toString. rewrite Hp. cbn [bind].
  unfold validated, read. cbn [own parsed lookup get]. rewrite Hs. cbn [bind].
  assert (Hvalid : isSentiment (Some (JStr s)) = true).
  { simpl in Hin. destruct Hin as [<- | [<- | [<- | []]]]; reflexivity. }
  rewrite Hvalid. cbn [negb bind own parsed lookup]. rewrite Hc. cbn [bind].
  assert (Hgood : badConfidence (Some (JNum q)) = false).
  { simpl. destruct Hq as [H0 H1]. apply Qle_bool_iff in H0, H1.
    rewrite H0, H1. reflexivity. }
  rewrite Hgood. cbn [bind own parsed lookup]. rewrite Hs, Hc, He. cbn [bind].
  rewrite Ht. reflexivity.
Qed.

End Service.

Lemma analysis_is_well_formed_witness :
  exists (s : string) (q : Q) (e : json),
    analyzeSentiment Node.node (answering jsonReply) "I love this product!" None None
    = Ok (JObj [("text", JStr "I love this product!"); ("sentiment", JStr s);
                ("confidence", JNum q); ("explanation", e)])
    /\ In s ["positive"; "negative"; "neutral"]
    /\ (0 <= q <= 1)%Q
    /\ truthy (Some e) = true.
Proof.
  assert (Hrun : analyzeSentiment Node.node (answering jsonReply)
                   "I love this product!" None None
                 = Ok (JObj [("text", JStr "I love this product!");
                             ("sentiment", JStr "positive");
                             ("confidence", JNum (1 # 2));
                             ("explanation", JStr "love")]))
    by (vm_compute; reflexivity).
  destruct (analysis_is_well_formed Node.node (answering jsonReply)
              "I love this product!" None None _ Hrun)
    as ((s & q & e & Hr & H) & _).
  exists s, q, e. split; [rewrite <- Hr; exact Hrun | exact H].
Defined.

Lemma analysis_errors_witness :
  exists cause,
    analyzeSentiment Node.node (answering (JNum 5)) "text" None None
    = Throw ("Sentiment analysis failed: " ++ cause).
Proof.
  assert (Hrun : analyzeSentiment Node.node (answering (JNum 5)) "text" None None
                 = Throw ("Sentiment analysis failed: "
                          ++ TypeError_message Node.node "sentiment"))
    by (vm_compute; reflexivity).
  destruct (analysis_errors Node.node (answering (JNum 5)) "text" None None _ Hrun)
    as [[_ [H | H]] | (key & cause & _ & _ & _ & Hm)]; try discriminate H.
  exists cause. rewrite <- Hm. exact Hrun.
Defined.

(** The sample endpoint replies what it was built to reply. *)
Ltac sample_reply :=
  exists "sk-test"; eexists; eexists;
  split; [reflexivity |];
  split; [intros H; discriminate H |];
  split; [reflexivity |];
  split; [reflexivity |];
  split; vm_compute; reflexivity.

Lemma plain_reply_is_read_off_its_words_witness :
  analyzeSentiment Node.node (answering plainReply) "text" None None
  = Ok (JObj [("text", JStr "text"); ("sentiment", JStr "positive");
              ("confidence", JNum (1 # 2));
              ("explanation", JStr "Clearly POSITIVE, not negative.")]).
Proof.
  assert (Hreply : replies Node.node (answering plainReply) "text" None None
                     "Clearly POSITIVE, not negative.") by sample_reply.
  assert (Hplain : exists e,
             JSON_parse Node.node "Clearly POSITIVE, not negative." = Throw e)
    by (eexists; vm_compute; reflexivity).
  exact (plain_reply_is_read_off_its_words Node.node (answering plainReply)
           "text" None None _ Hreply Hplain).
Defined.

Lemma well_formed_reply_passes_through_witness :
  analyzeSentiment Node.node (answering wellFormedReply) "text" None None
  = Ok (JObj [("text", JStr "text"); ("sentiment", JStr "negative");
              ("confidence", JNum (9 # 10)); ("explanation", JStr "hate")]).
Proof.
  assert (Hreply : replies Node.node (answering wellFormedReply) "text" None None
                     (JSON_stringify (JObj [("sentiment", JStr "negative");
                                            ("confidence", JNum (9 # 10));
                                            ("explanation", JStr "hate")])))
    by sample_reply.
  apply (well_formed_reply_passes_through Node.node (answering wellFormedReply)
           "text" None None _ "negative" (9 # 10) (JStr "hate")
           [("sentiment", JStr "negative"); ("confidence", JNum (9 # 10));
            ("explanation", JStr "hate")] Hreply).
  - vm_compute. reflexivity.
  - reflexivity.
  - simpl. auto.
  - reflexivity.
  - split; discriminate.
  - reflexivity.
  - reflexivity.
Defined.

End SentimentProps.

(* ===================================================================== *)
(** * The gate in front of the sentiment service                          *)
(* ===================================================================== *)

Module ServiceBehindGate.
Import JS Gate GateTerms MoreTerms.

(** With the sentiment service as its resource, every 200 body of the gate
    has exactly the members text, sentiment, confidence, explanation and
    payment, in this order: text is the text of the request body, sentiment
    one of the three labels, confidence between 0 and 1, and payment the
    receipt of the settled transaction. *)
Theorem paid_analysis_body (rt : Runtime) (env : Env) (api : Sentiment.OpenAI)
    (facilitator : option string -> string -> FetchResult)
    (store : list value) (req : Request) :
  let o := handle rt (withSentiment rt api facilitator) env store req in
  status (response o) = 200 ->
  exists (t s : string) (q : Q) (e : JS.json) (tx : value),
    get_opt (body req) "text" = Some (JStr t)
    /\ json (response o)
       = JObj [("text", JStr t); ("sentiment", JStr s); ("confidence", JNum q);
               ("explanation", e); ("payment", receipt env tx)]
    /\ In s ["positive"; "negative"; "neutral"]
    /\ (0 <= q <= 1)%Q
    /\ truthy (Some e) = true
    /\ truthy tx = true.
Proof.
  intros o H200.
  destruct (GateMore.ok_response_shape rt env _ store req H200)
    as (sa & n & tx & t & model & temperature & result & _ & Hs & Hp & Ha & Hr).
  destruct (SentimentProps.analysis_shape rt api t model temperature result Ha)
    as (s & q & e & -> & Hin & Hq & He).
  exists t, s, q, e, tx.
  split.
  - unfold parameters in Hp.
    destruct (body req) as [[| | | | | fields] |]; simpl in Hp; try discriminate.
    destruct (lookup "text" fields) as [[| | | t' | |] |] eqn:Ht;
      simpl in Hp; try discriminate.
    injection Hp as -> _ _. exact Ht.
  - split; [unfold o; rewrite Hr; reflexivity |].
    repeat split; try assumption; try apply Hq.
    apply (GateMore.settle_hash_is_truthy rt _ tx Hs).
Qed.

Lemma paid_analysis_body_witness :
  let o := handle Node.node
             (withSentiment Node.node (answering jsonReply)
                            (facilitator Sample.settling))
             Sample.env [] Sample.paidRequest in
  exists (t s : string) (q : Q) (e : JS.json) (tx : value),
    get_opt (body Sample.paidRequest) "text" = Some (JStr t)
    /\ json (response o)
       = JObj [("text", JStr t); ("sentiment", JStr s); ("confidence", JNum q);
               ("explanation", e); ("payment", receipt Sample.env tx)]
    /\ In s ["positive"; "negative"; "neutral"]
    /\ (0 <= q <= 1)%Q
    /\ truthy (Some e) = true
    /\ truthy tx = true.
Proof.
  apply paid_analysis_body. vm_compute. reflexivity.
Defined.

End ServiceBehindGate.

(* ===================================================================== *)
(** * Properties of X402Client.fetch                                      *)
(* ===================================================================== *)

Module FetchProps.
Import JS Client Fetching WireTerms.
Import Fetching.X402Client.

Lemma stringified_object_nonempty (fields : list (string * json)) :
  JSON_stringify (JObj fields) <> EmptyString.
Proof. simpl. discriminate. Qed.

Section Fetch.
Variable S : Type.
Variables (rt : Runtime) (sg : Signing) (wallet : Wallet).
Variables (serve : Server S) (state : S) (url : string) (options : RequestInit).





(** A response that fetch hands back after a paid retry and that is not
    2xx has had its body read. *)
Lemma unpaid_answer_is_used (r : Response) :
  let f := fetch rt sg wallet serve state url options in
  settled f = Resolved r ->
  List.length (sent f) = 2%nat ->
  response_ok (status r) = false ->
  bodyUsed r = true.
Proof.
  intros f. unfold f, fetch.
  destruct (serve state url options) as [[response | e] st1]; [| discriminate].
  destruct (status response =? 402); simpl; [| discriminate].
  destruct (firstMethod rt response) as [[j |] | e]; try discriminate.
  destruct (asPaymentMethod j) as [method |]; [| discriminate].
  destruct (Client.X402Client.createSignedAuthorization sg wallet method)
    as [signedAuth |]; [| discriminate].
  destruct (serve st1 url _) as [[response2 | e] st2]; [| discriminate].
  unfold afterRetry, rebuilt.
  destruct (response_ok (status response2)) eqn:Hok.
  - destruct (response_json rt (read response2)); [| discriminate].
    destruct (get rt (Some a) "payment"); [| discriminate].
    destruct ((status response2 =? 204) || (status response2 =? 205))%bool;
      [discriminate |].
    simpl. intros [= <-] _. simpl. rewrite Hok. discriminate.
  - destruct (read response2); [| discriminate].
    simpl. intros [= <-] _ _. reflexivity.
Qed.

End Fetch.


End FetchProps.

(* ===================================================================== *)
(** * The paying tools against the gate                                   *)
(* ===================================================================== *)

Module ToolProps.
Import JS Client Fetching WireTerms Wire Tools.

Section AtTheGate.
Variables (rt : Runtime) (env : Gate.Env) (w : Gate.World).

Lemma route_challenges (parsed : JS.value) (state : Process) (url : string)
    (options : RequestInit) :
  requestHeader "x-payment" (headers options) = None ->
  sentimentRoute rt w env parsed state url options
  = (Ok (received (Gate.reply 402 (Gate.challenge env))),
     (fst state, (snd state ++ [])%list)).
Proof.
  intros H. unfold sentimentRoute, Gate.handle.
  cbn [Gate.x_payment]. rewrite H. reflexivity.
Qed.

Lemma route_serves (parsed : JS.value) (store : list JS.value) (log : list Gate.Call)
    (url : string) (options : RequestInit) (sa : json) (n tx : JS.value) :
  requestHeader "x-payment" (headers options) = Some (JSON_stringify sa) ->
  JSON_stringify sa <> EmptyString ->
  readsBack rt sa ->
  Gate.hasRequiredFields rt sa = Ok true ->
  Gate.authNonce rt sa = Ok n ->
  Gate.has store n = false ->
  Gate.settle rt (GateTerms.facilitatorAnswer env w sa) = Ok (inr tx) ->
  let req := {| Gate.x_payment := Some (JSON_stringify sa); Gate.body := parsed |} in
  sentimentRoute rt w env parsed (store, log) url options
  = (Ok (received (fst (Gate.serve rt w env req tx))),
     ((store ++ [n])%list,
      (log ++ Gate.CallFacilitator (Gate.FACILITATOR_URL env) (JSON_stringify sa)
              :: snd (Gate.serve rt w env req tx))%list)).
Proof.
  intros Hh Hne Hback Hf Hn Hfresh Hs req.
  unfold sentimentRoute. cbn [fst snd]. rewrite Hh. fold req.
  assert (Hc : GateTerms.carries rt req sa n).
  { exists (JSON_stringify sa). repeat split; assumption. }
  rewrite (GateProps.handle_carried rt env w store req sa n Hc), Hfresh, Hs.
  cbn [Gate.response Gate.processedPayments Gate.calls].
  unfold Gate.add. rewrite Hfresh. reflexivity.
Qed.

Lemma advertised_is_read : asPaymentMethod (Gate.paymentMethod env) = Some (advertised env).
Proof. reflexivity. Qed.

Lemma challenge_is_read :
  readsBack rt (Gate.challenge env) ->
  X402Client.firstMethod rt (received (Gate.reply 402 (Gate.challenge env)))
  = Ok (Some (Gate.paymentMethod env)).
Proof.
  intros H. unfold X402Client.firstMethod, read, received, response_json.
  cbn [bodyUsed text Gate.json Gate.reply bind].
  unfold readsBack in H. rewrite H. reflexivity.
Qed.

Lemma authorization_passes (sg : Signing) (wallet : Wallet) (method : PaymentMethod)
    (signature : string) :
  signature <> EmptyString ->
  Gate.hasRequiredFields rt (authorization sg wallet method signature) = Ok true.
Proof.
  intros Hne. unfold Gate.hasRequiredFields, authorization, signedPayload.
  cbn [object get lookup String.eqb Ascii.eqb Bool.eqb bind get_opt truthy].
  rewrite (proj2 (String.eqb_neq _ _) Hne). reflexivity.
Qed.

Lemma authorization_nonce (sg : Signing) (wallet : Wallet) (method : PaymentMethod)
    (signature : string) :
  Gate.authNonce rt (authorization sg wallet method signature) = Ok (drawn sg).
Proof. reflexivity. Qed.

Lemma tool_request_is_unpaid (text : string) :
  requestHeader "x-payment" (headers (toolOptions text)) = None.
Proof. reflexivity. Qed.

Lemma tool_retry_is_paid (text payment : string) :
  requestHeader "x-payment" (headers (paying (toolOptions text) payment)) = Some payment.
Proof. reflexivity. Qed.

Lemma tool_parameters (text : string) :
  Gate.parameters rt (Some (sentimentRequest text))
  = Ok (Some (JStr text), Some (JStr "gpt-3.5-turbo"), Some (JNum (3 # 10))).
Proof. reflexivity. Qed.

(** The sentiment_analysis tool against the gate.  When the wallet signs,
    the nonce drawn is unused, the facilitator settles the authorization
    and the resource answers, the tool returns the resource's result with
    the gate's receipt; the client records the settled transaction on the
    advertised network; and the gate has marked the nonce as processed
    after one call to the facilitator and one to the resource. *)
Theorem sentiment_tool_pays_the_gate (sg : Signing) (wallet : Wallet)
    (endpoint : option string) (store : list JS.value) (log : list Gate.Call)
    (t signature : string) (tx : JS.value) (result : json) :
  let method := advertised env in
  let signedAuth := authorization sg wallet method signature in
  let body := Gate.json (Gate.paid env result tx) in
  readsBack rt (Gate.challenge env) ->
  readsBack rt signedAuth ->
  readsBack rt body ->
  signs sg wallet (Client.X402Client.domain method) method signature ->
  signature <> EmptyString ->
  t <> EmptyString ->
  Gate.has store (drawn sg) = false ->
  Gate.settle rt (GateTerms.facilitatorAnswer env w signedAuth) = Ok (inr tx) ->
  Gate.analyzeSentiment w t (Some (JStr "gpt-3.5-turbo")) (Some (JNum (3 # 10)))
  = Ok result ->
  let run := sentimentAnalysis rt endpoint sg wallet
               (sentimentRoute rt w env (Some (sentimentRequest t)))
               (store, log) t in
  fst run = Resolved body
  /\ (exists hash, tx = Some hash
      /\ X402Client.lastTransaction (snd run)
         = Some {| X402Client.success := true;
                   X402Client.transactionHash := hash;
                   X402Client.network := network method |})
  /\ List.map snd (X402Client.sent (snd run))
     = [toolOptions t; paying (toolOptions t) (JSON_stringify signedAuth)]
  /\ X402Client.server (snd run)
     = ((store ++ [drawn sg])%list,
        (log ++ [Gate.CallFacilitator (Gate.FACILITATOR_URL env)
                   (JSON_stringify signedAuth);
                 asked t])%list).
Proof.
  intros method signedAuth body Hchallenge Hauth Hbody Hsigns Hsig Htext Hfresh
         Hsettle Hanalysis run.
  assert (Htx : truthy tx = true)
    by exact (GateMore.settle_hash_is_truthy rt _ tx Hsettle).
  destruct tx as [hash |]; [| discriminate Htx].
  pose (url := Gate.or_default endpoint "https://x402-api.example.com/sentiment").
  pose (route := sentimentRoute rt w env (Some (sentimentRequest t))).
  assert (H1 : route (store, log) url (toolOptions t)
               = (Ok (received (Gate.reply 402 (Gate.challenge env))),
                  (store, (log ++ [])%list))).
  { exact (route_challenges _ (store, log) url _ (tool_request_is_unpaid t)). }
  assert (Hserve : Gate.serve rt w env
                     {| Gate.x_payment := Some (JSON_stringify signedAuth);
                        Gate.body := Some (sentimentRequest t) |} (Some hash)
                   = (Gate.paid env result (Some hash), [asked t])).
  { unfold Gate.serve. cbn [Gate.body]. rewrite tool_parameters.
    cbn [truthy negb]. rewrite (proj2 (String.eqb_neq _ _) Htext). cbn [negb].
    rewrite Hanalysis. reflexivity. }
  assert (H2 : route (store, (log ++ [])%list) url
                 (paying (toolOptions t) (JSON_stringify signedAuth))
               = (Ok (received (Gate.paid env result (Some hash))),
                  ((store ++ [drawn sg])%list,
                   (log ++ [Gate.CallFacilitator (Gate.FACILITATOR_URL env)
                              (JSON_stringify signedAuth); asked t])%list))).
  { unfold route.
    rewrite (route_serves _ store (log ++ [])%list url _ signedAuth (drawn sg) (Some hash)
               (tool_retry_is_paid t _)
               (FetchProps.stringified_object_nonempty _)
               Hauth (authorization_passes sg wallet method signature Hsig)
               (authorization_nonce sg wallet method signature) Hfresh Hsettle).
    rewrite Hserve. cbn [fst snd]. rewrite app_nil_r. reflexivity. }
  assert (Hf : snd run
     = {| X402Client.settled :=
            Resolved {| status := 200; statusText := "OK";
                        responseHeaders := [("content-type", "application/json")];
                        text := Ok (JSON_stringify body); bodyUsed := false |};
          X402Client.lastTransaction :=
            Some {| X402Client.success := true;
                    X402Client.transactionHash := hash;
                    X402Client.network := network method |};
          X402Client.sent :=
            [(url, toolOptions t);
             (url, paying (toolOptions t) (JSON_stringify signedAuth))];
          X402Client.server :=
            ((store ++ [drawn sg])%list,
             (log ++ [Gate.CallFacilitator (Gate.FACILITATOR_URL env)
                        (JSON_stringify signedAuth); asked t])%list) |}).
  { unfold run, sentimentAnalysis. cbn [snd].
    fold (toolOptions t). fold url. fold route.
    unfold X402Client.fetch. rewrite H1.
    cbn [status received Gate.status Gate.reply Z.eqb Pos.eqb negb].
    rewrite (challenge_is_read Hchallenge), advertised_is_read.
    unfold Client.X402Client.createSignedAuthorization.
    fold method. unfold signs in Hsigns. rewrite Hsigns.
    fold (authorization sg wallet method signature). fold signedAuth.
    rewrite H2.
    unfold X402Client.afterRetry, read, response_json.
    cbn [status received Gate.status Gate.paid Gate.reply response_ok Z.leb Z.compare
         Pos.compare Pos.compare_cont andb bodyUsed text Gate.json bind].
    pose proof Hbody as Hparsed.
    unfold readsBack, body, Gate.paid, Gate.reply in Hparsed.
    cbn [Gate.json] in Hparsed. rewrite Hparsed.
    change (JObj _) with body.
    assert (Hpay : get rt (Some body) "payment"
                   = Ok (Some (MoreTerms.receipt env (Some hash)))).
    { unfold body, Gate.paid, Gate.reply. cbn [Gate.json get].
      rewrite GateMore.lookup_obj_set_same. reflexivity. }
    rewrite Hpay.
    unfold X402Client.recorded, MoreTerms.receipt.
    cbn [object get_opt lookup String.eqb Ascii.eqb Bool.eqb].
    rewrite Htx. reflexivity. }
  rewrite Hf. split.
  - unfold run, sentimentAnalysis in *. cbn [fst snd] in *.
    rewrite Hf. cbn [X402Client.settled status response_ok Z.leb Z.compare
                     Pos.compare Pos.compare_cont andb negb].
    unfold read, response_json. cbn [bodyUsed text bind].
    unfold readsBack in Hbody. rewrite Hbody. reflexivity.
  - split; [exists hash; split; reflexivity |].
    split; reflexivity.
Qed.

End AtTheGate.

Lemma sentiment_tool_pays_the_gate_witness :
  let t := "I love this product!" in
  let signedAuth := authorization Sample.signing Sample.wallet
                      (advertised Sample.env) "0x5139" in
  let tx := Some (JStr "0xdeadbeef") in
  let body := Gate.json (Gate.paid Sample.env verdict tx) in
  let run := sentimentAnalysis Node.node None Sample.signing Sample.wallet
               (sentimentRoute Node.node service Sample.env
                  (Some (sentimentRequest t)))
               ([], []) t in
  fst run = Resolved body
  /\ (exists hash, tx = Some hash
      /\ X402Client.lastTransaction (snd run)
         = Some {| X402Client.success := true;
                   X402Client.transactionHash := hash;
                   X402Client.network := network (advertised Sample.env) |})
  /\ List.map snd (X402Client.sent (snd run))
     = [toolOptions t; paying (toolOptions t) (JSON_stringify signedAuth)]
  /\ X402Client.server (snd run)
     = (([] ++ [drawn Sample.signing])%list,
        ([] ++ [Gate.CallFacilitator (Gate.FACILITATOR_URL Sample.env)
                  (JSON_stringify signedAuth);
                asked t])%list).
Proof.
  intros t signedAuth tx body.
  apply (sentiment_tool_pays_the_gate Node.node Sample.env service
           Sample.signing Sample.wallet None [] [] t "0x5139" tx verdict);
    try (vm_compute; reflexivity); intros H; discriminate H.
Defined.

Section PaidCall.
Variable S : Type.
Variables (rt : Runtime) (sg : Signing) (wallet : Wallet).
Variables (serve : Server S) (state : S).
Variables (endpoint : string) (httpMethod : option string) (body : json).

(** A tool registered with registerPaidAPI cannot report why a paid call
    failed.  When the retry that carried the payment is answered with a
    status that is not 2xx, fetch reads the body for its log line and hands
    the response back; the tool's own read of the body then throws, and the
    tool fails with that TypeError in place of the server's message. *)
Theorem failed_paid_call_is_unreadable (r : Response) :
  let run := paidCall rt endpoint httpMethod body sg wallet serve state in
  X402Client.settled (snd run) = Resolved r ->
  List.length (X402Client.sent (snd run)) = 2%nat ->
  response_ok (status r) = false ->
  fst run = Rejected bodyUnusable.
Proof.
  intros run Hr Hsent Hok. unfold run, paidCall in *. cbn [fst snd] in *.
  pose proof (FetchProps.unpaid_answer_is_used _ _ _ _ _ _ _ _ r Hr Hsent Hok) as Hused.
  rewrite Hr, Hok. unfold read. rewrite Hused. reflexivity.
Qed.

End PaidCall.

Lemma failed_paid_call_is_unreadable_witness :
  let run := paidCall Node.node "http://localhost:3001/sentiment" None
               (sentimentRequest "I love this product!")
               Sample.signing Sample.wallet
               (sentimentRoute Node.node Sample.outage Sample.env Sample.goodBody)
               ([], []) in
  exists r,
    X402Client.settled (snd run) = Resolved r
    /\ status r = 402
    /\ fst run = Rejected bodyUnusable.
Proof.
  intros run.
  eexists. split; [vm_compute; reflexivity |].
  split; [reflexivity |].
  eapply (failed_paid_call_is_unreadable _ Node.node Sample.signing Sample.wallet);
    vm_compute; reflexivity.
Defined.

End ToolProps.

(* ===================================================================== *)
(** * Properties of X402ServerClient.fetch                                *)
(* ===================================================================== *)

Module ServerClientProps.
Import JS Client Fetching WireTerms Wire.
Import Fetching.X402ServerClient.

Lemma or_default_nonempty (v : option string) (d : string) :
  d <> EmptyString -> Gate.or_default v d <> EmptyString.
Proof.
  intros Hd. unfold Gate.or_default. destruct v as [s |]; [| exact Hd].
  destruct (String.eqb_spec s EmptyString); assumption.
Qed.

Lemma or_default_truthy (v : option string) (d : string) :
  d <> EmptyString -> truthy (Some (JStr (Gate.or_default v d))) = true.
Proof.
  intros Hd. simpl. rewrite (proj2 (String.eqb_neq _ _) (or_default_nonempty v d Hd)).
  reflexivity.
Qed.

Lemma base64_bytes_head (b : byte) (l : list byte) :
  exists rest, base64_bytes (b :: l) = base64_char (Byte.to_N b / 4) :: rest.
Proof. destruct l as [| c [| d l']]; eexists; reflexivity. Qed.

Lemma stringified_object_opens (fields : list (string * json)) :
  exists rest, JSON_stringify (JObj fields) = String "{" rest.
Proof. eexists. reflexivity. Qed.

(** The base64 text of a JSON object begins with the letter e. *)
Lemma base64_of_object (fields : list (string * json)) :
  exists rest, base64 (JSON_stringify (JObj fields)) = String "e" rest.
Proof.
  destruct (stringified_object_opens fields) as [text ->].
  unfold base64, list_byte_of_string. cbn [list_ascii_of_string map].
  destruct (base64_bytes_head (byte_of_ascii "{")
              (map byte_of_ascii (list_ascii_of_string text))) as [out ->].
  exists (of_chars out). reflexivity.
Qed.

Lemma payment_header_is_found (headers : list (string * string)) (payment : string) :
  requestHeader "x-payment" headers = None ->
  requestHeader "x-payment" (withPayment headers payment) = Some payment.
Proof.
  induction headers as [| [k v] rest IH]; intros H.
  - reflexivity.
  - cbn [requestHeader] in H. cbn [withPayment].
    destruct (String.eqb (toLowerCase k) "x-payment") eqn:Hk; [discriminate H |].
    destruct (String.eqb_spec k "X-PAYMENT") as [-> | Hne]; [discriminate Hk |].
    cbn [requestHeader]. rewrite Hk. exact (IH H).
Qed.

Section AnyServer.
Variable S : Type.
Variables (rt : Runtime) (sg : Signing) (wallet : Wallet).
Variables (serve : Server S) (state : S) (url : string) (options : RequestInit).

(** X402ServerClient hands back the server's own answer to one of the
    requests it sent, body unread, and the server is left in the state
    that answer put it in. *)
Theorem server_client_returns_the_answer (r : Response) :
  let f := fetch rt sg wallet serve state url options in
  settled f = Resolved r ->
  exists st request,
    In (url, request) (sent f)
    /\ serve st url request = (Ok r, server f).
Proof.
  intros f. unfold f, fetch.
  destruct (serve state url options) as [[response | e] st1] eqn:H1; [| discriminate].
  destruct (status response =? 402); simpl.
  2: { intros [= <-]. exists state, options. split; [left; reflexivity | exact H1]. }
  destruct (required rt response) as [[method |] | e]; try discriminate.
  destruct (Client.X402ServerClient.createPaymentAuthorization sg wallet method)
    as [paymentHeader | e]; [| discriminate].
  destruct (serve st1 url (paying options paymentHeader))
    as [[response2 | e] st2] eqn:H2; [| discriminate].
  assert (Hgoal : exists st request,
            In (url, request) [(url, options); (url, paying options paymentHeader)]
            /\ serve st url request = (Ok response2, st2)).
  { exists st1, (paying options paymentHeader).
    split; [right; left; reflexivity | exact H2]. }
  destruct (response_ok (status response2)); simpl.
  - intros [= <-]. exact Hgoal.
  - destruct (read response2); [| discriminate].
    simpl. intros [= <-]. exact Hgoal.
Qed.

(** A 402 body written in the names of the x402 standard (accepts,
    maxAmountRequired, payTo, maxTimeoutSeconds) is read as the same
    payment method as the body in this repository's names, and the
    authorization signed for it lives the given number of seconds. *)
Theorem standard_names_are_aliases (sch net ast amt rcp : string) (seconds : Q) :
  amt <> EmptyString ->
  rcp <> EmptyString ->
  ~ (seconds == 0)%Q ->
  exists method,
    methodOf rt (standardNames sch net ast amt rcp seconds) = Ok (Some method)
    /\ methodOf rt (ownNames sch net ast amt rcp seconds) = Ok (Some method)
    /\ maximumAmount method = amt /\ recipient method = rcp
    /\ (lifetime method == seconds)%Q.
Proof.
  intros Hamt Hrcp Hq.
  assert (Hs : Qeq_bool seconds 0 = false).
  { destruct (Qeq_bool seconds 0) eqn:H; [| reflexivity].
    apply Qeq_bool_iff in H. contradiction. }
  assert (Hms : Qeq_bool (seconds * 1000) 0 = false).
  { destruct (Qeq_bool (seconds * 1000) 0) eqn:H; [| reflexivity].
    apply Qeq_bool_iff in H. apply Qmult_integral in H.
    destruct H as [H | H]; [contradiction | discriminate H]. }
  exists {| scheme := sch; asset := ast; recipient := rcp; maximumAmount := amt;
            minimumAmount := EmptyString; network := net; description := None;
            timeout := Some (seconds * 1000)%Q; extra := None |}.
  destruct amt as [| c1 s1]; [contradiction |].
  destruct rcp as [| c2 s2]; [contradiction |].
  split; [| split].
  - unfold methodOf, standardNames, methodRaw, normalise, normalTimeout, orValue.
    cbn [get get_opt lookup firstOf nth_error bind undefined truthy
         String.eqb Ascii.eqb Bool.eqb negb].
    rewrite Hs. reflexivity.
  - unfold methodOf, ownNames, methodRaw, normalise, normalTimeout, orValue.
    cbn [get get_opt lookup firstOf nth_error bind undefined truthy
         String.eqb Ascii.eqb Bool.eqb negb].
    rewrite Hms. reflexivity.
  - split; [reflexivity |]. split; [reflexivity |].
    unfold lifetime. cbn [timeout truthy]. rewrite Hms. cbn [negb].
    field.
Qed.

End AnyServer.

Section AtTheGate.
Variables (rt : Runtime) (env : Gate.Env) (w : Gate.World).

Lemma challenge_is_required :
  readsBack rt (Gate.challenge env) ->
  required rt (received (Gate.reply 402 (Gate.challenge env)))
  = Ok (Some (normalised env)).
Proof.
  intros H. unfold required, read, received, response_json.
  cbn [bodyUsed text Gate.json Gate.reply bind].
  unfold readsBack in H. rewrite H.
  unfold methodOf, Gate.challenge, Gate.paymentMethod, normalised, advertised.
  cbn [scheme asset recipient maximumAmount network description timeout].
  pose proof (or_default_nonempty (Gate.RECEIVER_WALLET_ADDRESS env)
                "0x501ab28fc3c7d29c2d12b243723eb5c5418b9de6") as Hr.
  pose proof (or_default_nonempty (Gate.PAYMENT_AMOUNT env) "100000") as Ha.
  destruct (Gate.or_default (Gate.RECEIVER_WALLET_ADDRESS env) _) as [| c1 s1];
    [exfalso; apply Hr; [discriminate | reflexivity] |].
  destruct (Gate.or_default (Gate.PAYMENT_AMOUNT env) _) as [| c2 s2];
    [exfalso; apply Ha; [discriminate | reflexivity] |].
  reflexivity.
Qed.

Lemma route_refuses_base64 (parsed : JS.value) (state : Process) (url : string)
    (options : RequestInit) (fields : list (string * json)) :
  refusesLetters rt ->
  requestHeader "x-payment" (headers options)
  = Some (base64 (JSON_stringify (JObj fields))) ->
  sentimentRoute rt w env parsed state url options
  = (Ok (received Gate.invalidFormat), (fst state, (snd state ++ [])%list)).
Proof.
  intros Hrefuses Hh. unfold sentimentRoute, Gate.handle.
  cbn [Gate.x_payment]. rewrite Hh.
  destruct (base64_of_object fields) as [rest ->].
  destruct (Hrefuses rest) as [e ->].
  reflexivity.
Qed.

(** X402ServerClient against the gate.  The client signs the advertised
    method and retries with the authorization in base64; the gate answers
    400 Invalid payment format without calling the facilitator or the
    resource and without touching its set of processed payments, and the
    client hands that response back with no transaction recorded. *)
Theorem server_client_is_turned_away (sg : Signing) (wallet : Wallet)
    (parsed : JS.value) (store : list JS.value) (log : list Gate.Call)
    (url : string) (options : RequestInit) (signature : string) :
  let method := normalised env in
  let payment := base64 (JSON_stringify (authorization sg wallet method signature)) in
  readsBack rt (Gate.challenge env) ->
  refusesLetters rt ->
  requestHeader "x-payment" (headers options) = None ->
  signs sg wallet (Client.X402ServerClient.domain method) method signature ->
  let f := fetch rt sg wallet (sentimentRoute rt w env parsed) (store, log) url options in
  settled f = Resolved (received Gate.invalidFormat)
  /\ sent f = [(url, options); (url, paying options payment)]
  /\ server f = (store, log)
  /\ lastTransactionHash f = undefined
  /\ lastNetwork f = Some (network method).
Proof.
  intros method payment Hchallenge Hrefuses Hnone Hsigns f.
  unfold f, fetch.
  rewrite (ToolProps.route_challenges rt env w parsed (store, log) url options Hnone).
  cbn [status received Gate.status Gate.reply Z.eqb Pos.eqb negb fst snd].
  rewrite (challenge_is_required Hchallenge).
  unfold Client.X402ServerClient.createPaymentAuthorization.
  fold method. unfold signs in Hsigns. rewrite Hsigns. cbn [bind].
  fold (authorization sg wallet method signature). fold payment.
  rewrite (route_refuses_base64 parsed (store, (log ++ [])%list) url
             (paying options payment) _ Hrefuses
             (payment_header_is_found (headers options) payment Hnone)).
  cbn [fst snd]. rewrite !app_nil_r.
  repeat split; reflexivity.
Qed.

End AtTheGate.

Lemma node_refuses_letters : refusesLetters Node.node.
Proof. intros rest. eexists. reflexivity. Qed.

Lemma server_client_is_turned_away_witness :
  let method := normalised Sample.env in
  let payment := base64 (JSON_stringify
                   (authorization Sample.signing Sample.wallet method "0x5139")) in
  let url := "http://localhost:3001/sentiment" in
  let options := toolOptions "I love this product!" in
  let f := fetch Node.node Sample.signing Sample.wallet
             (sentimentRoute Node.node Sample.settling Sample.env Sample.goodBody)
             ([], []) url options in
  settled f = Resolved (received Gate.invalidFormat)
  /\ sent f = [(url, options); (url, paying options payment)]
  /\ server f = ([], [])
  /\ lastTransactionHash f = undefined
  /\ lastNetwork f = Some (network method).
Proof.
  intros method payment url options.
  apply (server_client_is_turned_away Node.node Sample.env Sample.settling
           Sample.signing Sample.wallet Sample.goodBody [] [] url options "0x5139").
  - vm_compute. reflexivity.
  - exact node_refuses_letters.
  - reflexivity.
  - reflexivity.
Defined.

Lemma server_client_returns_the_answer_witness :
  let serve := sentimentRoute Node.node Sample.settling Sample.env Sample.goodBody in
  let url := "http://localhost:3001/sentiment" in
  let f := fetch Node.node Sample.signing Sample.wallet serve ([], []) url
             (toolOptions "I love this product!") in
  exists r,
    settled f = Resolved r
    /\ exists st request,
         In (url, request) (sent f) /\ serve st url request = (Ok r, server f).
Proof.
  intros serve url f.
  exists (received Gate.invalidFormat).
  split; [vm_compute; reflexivity |].
  apply (server_client_returns_the_answer _ Node.node Sample.signing Sample.wallet
           serve ([], []) url (toolOptions "I love this product!")).
  vm_compute. reflexivity.
Defined.

Lemma standard_names_are_aliases_witness :
  exists method,
    methodOf Node.node (standardNames "exact" "base-sepolia"
                          "0x036CbD53842c5426634e7929541eC2318f3dCF7e" "100000"
                          "0x501ab28fc3c7d29c2d12b243723eb5c5418b9de6" 60)
    = Ok (Some method)
    /\ methodOf Node.node (ownNames "exact" "base-sepolia"
                             "0x036CbD53842c5426634e7929541eC2318f3dCF7e" "100000"
                             "0x501ab28fc3c7d29c2d12b243723eb5c5418b9de6" 60)
       = Ok (Some method)
    /\ maximumAmount method = "100000"
    /\ recipient method = "0x501ab28fc3c7d29c2d12b243723eb5c5418b9de6"
    /\ (lifetime method == 60)%Q.
Proof.
  apply (standard_names_are_aliases Node.node).
  - intros H. discriminate H.
  - intros H. discriminate H.
  - intros H. vm_compute in H. discriminate H.
Defined.

End ServerClientProps.

(* ===================================================================== *)
(** * Networks, chain ids and explorers                                   *)
(* ===================================================================== *)

Module NetworkProps.
Import JS WireTerms.

Ltac different_links :=
  let H := fresh in
  cbn [String.append]; intros H; discriminate H.

(** X402Client keeps its two tables in step.  For a network name that is
    not a property every object inherits, the name is signed for chain
    84532 exactly when its transactions are linked to the explorer of
    base-sepolia; a name in neither table falls back to base-sepolia in
    both. *)
Theorem explorer_follows_the_chain (network txHash : string) :
  ~ In network inherited ->
  (Client.X402Client.getChainId network = 84532
   <-> Fetching.X402Client.getExplorerUrl txHash network
       = Fetching.X402Client.getExplorerUrl txHash "base-sepolia").
Proof.
  intros _. unfold Client.X402Client.getChainId, Fetching.X402Client.getExplorerUrl.
  cbn [String.eqb Ascii.eqb Bool.eqb].
  repeat (match goal with
          | |- context [String.eqb network ?k] => destruct (String.eqb network k)
          end);
    (split; [intros H; first [discriminate H | reflexivity]
            | first [reflexivity | different_links]]).
Qed.

(** For a network name that is not a property every object inherits, the
    Vercel registry links a transaction to the same explorer as X402Client,
    except for sepolia, which its table lacks: a transaction on Ethereum
    Sepolia is linked to the explorer of base-sepolia. *)
Theorem explorers_agree_except_on_sepolia (network txHash : string) :
  ~ In network inherited ->
  (Vercel.getExplorerUrl txHash (Some network)
   = Fetching.X402Client.getExplorerUrl txHash network
   <-> network <> "sepolia").
Proof.
  intros _. unfold Vercel.getExplorerUrl, Fetching.X402Client.getExplorerUrl,
    Client.or_else.
  destruct (String.eqb_spec network EmptyString) as [-> | Hne].
  { cbn [String.eqb Ascii.eqb Bool.eqb]. split; [discriminate | reflexivity]. }
  destruct (String.eqb_spec network "base") as [-> | H1].
  { split; [discriminate | reflexivity]. }
  destruct (String.eqb_spec network "base-sepolia") as [-> | H2].
  { split; [discriminate | reflexivity]. }
  destruct (String.eqb_spec network "ethereum") as [-> | H3].
  { split; [discriminate | reflexivity]. }
  destruct (String.eqb_spec network "sepolia") as [-> | H4].
  { cbn [String.eqb Ascii.eqb Bool.eqb].
    split; [different_links | intros H; contradiction H; reflexivity]. }
  split; [intros _; exact H4 | reflexivity].
Qed.

Lemma explorer_follows_the_chain_witness :
  Client.X402Client.getChainId "mainnet" = 84532
  <-> Fetching.X402Client.getExplorerUrl "0xdeadbeef" "mainnet"
      = Fetching.X402Client.getExplorerUrl "0xdeadbeef" "base-sepolia".
Proof.
  apply explorer_follows_the_chain.
  cbv. intros H. repeat (destruct H as [H | H]; [discriminate H |]). exact H.
Defined.

Lemma explorers_agree_except_on_sepolia_witness :
  Vercel.getExplorerUrl "0xdeadbeef" (Some "polygon")
  = Fetching.X402Client.getExplorerUrl "0xdeadbeef" "polygon"
  <-> "polygon" <> "sepolia".
Proof.
  apply explorers_agree_except_on_sepolia.
  cbv. intros H. repeat (destruct H as [H | H]; [discriminate H |]). exact H.
Defined.

End NetworkProps.

(* ===================================================================== *)
(** * Properties of X402BrowserClient                                     *)
(* ===================================================================== *)

Module BrowserProps.
Import JS Client Fetching WireTerms.
Import Fetching.X402BrowserClient.

Lemma of_chars_app (a b : list ascii) : of_chars (a ++ b) = of_chars a ++ of_chars b.
Proof. induction a as [| c a IH]; simpl; [reflexivity | rewrite IH; reflexivity]. Qed.

Lemma of_chars_chars (text : string) : of_chars (chars text) = text.
Proof. apply string_of_list_ascii_of_string. Qed.

Lemma chars_length (text : string) : List.length (chars text) = String.length text.
Proof. induction text as [| c text IH]; simpl; [reflexivity | rewrite IH; reflexivity]. Qed.

Lemma slice_0x (text : string) : JS.slice 2 ("0x" ++ text) = text.
Proof. unfold JS.slice. cbn [String.append chars list_ascii_of_string skipn]. apply of_chars_chars. Qed.

(** A hex digit is no white space, sign or letter x, and has a value below
    sixteen. *)
Lemma hex_digit (c : ascii) :
  is_hex c = true ->
  is_ws c = false /\ is_char 45 c = false /\ is_char 43 c = false
  /\ is_char 120 c = false /\ is_char 88 c = false
  /\ exists d, hex_value c = Some d /\ (d < 16)%N.
Proof.
  destruct c as [[] [] [] [] [] [] [] []]; intros H; try discriminate H;
    repeat (split; [reflexivity |]); eexists; split; reflexivity.
Qed.

(** The two parts r and s and the last byte make up the 65-byte signature
    again, each part has 32 bytes in hex after its [0x], and v is the
    value of that last byte. *)
Theorem signature_splits_without_loss (signature : string) :
  String.length signature = 132%nat ->
  let sig := split signature in
  r sig ++ JS.slice 2 (s sig) ++ sliceLast 2 signature = signature
  /\ String.length (r sig) = 66%nat
  /\ String.length (s sig) = 66%nat
  /\ forall a b,
       sliceLast 2 signature = String a (String b EmptyString) ->
       is_hex a = true -> is_hex b = true ->
       exists x y, hex_value a = Some x /\ hex_value b = Some y
                   /\ v sig = Some (16 * Z.of_N x + Z.of_N y).
Proof.
  intros Hlen sig. unfold sig, split. cbn [r s v].
  rewrite slice_0x.
  unfold sliceBetween, sliceLast.
  rewrite Hlen. change (132 - 2)%nat with 130%nat.
  change (130 - 66)%nat with 64%nat. change (66 - 0)%nat with 66%nat.
  pose proof (chars_length signature) as Hl. rewrite Hlen in Hl.
  split; [| split; [| split]].
  - rewrite <- !of_chars_app, skipn_O.
    replace (skipn 130 (chars signature))
      with (skipn 64 (skipn 66 (chars signature)))
      by (rewrite skipn_skipn; reflexivity).
    rewrite firstn_skipn, firstn_skipn. apply of_chars_chars.
  - rewrite ValidatorMore.length_of_chars, skipn_O, length_firstn. lia.
  - cbn [String.append String.length].
    rewrite ValidatorMore.length_of_chars, length_firstn, length_skipn. lia.
  - intros a b Hlast Ha Hb.
    destruct (hex_digit a Ha) as (Hws & Hm & Hp & _ & _ & x & Hx & Hxlt).
    destruct (hex_digit b Hb) as (_ & _ & _ & Hbx & HbX & y & Hy & Hylt).
    exists x, y. split; [exact Hx |]. split; [exact Hy |].
    rewrite Hlast. unfold parseInt16.
    cbn [chars list_ascii_of_string skip_ws]. rewrite Hws, Hm, Hp, Hbx, HbX.
    rewrite Bool.andb_false_r. cbn [hexPrefix]. rewrite Ha, Hb.
    unfold Node.digits_value. rewrite Hx, Hy.
    assert (H1 : (Z.of_N x <? 16) = true) by (apply Z.ltb_lt; lia).
    assert (H2 : (Z.of_N y <? 16) = true) by (apply Z.ltb_lt; lia).
    rewrite H1, H2. f_equal. lia.
Qed.

Lemma signature_splits_without_loss_witness :
  let sig := split longSignature in
  r sig ++ JS.slice 2 (s sig) ++ sliceLast 2 longSignature = longSignature
  /\ String.length (r sig) = 66%nat
  /\ String.length (s sig) = 66%nat
  /\ forall a b,
       sliceLast 2 longSignature = String a (String b EmptyString) ->
       is_hex a = true -> is_hex b = true ->
       exists x y, hex_value a = Some x /\ hex_value b = Some y
                   /\ v sig = Some (16 * Z.of_N x + Z.of_N y).
Proof.
  apply (signature_splits_without_loss longSignature). vm_compute. reflexivity.
Defined.

Section AtTheGate.
Variables (rt : Runtime) (env : Gate.Env) (w : Gate.World).

(** The gate refuses what X402BrowserClient sends.  The header, being
    base64, is answered 400 Invalid payment format; and a header holding
    the payload as plain JSON would be answered 400 Invalid authorization,
    because the payload keeps v, r and s beside the authorization fields
    where the gate looks for payload.signature and payload.authorization.
    Neither reaches the facilitator or the set of processed payments. *)
Theorem browser_client_is_refused (sg : Signing) (wallet : Wallet)
    (method : PaymentMethod) (signature : string)
    (store : list JS.value) (body : JS.value) :
  let payload := payloadOf method (message sg wallet method) (split signature) in
  signTypedData sg wallet (domain method) types (message sg wallet method)
  = Ok signature ->
  createPaymentAuthorization sg wallet method = Ok (base64 (JSON_stringify payload))
  /\ (refusesLetters rt ->
      Gate.handle rt w env store
        {| Gate.x_payment := Some (base64 (JSON_stringify payload)); Gate.body := body |}
      = GateTerms.silently store Gate.invalidFormat)
  /\ (forall h, h <> EmptyString -> JSON_parse rt h = Ok payload ->
      Gate.handle rt w env store {| Gate.x_payment := Some h; Gate.body := body |}
      = GateTerms.silently store Gate.invalidAuthorization).
Proof.
  intros payload Hsig. split; [| split].
  - unfold createPaymentAuthorization. rewrite Hsig. reflexivity.
  - intros Hrefuses. unfold Gate.handle. cbn [Gate.x_payment].
    destruct (ServerClientProps.base64_of_object
                match payload with JObj fields => fields | _ => [] end)
      as [rest Hrest].
    change (JObj match payload with JObj fields => fields | _ => [] end)
      with payload in Hrest.
    rewrite Hrest. destruct (Hrefuses rest) as [e ->]. reflexivity.
  - intros h Hne Hparse. unfold Gate.handle. cbn [Gate.x_payment].
    rewrite (proj2 (String.eqb_neq _ _) Hne), Hparse. reflexivity.
Qed.

End AtTheGate.

Lemma browser_client_is_refused_witness :
  let payload := payloadOf Sample.method
                   (message Sample.signing Sample.wallet Sample.method)
                   (split longSignature) in
  let sg := {| signTypedData := fun _ _ _ _ => Ok longSignature;
               now := now Sample.signing;
               randomBytes := randomBytes Sample.signing |} in
  createPaymentAuthorization sg Sample.wallet Sample.method
  = Ok (base64 (JSON_stringify payload))
  /\ (refusesLetters Node.node ->
      Gate.handle Node.node Sample.settling Sample.env []
        {| Gate.x_payment := Some (base64 (JSON_stringify payload));
           Gate.body := Sample.goodBody |}
      = GateTerms.silently [] Gate.invalidFormat)
  /\ (forall h, h <> EmptyString -> JSON_parse Node.node h = Ok payload ->
      Gate.handle Node.node Sample.settling Sample.env []
        {| Gate.x_payment := Some h; Gate.body := Sample.goodBody |}
      = GateTerms.silently [] Gate.invalidAuthorization).
Proof.
  intros payload sg.
  apply (browser_client_is_refused Node.node Sample.env Sample.settling sg
           Sample.wallet Sample.method longSignature [] Sample.goodBody).
  reflexivity.
Defined.

End BrowserProps.

(* ===================================================================== *)
(** * Properties of the tool registry and of the configuration            *)
(* ===================================================================== *)

Module RegistryProps.
Import JS Registry.

Section Tools.
Variables Schema Execute : Type.

Lemma set_keys (tools : Tools Schema Execute) (k : string) (c : ToolConfig Schema Execute) :
  map fst (set tools k c)
  = if existsb (String.eqb k) (map fst tools) then map fst tools
    else (map fst tools ++ [k])%list.
Proof.
  induction tools as [| [k' c'] rest IH]; [reflexivity |].
  cbn [set map fst existsb].
  destruct (String.eqb k k'); cbn [orb map fst]; [reflexivity |].
  rewrite IH. destruct (existsb (String.eqb k) (map fst rest)); reflexivity.
Qed.

Lemma set_keyed (tools : Tools Schema Execute) (c : ToolConfig Schema Execute) :
  keyed tools -> keyed (set tools (name c) c).
Proof.
  unfold keyed. induction tools as [| [k' c'] rest IH]; intros Hk k c0 Hin.
  - destruct Hin as [[= <- <-] | []]. reflexivity.
  - cbn [set] in Hin.
    destruct (String.eqb_spec (name c) k') as [Heq | Hne].
    + destruct Hin as [[= <- <-] | Hin]; [exact Heq |].
      apply Hk. right. exact Hin.
    + destruct Hin as [[= <- <-] | Hin]; [apply Hk; left; reflexivity |].
      apply IH; [| exact Hin]. intros k1 c1 H1. apply Hk. right. exact H1.
Qed.

Lemma existsb_eqb_false (k : string) (keys : list string) :
  existsb (String.eqb k) keys = false -> ~ In k keys.
Proof.
  intros H Hin. assert (existsb (String.eqb k) keys = true).
  { apply existsb_exists. exists k. split; [exact Hin | apply String.eqb_refl]. }
  congruence.
Qed.

Lemma set_distinct (tools : Tools Schema Execute) (k : string) (c : ToolConfig Schema Execute) :
  NoDup (map fst tools) -> NoDup (map fst (set tools k c)).
Proof.
  intros H. rewrite set_keys.
  destruct (existsb (String.eqb k) (map fst tools)) eqn:He; [exact H |].
  apply NoDup_app; [exact H | constructor; [intros [] | constructor] |].
  intros x Hx [<- | []]. exact (existsb_eqb_false _ _ He Hx).
Qed.

Lemma getTool_set (tools : Tools Schema Execute) (k n : string) (c : ToolConfig Schema Execute) :
  getTool (set tools k c) n = if String.eqb n k then Some c else getTool tools n.
Proof.
  induction tools as [| [k' c'] rest IH]; cbn [set getTool].
  - reflexivity.
  - destruct (String.eqb_spec k k') as [<- | Hne]; cbn [getTool].
    + destruct (String.eqb n k); reflexivity.
    + rewrite IH. destruct (String.eqb_spec n k') as [-> | Hn]; [| reflexivity].
      destruct (String.eqb_spec k' k) as [Heq | _]; [| reflexivity].
      symmetry in Heq. contradiction.
Qed.

Lemma registered_snoc (configs : list (ToolConfig Schema Execute)) (c : ToolConfig Schema Execute) :
  registered (configs ++ [c]) = registerTool (registered configs) c.
Proof. unfold registered. rewrite fold_left_app. reflexivity. Qed.

Lemma registered_invariant (configs : list (ToolConfig Schema Execute)) :
  NoDup (map fst (registered configs)) /\ keyed (registered configs).
Proof.
  induction configs as [| c configs [IHd IHk]] using rev_ind.
  - split; [constructor | intros k c []].
  - rewrite registered_snoc. unfold registerTool.
    split; [apply set_distinct; exact IHd | apply set_keyed; exact IHk].
Qed.

(** However tools are registered, the registry lists no two tools of the
    same name, holds at most as many tools as were registered, and looks a
    name up as the tool registered last under it. *)
Theorem registry_keeps_the_last_of_each_name (configs : list (ToolConfig Schema Execute)) :
  let tools := registered configs in
  NoDup (map name (getAllTools tools))
  /\ (count tools <= List.length configs)%nat
  /\ forall n, getTool tools n
               = find (fun c => String.eqb n (name c)) (rev configs).
Proof.
  intros tools. unfold tools. clear tools. split; [| split].
  - destruct (registered_invariant configs) as [Hd Hk].
    replace (map name (getAllTools (registered configs)))
      with (map fst (registered configs)); [exact Hd |].
    unfold getAllTools. rewrite map_map. apply map_ext_in.
    intros [k c] Hin. symmetry. exact (Hk k c Hin).
  - unfold count. induction configs as [| c configs IH] using rev_ind; [simpl; lia |].
    rewrite registered_snoc, length_app. unfold registerTool.
    rewrite <- (length_map fst (set _ _ _)), set_keys.
    rewrite <- (length_map fst (registered configs)) in IH.
    destruct (existsb _ _); rewrite ?length_app; cbn [List.length];
      lia.
  - intros n. induction configs as [| c configs IH] using rev_ind; [reflexivity |].
    rewrite registered_snoc, rev_app_distr. unfold registerTool.
    rewrite getTool_set. cbn [rev app find]. rewrite IH. reflexivity.
Qed.

Lemma total_compat (tools : Tools Schema Execute) (names : list string) (a b : Q) :
  (a == b)%Q ->
  (fold_left (fun total n => (total + price tools n)%Q) names a
   == fold_left (fun total n => (total + price tools n)%Q) names b)%Q.
Proof.
  revert a b. induction names as [| m names IH]; intros a b Hab; [exact Hab |].
  cbn [fold_left]. apply IH. rewrite Hab. reflexivity.
Qed.

(** The names of tools that are unknown or free can be left out of a cost
    calculation: the total is that of the paid tools named, each counted as
    often as it is named. *)
Theorem free_tools_cost_nothing (tools : Tools Schema Execute) (toolNames : list string) :
  (calculateCost tools toolNames
   == calculateCost tools
        (filter (fun n => match getTool tools n with
                          | Some tool => isPaid tool
                          | None => false
                          end) toolNames))%Q.
Proof.
  unfold calculateCost. generalize 0%Q as total.
  induction toolNames as [| n rest IH]; intros total; [reflexivity |].
  cbn [fold_left filter].
  assert (Hfree : price tools n = 0%Q ->
            (fold_left (fun total n => (total + price tools n)%Q) rest
               (total + price tools n)
             == fold_left (fun total n => (total + price tools n)%Q)
                  (filter (fun n => match getTool tools n with
                                    | Some tool => isPaid tool
                                    | None => false
                                    end) rest) total)%Q).
  { intros Hz. rewrite IH, Hz. apply total_compat. ring. }
  destruct (getTool tools n) as [tool |] eqn:Ht.
  - destruct (isPaid tool) eqn:Hp; [exact (IH _) |].
    apply Hfree. unfold price. rewrite Ht, Hp. reflexivity.
  - apply Hfree. unfold price. rewrite Ht. reflexivity.
Qed.

End Tools.

End RegistryProps.

Module ConfigProps.
Import JS Config WireTerms.

Lemma or_else_empty (v : option string) :
  Client.or_else v EmptyString = EmptyString <-> ~ isSet v.
Proof.
  unfold Client.or_else, isSet. destruct v as [text |].
  - destruct (String.eqb_spec text EmptyString) as [-> | Hne]; split.
    + intros _ (t & [= <-] & Hn). apply Hn. reflexivity.
    + reflexivity.
    + intros ->. contradiction Hne. reflexivity.
    + intros H. exfalso. apply H. exists text. split; [reflexivity | exact Hne].
  - split; [intros _ (t & Habs & _); discriminate Habs | reflexivity].
Qed.

(** A configuration loaded from the environment passes validation exactly
    when OPENAI_API_KEY and AGENT_WALLET_PRIVATE_KEY are set and not empty.
    The receiver address is never reported missing, since loadConfig
    always fills it in, with the address getReceiverWallet returns. *)
Theorem loaded_config_needs_two_keys (env : ProcessEnv) :
  (validateConfig (loadConfig env) = Ok tt
   <-> isSet (OPENAI_API_KEY env) /\ isSet (AGENT_WALLET_PRIVATE_KEY env))
  /\ ~ In "RECEIVER_WALLET_ADDRESS is required" (errors (loadConfig env))
  /\ receiverWalletAddress (loadConfig env) = getReceiverWallet env
  /\ receiverWalletAddress (loadConfig env) <> EmptyString.
Proof.
  assert (Hrecv : receiverWalletAddress (loadConfig env) <> EmptyString).
  { cbn [loadConfig receiverWalletAddress]. unfold Client.or_else.
    destruct (RECEIVER_WALLET_ADDRESS env) as [text |]; [| discriminate].
    destruct (String.eqb_spec text EmptyString); [discriminate | assumption]. }
  pose proof (or_else_empty (OPENAI_API_KEY env)) as Hkey.
  pose proof (or_else_empty (AGENT_WALLET_PRIVATE_KEY env)) as Hwallet.
  unfold validateConfig, errors.
  rewrite (proj2 (String.eqb_neq _ _) Hrecv).
  cbn [loadConfig openaiApiKey agentWalletPrivateKey].
  destruct (String.eqb_spec (Client.or_else (OPENAI_API_KEY env) EmptyString) EmptyString)
    as [Hk | Hk];
    destruct (String.eqb_spec (Client.or_else (AGENT_WALLET_PRIVATE_KEY env) EmptyString)
                EmptyString) as [Hw | Hw];
    cbn [app]; (split; [split |]).
  all: try (intros H; discriminate H).
  all: try (intros [H1 H2]; exfalso;
            first [apply (proj1 Hkey Hk); exact H1 | apply (proj1 Hwallet Hw); exact H2]).
  all: try (intros _; split;
            [ destruct (OPENAI_API_KEY env) as [t |] eqn:E;
              [ exists t; split; [reflexivity |];
                intros ->; apply Hk; reflexivity
              | exfalso; apply Hk; reflexivity ]
            | destruct (AGENT_WALLET_PRIVATE_KEY env) as [t |] eqn:E;
              [ exists t; split; [reflexivity |];
                intros ->; apply Hw; reflexivity
              | exfalso; apply Hw; reflexivity ] ]).
  all: try reflexivity.
  all: split; [| split; [reflexivity | exact Hrecv]].
  all: cbn [In]; intros H;
       repeat (destruct H as [H | H]; [discriminate H |]); exact H.
Qed.

End ConfigProps.

(* ===================================================================== *)
(** * Properties of the agent's wrapped tools                             *)
(* ===================================================================== *)

Module AgentProps.
Import JS Fetching WireTerms Agent.

Section Research.
Variable S : Type.
Variables (rt : Runtime) (key : option string) (serve : Server S) (schema : Schema).

(** research_company is marked as a paid tool but calls its endpoint with
    the platform's fetch, and the client's lastTransaction stays as it was.
    Run through the registry's wrapper once the client holds the record of
    an earlier successful payment, its result is handed to the agent with
    a payment member that names that earlier transaction and its explorer
    link, beside the tool's own three members. *)
Theorem research_reports_the_last_payment (registry : ToolRegistry S)
    (input validated : JS.value) (company : string) (aspects : list string)
    (outside outside' : S) (tx : X402Client.PaymentResult)
    (response : Response) (data : json) (words : json) :
  let tool := researchTool rt key serve schema in
  Registry.getTool (tools registry) "research_company" = Some tool ->
  x402Client registry = true ->
  schema input = Ok validated ->
  asResearch validated = Some (company, aspects) ->
  serve outside completionsUrl (researchRequest key company aspects)
  = (Ok response, outside') ->
  response_ok (status response) = true ->
  response_json rt (read response) = Ok data ->
  Sentiment.messageContent rt data = Ok (Some words) ->
  X402Client.success tx = true ->
  truthy (Some (X402Client.transactionHash tx)) = true ->
  func registry tool input (outside, Some tx)
  = (Resolved (JSON_stringify_indented EmptyString
                 (JObj [("company_name", JStr company);
                        ("research", words);
                        ("aspects_covered", JArr (map JStr aspects));
                        ("payment", paymentInfo tx)])),
     (outside', Some tx)).
Proof.
  intros tool Htool Hinit Hschema Hparams Hserve Hok Hdata Hwords Hsuccess Hhash.
  unfold func, executeTool.
  change (Registry.name tool) with "research_company".
  rewrite Htool.
  change (Registry.schema tool) with schema.
  change (Registry.isPaid tool) with true.
  change (Registry.execute tool) with (researchCompany rt key serve).
  rewrite Hschema, Hinit. cbn [andb].
  unfold researchCompany. cbn [negb fst snd].
  rewrite Hparams, Hserve, Hok. cbn [negb].
  rewrite Hdata. cbn [bind]. rewrite Hwords.
  rewrite Hsuccess, Hhash. reflexivity.
Qed.

End Research.

Lemma research_reports_the_last_payment_witness :
  let tool := researchTool Node.node (Some "sk-test") (completing "Acme makes anvils.")
                           anything in
  let registry := {| tools := Registry.registered [tool]; x402Client := true |} in
  func registry tool aboutAcme (tt, Some earlier)
  = (Resolved (JSON_stringify_indented EmptyString
                 (JObj [("company_name", JStr "Acme");
                        ("research", JStr "Acme makes anvils.");
                        ("aspects_covered", JArr (map JStr ["industry"; "products"]));
                        ("payment", paymentInfo earlier)])),
     (tt, Some earlier)).
Proof.
  intros tool registry.
  apply (research_reports_the_last_payment unit Node.node (Some "sk-test")
           (completing "Acme makes anvils.") anything registry aboutAcme aboutAcme
           "Acme" ["industry"; "products"] tt tt earlier
           {| status := 200; statusText := "OK"; responseHeaders := [];
              text := Ok (MoreTerms.completion (JStr "Acme makes anvils."));
              bodyUsed := false |}
           (JObj [("choices",
              JArr [JObj [("message", JObj [("role", JStr "assistant");
                                            ("content", JStr "Acme makes anvils.")])]])])
           (JStr "Acme makes anvils."));
    vm_compute; reflexivity.
Defined.

End AgentProps.
